(** * bot_support: the stateful core of the support-ticket bot

    A shallow embedding of the service and handler layers of the bot
    (scheduler, feedback cooldown, localisation lookup, ticket cards,
    user and admin text handlers), followed by the properties of the
    specification that concern them.

    Conventions.
    - A [datetime] is an integer number of microseconds ([Z]), the
      resolution of Python's [datetime]; [timedelta(seconds=n)] is
      [n * 1000000].
    - A Python [dict] is an association list kept in insertion order
      where the order of iteration matters or the data come from JSON,
      and a [gmap] otherwise.
    - A text is a string whose characters stand for the code points
      of the Python [str], so that its length is [len].
    - Calls to the message transport are recorded in an outbox in the
      order in which the handler issues them; where the outcome of a
      call decides the control flow, it is supplied by the environment.
    - The first part of the file holds the definitions, the second part
      the lemmas and theorems. *)

From Stdlib Require Import ZArith Ascii String List Bool Lia.
From stdpp Require Import base option list gmap strings pretty.

Local Open Scope Z_scope.

(** ** Python values shared by the modules *)

Module Py.

(** The exception classes that the embedded code distinguishes. *)
Inductive PyExc :=
| KeyError
| ValueError
| IndexError
| AttributeError
| TypeError.

(** Values passed as keyword arguments. *)
Inductive PyVal :=
| VNone
| VInt (z : Z)
| VStr (s : string).

#[global] Instance PyVal_eq_dec : EqDecision PyVal.
Proof. solve_decision. Defined.

(** [str(v)]. *)
Definition py_str (v : PyVal) : string :=
  match v with
  | VNone => "None"
  | VInt z => pretty z
  | VStr s => s
  end.

(** Truth value of an [Optional[str]]: [None] and [''] are false. *)
Definition truthy (o : option string) : bool :=
  match o with
  | Some s => negb (String.eqb s "")
  | None => false
  end.

(** [a or b] on an [Optional[str]] with a string default. *)
Definition or_default (o : option string) (d : string) : string :=
  match o with
  | Some s => if String.eqb s "" then d else s
  | None => d
  end.

(** Insertion-ordered dictionaries with string keys. *)
Fixpoint dict_get {V : Type} (k : string) (d : list (string * V)) : option V :=
  match d with
  | [] => None
  | (k', v) :: d' => if String.eqb k k' then Some v else dict_get k d'
  end.

(** [d[k] = v]: an existing key keeps its position, a new key goes last. *)
Fixpoint dict_set {V : Type} (k : string) (v : V) (d : list (string * V))
  : list (string * V) :=
  match d with
  | [] => [(k, v)]
  | (k', v') :: d' =>
      if String.eqb k k' then (k', v) :: d' else (k', v') :: dict_set k v d'
  end.

(** [del d[k]] guarded by [k in d]. *)
Fixpoint dict_del {V : Type} (k : string) (d : list (string * V))
  : list (string * V) :=
  match d with
  | [] => []
  | (k', v') :: d' =>
      if String.eqb k k' then d' else (k', v') :: dict_del k d'
  end.

Definition dict_keys {V : Type} (d : list (string * V)) : list string :=
  map fst d.

End Py.

(** ** services/scheduler.py *)

Module Scheduler.

Import Py.

(** What a job coroutine can raise, as far as the handlers of
    [_run_scheduler] tell apart: an instance of [Exception], or
    [asyncio.CancelledError], which derives from [BaseException] only
    (the code base imports [zoneinfo], hence runs on Python 3.9 or
    later). *)
Inductive Exc :=
| ExcException
| ExcCancelled.

Inductive Outcome :=
| Returned
| Raised (e : Exc).

(** One execution of a job body: the time it takes and how it ends. *)
Record Run := { elapsed : Z; outcome : Outcome }.

(** An async callable registered as a job.  [call t] is an execution
    started at time [t] that is left to finish; [cancelled t] is an
    execution started at [t] into which [CancelledError] is thrown
    while it is suspended (it may let the error propagate, or catch it
    and then return or raise). *)
Record Callable := { call : Z -> Run; cancelled : Z -> Run }.

(** A value of the [jobs] dict. *)
Record Job := {
  func : Callable;
  interval : Z;
  last_run : option Z;
  next_run : Z
}.

Definition timedelta (seconds : Z) : Z := seconds * 1000000.

(** [datetime.now()] is a naive [datetime].  The timestamps of this
    module count the microseconds from [datetime.min], the first
    instant of the year 1; [datetime_max] is [datetime.max], the last
    microsecond of the year 9999. *)
Definition datetime_max : Z := 315537897599999999.

(** [t + timedelta(seconds=seconds)]; [None] stands for
    [OverflowError], which [timedelta] raises beyond 999999999 days
    either way and the addition raises when the sum is not a
    [datetime]. *)
Definition plus_seconds (t seconds : Z) : option Z :=
  if (- 999999999 <=? seconds / 86400) && (seconds / 86400 <=? 999999999)
     && (0 <=? t + timedelta seconds)
     && (t + timedelta seconds <=? datetime_max)
  then Some (t + timedelta seconds)
  else None.

(** Where the coroutine [_run_scheduler] of a task is suspended.  A
    task inside the [for] loop is suspended in [await
    job_info['func']()] and holds the timestamp [now] of its iteration,
    the pair [job_id], [job_info] that the iterator gave last, the time
    at which the job body was entered, and the iterator over
    [self.jobs.items()]: the keys it has not given yet, the size of the
    dict when the iteration began, and whether keys were added or
    removed since.  [in_table] tells whether [job_info] still is the
    dict that [self.jobs] holds under [job_id]. *)
Inductive TaskState :=
| Created
| Sleeping
| InJob (now : Z) (job_id : string) (job_info : Job) (in_table : bool)
        (started : Z) (rest : list string) (used : nat) (changed : bool)
| Done.

(** The fields of [SchedulerService]; [tasks] holds handles into the
    task table of the event loop. *)
Record SchedulerService := {
  tasks : list nat;
  running : bool;
  jobs : list (string * Job)
}.

(** The scheduler together with what it acts on: the clock, the task
    table of the event loop, and two logs (job bodies entered, with
    their start time; job ids passed to [logger.error]). *)
Record World := {
  clock : Z;
  svc : SchedulerService;
  loop_tasks : list TaskState;
  executed : list (string * Z);
  errors : list string
}.

Definition init : World :=
  {| clock := 0;
     svc := {| tasks := []; running := false; jobs := [] |};
     loop_tasks := [];
     executed := [];
     errors := [] |}.

Definition set_clock (t : Z) (w : World) : World :=
  {| clock := t; svc := svc w; loop_tasks := loop_tasks w;
     executed := executed w; errors := errors w |}.

Definition set_svc (s : SchedulerService) (w : World) : World :=
  {| clock := clock w; svc := s; loop_tasks := loop_tasks w;
     executed := executed w; errors := errors w |}.

Definition set_loop_tasks (l : list TaskState) (w : World) : World :=
  {| clock := clock w; svc := svc w; loop_tasks := l;
     executed := executed w; errors := errors w |}.

Definition set_jobs (js : list (string * Job)) (w : World) : World :=
  set_svc {| tasks := tasks (svc w); running := running (svc w);
             jobs := js |} w.

Definition set_running (b : bool) (w : World) : World :=
  set_svc {| tasks := tasks (svc w); running := b;
             jobs := jobs (svc w) |} w.

Definition set_tasks (ts : list nat) (w : World) : World :=
  set_svc {| tasks := ts; running := running (svc w);
             jobs := jobs (svc w) |} w.

Definition log_executed (job_id : string) (w : World) : World :=
  {| clock := clock w; svc := svc w; loop_tasks := loop_tasks w;
     executed := executed w ++ [(job_id, clock w)]; errors := errors w |}.

Definition log_error (job_id : string) (w : World) : World :=
  {| clock := clock w; svc := svc w; loop_tasks := loop_tasks w;
     executed := executed w; errors := errors w ++ [job_id] |}.

(** [job_id in self.jobs]. *)
Definition has_job (job_id : string) (w : World) : bool :=
  match dict_get job_id (jobs (svc w)) with
  | Some _ => true
  | None => false
  end.

(** What an assignment to or a deletion of [self.jobs[key]] means to a
    task that is inside its [for] loop: the dict that the task holds
    for [key] is no longer the one in the table, and a key that comes
    or goes is seen by its iterator. *)
Definition note_change (key : string) (keys_change : bool) (st : TaskState)
  : TaskState :=
  match st with
  | InJob now job_id job_info in_table started rest used changed =>
      InJob now job_id job_info (in_table && negb (String.eqb key job_id))
        started rest used (changed || keys_change)
  | _ => st
  end.

(** [add_job]: a new dict is stored under [job_id]. *)
Definition add_job (job_id : string) (f : Callable) (interval_seconds : Z)
  (w : World) : World :=
  set_loop_tasks (note_change job_id (negb (has_job job_id w))
                    <$> loop_tasks w)
    (set_jobs (dict_set job_id
                 {| func := f; interval := interval_seconds;
                    last_run := None; next_run := clock w |}
                 (jobs (svc w))) w).

(** [remove_job]. *)
Definition remove_job (job_id : string) (w : World) : World :=
  if has_job job_id w then
    set_loop_tasks (note_change job_id true <$> loop_tasks w)
      (set_jobs (dict_del job_id (jobs (svc w))) w)
  else w.

(** [start]. *)
Definition start (w : World) : World :=
  if running (svc w) then w
  else
    let task := length (loop_tasks w) in
    let w1 := set_running true w in
    let w2 := set_loop_tasks (loop_tasks w1 ++ [Created]) w1 in
    set_tasks (tasks (svc w2) ++ [task]) w2.

(** An assignment [job_info[...] = ...] by the loop: it reaches the
    table when [job_info] is the dict stored under [job_id]. *)
Definition update_job (in_table : bool) (job_id : string) (f : Job -> Job)
  (w : World) : World :=
  if in_table then
    match dict_get job_id (jobs (svc w)) with
    | Some job_info =>
        set_jobs (dict_set job_id (f job_info) (jobs (svc w))) w
    | None => w
    end
  else w.

Definition set_last_run (t : Z) (job_info : Job) : Job :=
  {| func := func job_info; interval := interval job_info;
     last_run := Some t; next_run := next_run job_info |}.

Definition set_next_run (t : Z) (job_info : Job) : Job :=
  {| func := func job_info; interval := interval job_info;
     last_run := last_run job_info; next_run := t |}.

(** The end of one job execution inside the loop body: the inner
    [try] of [_run_scheduler] from the return of [await
    job_info['func']()] on.  The boolean tells whether the loop goes
    on.  It does not when [CancelledError] comes out of the job body,
    which only the outer handler catches, and when [now +
    timedelta(...)] raises [OverflowError]: after a job that returned
    this happens in the [try], with [last_run] assigned already, the
    inner handler logs the failure and computes the same sum, and the
    error it raises reaches the outer handler; after a job that raised
    it happens in the inner handler at once. *)
Definition finish_job (now : Z) (job_id : string) (job_info : Job)
  (in_table : bool) (r : Run) (w : World) : World * bool :=
  let w1 := set_clock (clock w + elapsed r) w in
  match outcome r with
  | Returned =>
      let w2 := update_job in_table job_id (set_last_run now) w1 in
      match plus_seconds now (interval job_info) with
      | Some t => (update_job in_table job_id (set_next_run t) w2, true)
      | None => (log_error job_id w2, false)
      end
  | Raised ExcException =>
      let w2 := log_error job_id w1 in
      match plus_seconds now (interval job_info) with
      | Some t => (update_job in_table job_id (set_next_run t) w2, true)
      | None => (w2, false)
      end
  | Raised ExcCancelled => (w1, false)
  end.

(** The [for] loop over [self.jobs.items()] with the timestamp [now] of
    the iteration, every job body running to its end and the job table
    touched by nothing but the loop. *)
Fixpoint for_jobs (now : Z) (ids : list string) (w : World) : World * bool :=
  match ids with
  | [] => (w, true)
  | job_id :: rest =>
      match dict_get job_id (jobs (svc w)) with
      | None => for_jobs now rest w
      | Some job_info =>
          if now >=? next_run job_info then
            let started := clock w in
            let '(w1, go) :=
              finish_job now job_id job_info true
                (call (func job_info) started) (log_executed job_id w) in
            if go then for_jobs now rest w1 else (w1, false)
          else for_jobs now rest w
      end
  end.

(** One iteration of [while self.running], from the test of the flag to
    the suspension in [asyncio.sleep(1)], when nothing interrupts it. *)
Definition loop_iteration (w : World) : World * TaskState :=
  if running (svc w) then
    let '(w1, go) :=
      for_jobs (clock w) (dict_keys (jobs (svc w))) w in
    (w1, if go then Sleeping else Done)
  else (w, Done).

(** The job bodies entered in the iteration that starts in [w], with
    the times at which they were entered. *)
Definition runs_of_iteration (w : World) : list (string * Z) :=
  drop (length (executed w)) (executed (loop_iteration w).1).

(** The same loop in steps from one suspension point to the next.
    [scan] continues the [for] loop up to the next job that is due,
    enters it and suspends there. *)
Fixpoint scan (now : Z) (used : nat) (changed : bool) (ids : list string)
  (w : World) : World * TaskState :=
  match ids with
  | [] => (w, Sleeping)
  | job_id :: rest =>
      match dict_get job_id (jobs (svc w)) with
      | None => scan now used changed rest w
      | Some job_info =>
          if now >=? next_run job_info then
            (log_executed job_id w,
             InJob now job_id job_info true (clock w) rest used changed)
          else scan now used changed rest w
      end
  end.

Definition enter_loop (w : World) : World * TaskState :=
  if running (svc w) then
    scan (clock w) (length (jobs (svc w))) false (dict_keys (jobs (svc w))) w
  else (w, Done).

(** The next step of the iterator over [self.jobs.items()] after a
    suspension: the keys it goes on with, or [None] when it raises
    [RuntimeError], which is outside the inner [try] and ends the loop
    in the outer handler.  It raises when the size of the dict is not
    the one at the start of the iteration.  When keys were removed and
    added with no change of size, Python leaves open whether the
    iterator raises or which entries it still gives; [fate] is what it
    does. *)
Definition next_jobs (fate : option (list string)) (rest : list string)
  (used : nat) (changed : bool) (w : World) : option (list string) :=
  if negb (Nat.eqb (length (jobs (svc w))) used) then None
  else if changed then fate
  else Some rest.

(** The loop from the end of a job body to the next suspension. *)
Definition after_job (fate : option (list string)) (now : Z)
  (rest : list string) (used : nat) (changed : bool) (p : World * bool)
  : World * TaskState :=
  let '(w1, go) := p in
  if go then
    match next_jobs fate rest used changed w1 with
    | Some ids => scan now used changed ids w1
    | None => (w1, Done)
    end
  else (w1, Done).

(** The event loop resumes the task without an exception. *)
Definition resume (fate : option (list string)) (st : TaskState) (w : World)
  : World * TaskState :=
  match st with
  | Created => enter_loop w
  | Sleeping => enter_loop (set_clock (clock w + timedelta 1) w)
  | InJob now job_id job_info in_table started rest used changed =>
      after_job fate now rest used changed
        (finish_job now job_id job_info in_table
           (call (func job_info) started) w)
  | Done => (w, Done)
  end.

(** The event loop resumes a task on which [cancel()] was called:
    [CancelledError] is thrown into it where it is suspended.  A task
    that has not started or sleeps ends; a task suspended in a job body
    goes on as that body decides. *)
Definition throw (fate : option (list string)) (st : TaskState) (w : World)
  : World * TaskState :=
  match st with
  | Created => (w, Done)
  | Sleeping => (w, Done)
  | InJob now job_id job_info in_table started rest used changed =>
      after_job fate now rest used changed
        (finish_job now job_id job_info in_table
           (cancelled (func job_info) started) w)
  | Done => (w, Done)
  end.

(** [task.cancel()] followed by [await task], when no other call on the
    scheduler is made before the task has ended: the state in which
    the awaiting caller gets control back.  A task that has not started
    or sleeps ends at once.  A task suspended in a job body has
    [CancelledError] thrown into that body; if the body swallows it,
    the rest of the iteration runs, then the sleep, then the test of
    [self.running] (which [stop] has cleared by then, so that the
    coroutine returns). *)
Definition cancel_and_await (fate : option (list string)) (st : TaskState)
  (w : World) : World * TaskState :=
  match st with
  | Created => (w, Done)
  | Sleeping => (w, Done)
  | InJob now job_id job_info in_table started rest used changed =>
      let '(w1, go) :=
        finish_job now job_id job_info in_table
          (cancelled (func job_info) started) w in
      if go then
        match next_jobs fate rest used changed w1 with
        | Some ids =>
            let '(w2, go2) := for_jobs now ids w1 in
            if go2 then enter_loop (set_clock (clock w2 + timedelta 1) w2)
            else (w2, Done)
        | None => (w1, Done)
        end
      else (w1, Done)
  | Done => (w, Done)
  end.

Definition cancel_task (fate : option (list string)) (task : nat) (w : World)
  : World :=
  match loop_tasks w !! task with
  | Some st =>
      let '(w1, st1) := cancel_and_await fate st w in
      set_loop_tasks (<[task := st1]> (loop_tasks w1)) w1
  | None => w
  end.

(** [stop] in two parts.  [stop_enter] is the call of a scheduler whose
    flag is up, as far as its first [await task]: the flag is down and
    the cancellation of the first task is requested, which the event
    loop delivers when it resumes that task.  If that task has not
    ended, the coroutine of [stop] is suspended there, and other
    coroutines run. *)
Definition stop_enter (w : World) : World := set_running false w.

(** The rest of [stop], from that [await] to the return, when no other
    call on the scheduler is made in between: every task of
    [self.tasks] is cancelled and awaited in turn, then the list is
    cleared. *)
Definition stop_leave (fate : option (list string)) (w : World) : World :=
  set_tasks []
    (fold_left (fun acc task => cancel_task fate task acc) (tasks (svc w)) w).

(** [stop] run from its call to its return with no other call on the
    scheduler in between. *)
Definition stop_with (fate : option (list string)) (w : World) : World :=
  if negb (running (svc w)) then w else stop_leave fate (stop_enter w).

Definition stop (w : World) : World := stop_with None w.

(** What can happen to the scheduler.  [EvStop] and [EvResume] say what
    an iterator does where Python leaves it open (see [next_jobs]). *)
Inductive Event :=
| EvStart
| EvStop (fate : option (list string))
| EvAddJob (job_id : string) (f : Callable) (interval_seconds : Z)
| EvRemoveJob (job_id : string)
| EvResume (task : nat) (fate : option (list string))
| EvElapse (d : Z).

Definition in_job (st : TaskState) : bool :=
  match st with
  | InJob _ _ _ _ _ _ _ _ => true
  | _ => false
  end.

(** One event, when the calls on the scheduler do not overlap: a call
    of [start], [add_job] or [remove_job] has no [await] and runs to
    its end in one piece; a call of [stop] is taken from its call to
    its return, the cancelled tasks running to their end in between
    and no other call being made ([main.py] calls [start] once and
    [stop] at shutdown).  Calls that overlap a [stop] are outside these
    events; [stop_enter] and [throw] give the states they meet.
    [add_job] and [remove_job] are possible at any time, also while a
    task is suspended inside its [for] loop. *)
Definition step (e : Event) (w : World) : option World :=
  match e with
  | EvStart => Some (start w)
  | EvStop fate => Some (stop_with fate w)
  | EvAddJob job_id f interval_seconds =>
      Some (add_job job_id f interval_seconds w)
  | EvRemoveJob job_id => Some (remove_job job_id w)
  | EvResume task fate =>
      match loop_tasks w !! task with
      | Some st =>
          let '(w1, st1) := resume fate st w in
          Some (set_loop_tasks (<[task := st1]> (loop_tasks w1)) w1)
      | None => None
      end
  | EvElapse d => if 0 <=? d then Some (set_clock (clock w + d) w) else None
  end.

Fixpoint run (evs : list Event) (w : World) : option World :=
  match evs with
  | [] => Some w
  | e :: evs' =>
      match step e w with
      | Some w1 => run evs' w1
      | None => None
      end
  end.

(** The states of a scheduler whose calls have not overlapped. *)
Definition reachable_without_overlap (w : World) : Prop :=
  exists evs, run evs init = Some w.



(** Resuming a task again and again, at most [n] times, until it
    sleeps or has finished. *)
Fixpoint drive (n : nat) (p : World * TaskState) : World * TaskState :=
  match n with
  | O => p
  | S n' =>
      if in_job (snd p) then drive n' (resume None (snd p) (fst p)) else p
  end.



(** In every job body of the table, the only exceptions raised are
    instances of [Exception]. *)
Definition raises_only_Exception (w : World) : Prop :=
  forall job_id job_info t e,
    dict_get job_id (jobs (svc w)) = Some job_info ->
    outcome (call (func job_info) t) = Raised e ->
    e = ExcException.

(** For every job that is due at [now], [now + timedelta(seconds=
    interval)] is a [datetime]. *)
Definition due_jobs_in_range (now : Z) (w : World) : Prop :=
  forall job_id job_info,
    dict_get job_id (jobs (svc w)) = Some job_info ->
    next_run job_info <= now ->
    plus_seconds now (interval job_info) <> None.

(** The two readings of the rescheduling rule that the statements
    below compare.  [rescheduled_from_run_start w]: after the iteration
    started in [w], every job that ran in it is next due one interval
    after the start of its own run. *)
Definition rescheduled_from_run_start (w : World) : Prop :=
  forall job_id t job_info,
    In (job_id, t) (executed (loop_iteration w).1) ->
    dict_get job_id (jobs (svc (loop_iteration w).1)) = Some job_info ->
    next_run job_info = t + timedelta (interval job_info).

(** [failure_is_contained w]: whatever a job body raises in the
    iteration started in [w], the failure is logged, the job is
    rescheduled, every job that is due runs, and the loop goes on to its
    sleep. *)
Definition failure_is_contained (w : World) : Prop :=
  forall job_id job_info t e,
    dict_get job_id (jobs (svc w)) = Some job_info ->
    In (job_id, t) (executed (loop_iteration w).1) ->
    outcome (call (func job_info) t) = Raised e ->
    (loop_iteration w).2 = Sleeping
    /\ In job_id (errors (loop_iteration w).1)
    /\ (exists job_info',
          dict_get job_id (jobs (svc (loop_iteration w).1)) = Some job_info'
          /\ next_run job_info' = clock w + timedelta (interval job_info))
    /\ (forall other other_info,
          dict_get other (jobs (svc w)) = Some other_info ->
          next_run other_info <= clock w ->
          exists t', In (other, t') (executed (loop_iteration w).1)).


End Scheduler.

(** ** Concrete schedulers used in the statements below *)

Module SchedulerExamples.

Import Py Scheduler.

Definition propagate : Z -> Run :=
  fun _ => {| elapsed := 0; outcome := Raised ExcCancelled |}.

(** Returns at once. *)
Definition quick : Callable :=
  {| call := fun _ => {| elapsed := 0; outcome := Returned |};
     cancelled := propagate |}.

(** Takes twenty seconds, then returns. *)
Definition slow : Callable :=
  {| call := fun _ => {| elapsed := timedelta 20; outcome := Returned |};
     cancelled := propagate |}.

(** Raises a [RuntimeError] after two seconds. *)
Definition failing : Callable :=
  {| call := fun _ => {| elapsed := timedelta 2;
                         outcome := Raised ExcException |};
     cancelled := propagate |}.

(** Awaits a future that has been cancelled: [CancelledError] comes out
    of the job body. *)
Definition awaits_cancelled : Callable :=
  {| call := fun _ => {| elapsed := 0; outcome := Raised ExcCancelled |};
     cancelled := propagate |}.

(** Catches [CancelledError] and returns after one more second. *)
Definition stubborn : Callable :=
  {| call := fun _ => {| elapsed := timedelta 5; outcome := Returned |};
     cancelled := fun _ => {| elapsed := timedelta 1; outcome := Returned |} |}.

(** A started scheduler with a slow backup job registered before a
    report job that is due every ten seconds. *)
Definition two_jobs : World :=
  add_job "report" quick 10 (add_job "backup" slow 60 (start init)).

(** A started scheduler whose first job fails. *)
Definition failing_first : World :=
  add_job "report" quick 10 (add_job "cleanup" failing 10 (start init)).

(** A started scheduler whose first job raises [CancelledError]. *)
Definition cancelled_first : World :=
  add_job "report" quick 10 (add_job "sync" awaits_cancelled 10 (start init)).

(** A started scheduler whose second job raises [CancelledError]. *)
Definition cancelled_last : World :=
  add_job "sync" awaits_cancelled 10 (add_job "report" quick 10 (start init)).

(** An interval of 10^12 seconds, some 31700 years: [timedelta] takes
    it, the sum with [now] lies after the year 9999. *)
Definition far : Z := 1000000000000.

(** A started scheduler whose first job returns and has the interval
    [far], and one whose first job fails and has that interval. *)
Definition far_returning : World :=
  add_job "report" quick 10 (add_job "backup" quick far (start init)).

Definition far_failing : World :=
  add_job "report" quick 10 (add_job "cleanup" failing far (start init)).

(** A scheduler whose task is suspended inside a job that swallows the
    cancellation, with the report job due behind it. *)
Definition started_stubborn : list Event :=
  [EvStart; EvAddJob "sync" stubborn 10; EvAddJob "report" quick 10;
   EvResume 0%nat None].

Definition stubborn_world : World :=
  default init (run started_stubborn init).



End SchedulerExamples.

(** ** config.py (absent from the sources): the constants that the
    embedded code reads, taken as a parameter *)

Module Config.

Record Settings := {
  ADMIN_ID : Z;
  ASK_MIN_LENGTH : nat;
  DEFAULT_LOCALE : string;
  FEEDBACK_COOLDOWN_ENABLED : bool;
  FEEDBACK_COOLDOWN_HOURS : Z
}.

End Config.

(** ** locales/__init__.py *)

Module Locales.

Import Py.

(** What [json.load] produces. *)
#[local] Unset Elimination Schemes.
Inductive Json :=
| JNull
| JBool (b : bool)
| JNum (z : Z)
| JStr (s : string)
| JArr (items : list Json)
| JObj (fields : list (string * Json)).
#[local] Set Elimination Schemes.

(** The module-level state. *)
Record Globals := {
  _current_locale : option string;
  _locales_data : list (string * Json);
  _user_locales : list (PyVal * string)
}.

Fixpoint user_locales_get (user_id : PyVal) (d : list (PyVal * string))
  : option string :=
  match d with
  | [] => None
  | (u, l) :: d' =>
      if decide (user_id = u) then Some l else user_locales_get user_id d'
  end.

Fixpoint user_locales_set (user_id : PyVal) (l : string)
  (d : list (PyVal * string)) : list (PyVal * string) :=
  match d with
  | [] => [(user_id, l)]
  | (u, l') :: d' =>
      if decide (user_id = u) then (u, l) :: d'
      else (u, l') :: user_locales_set user_id l d'
  end.

(** The outcome of [value.format] applied to the keyword arguments
    [format_kwargs], for a string [value]. *)
Inductive FormatOutcome :=
| Formatted (s : string)
| FormatRaises (e : PyExc).

(** What [get_text] leaves to its caller. *)
Inductive Result :=
| Return (value : Json)
| Raise (e : PyExc).

(** [s.split(sep)] for a one-character separator. *)
Fixpoint split (sep : ascii) (s : string) : list string :=
  match s with
  | EmptyString => [EmptyString]
  | String c rest =>
      if Ascii.eqb c sep then EmptyString :: split sep rest
      else
        match split sep rest with
        | [] => [String c EmptyString]
        | word :: words => String c word :: words
        end
  end.

(** [value[k]] for a string [k]: only a dict can be indexed by it. *)
Definition subscript (value : Json) (k : string) : PyExc + Json :=
  match value with
  | JObj fields =>
      match dict_get k fields with
      | Some v => inr v
      | None => inl KeyError
      end
  | _ => inl TypeError
  end.

(** The loop [for k in keys: value = value[k]]. *)
Fixpoint navigate (keys : list string) (value : Json) : PyExc + Json :=
  match keys with
  | [] => inr value
  | k :: keys' =>
      match subscript value k with
      | inr v => navigate keys' v
      | inl e => inl e
      end
  end.

Section WithEnvironment.

(** Python's [str.format], and the locale that [storage.data_manager]
    (absent from the sources) holds for a user: [None] when it has
    none, when the stored value is false, or when the lookup raises. *)
Variable format : string -> list (string * PyVal) -> FormatOutcome.
Variable stored_locale : PyVal -> option string.

(** [get_user_locale]; on a hit in the storage the locale is cached. *)
Definition get_user_locale (g : Globals) (user_id : PyVal)
  : option string * Globals :=
  match user_locales_get user_id (_user_locales g) with
  | Some l => (Some l, g)
  | None =>
      match stored_locale user_id with
      | Some l =>
          if truthy (Some l) then
            (Some l,
             {| _current_locale := _current_locale g;
                _locales_data := _locales_data g;
                _user_locales :=
                  user_locales_set user_id l (_user_locales g) |})
          else (_current_locale g, g)
      | None => (_current_locale g, g)
      end
  end.

(** The first half of [get_text]: the locale to use, by priority
    (explicit, of the user, global). *)
Definition choose_locale (g : Globals) (lang locale : option string)
  (kwargs : list (string * PyVal)) : option string * Globals :=
  let locale := if truthy lang && negb (truthy locale) then lang else locale in
  let user_id := dict_get "user_id" kwargs in
  if truthy locale then (locale, g)
  else
    match user_id with
    | Some VNone | None => (_current_locale g, g)
    | Some u => get_user_locale g u
    end.

(** The second half: the look-up of the key and the formatting. *)
Definition translate (g : Globals) (current_locale : option string)
  (key : string) (kwargs : list (string * PyVal)) : Result :=
  if negb (truthy current_locale) then Return (JStr "")
  else
    let keys := split "." key in
    match subscript (JObj (_locales_data g)) (default "" current_locale) with
    | inl _ => Return (JStr "")
    | inr data =>
        match navigate keys data with
        | inl _ => Return (JStr "")
        | inr value =>
            match kwargs with
            | [] => Return value
            | _ :: _ =>
                let format_kwargs :=
                  List.filter
                    (fun kv => negb (String.eqb (fst kv) "user_id")) kwargs in
                match format_kwargs with
                | [] => Return value
                | _ :: _ =>
                    match value with
                    | JStr template =>
                        match format template format_kwargs with
                        | Formatted s => Return (JStr s)
                        | FormatRaises KeyError => Return value
                        | FormatRaises ValueError => Return value
                        | FormatRaises AttributeError => Return (JStr "")
                        | FormatRaises TypeError => Return (JStr "")
                        | FormatRaises IndexError => Raise IndexError
                        end
                    | _ => Return (JStr "")
                    end
                end
            end
        end
    end.

(** [get_text(key, lang, locale, **kwargs)]. *)
Definition get_text (g : Globals) (key : string) (lang locale : option string)
  (kwargs : list (string * PyVal)) : Result * Globals :=
  let '(current_locale, g1) := choose_locale g lang locale kwargs in
  (translate g1 current_locale key kwargs, g1).

End WithEnvironment.

(** A model of [str.format] on templates whose replacement fields are
    plain: [{name}], [{}] or [{0}], with [{{] and [}}] for the braces.
    Fields with a conversion, a format specification or an attribute or
    index lookup are outside of it; it serves in the concrete
    evaluations only. *)
Definition is_digit (c : ascii) : bool :=
  let n := Ascii.nat_of_ascii c in (48 <=? n)%nat && (n <=? 57)%nat.

Fixpoint all_digits (s : string) : bool :=
  match s with
  | EmptyString => true
  | String c rest => is_digit c && all_digits rest
  end.

(** The value of a replacement field when no positional argument is
    passed. *)
Definition field_value (name : string) (kwargs : list (string * PyVal))
  : PyExc + PyVal :=
  if all_digits name then inl IndexError
  else
    match dict_get name kwargs with
    | Some v => inr v
    | None => inl KeyError
    end.

Definition prepend (s : string) (o : FormatOutcome) : FormatOutcome :=
  match o with
  | Formatted s' => Formatted (s +:+ s')
  | FormatRaises e => FormatRaises e
  end.

Fixpoint format_from (kwargs : list (string * PyVal)) (template : string)
  (field : option string) : FormatOutcome :=
  match template with
  | EmptyString =>
      match field with
      | None => Formatted ""
      | Some _ => FormatRaises ValueError
      end
  | String c rest =>
      match field with
      | None =>
          if Ascii.eqb c "{" then
            match rest with
            | String "{" rest' =>
                prepend "{" (format_from kwargs rest' None)
            | _ => format_from kwargs rest (Some "")
            end
          else if Ascii.eqb c "}" then
            match rest with
            | String "}" rest' =>
                prepend "}" (format_from kwargs rest' None)
            | _ => FormatRaises ValueError
            end
          else prepend (String c "") (format_from kwargs rest None)
      | Some name =>
          if Ascii.eqb c "}" then
            match field_value name kwargs with
            | inr v => prepend (py_str v) (format_from kwargs rest None)
            | inl e => FormatRaises e
            end
          else if Ascii.eqb c "{" then FormatRaises ValueError
          else format_from kwargs rest (Some (name +:+ String c ""))
      end
  end.

Definition format_plain (template : string) (kwargs : list (string * PyVal))
  : FormatOutcome :=
  format_from kwargs template None.

(** The claim that [get_text] is total: it returns a string. *)
Definition returns_string (r : Result) : Prop :=
  exists s, r = Return (JStr s).

End Locales.

(** ** services/feedback.py *)

Module Feedback.

Import Py Config Locales.

(** The cooldown part of [FeedbackService]: for a user and a feedback
    type, the time of the last submission. *)
Record FeedbackService := {
  last_feedback : gmap (Z * string) Z
}.

(** The result of [check_cooldown]: the pair [(can_send,
    error_message)], or the exception that comes out of [get_text]. *)
Inductive CheckResult :=
| Checked (can_send : bool) (error_message : option Json)
| CheckRaises (e : PyExc).

(** [int((need - elapsed + 3599) // 3600)], with [need] in seconds and
    [elapsed] in microseconds.  [elapsed] is the float
    [total_seconds()] of a difference of two [datetime]s: a number of
    microseconds divided by [10**6]; the floor division is taken
    exactly. *)
Definition remaining_hours (need elapsed : Z) : Z :=
  (need * 1000000 - elapsed + 3599 * 1000000) / (3600 * 1000000).

Section WithEnvironment.

Variable format : string -> list (string * PyVal) -> FormatOutcome.
Variable stored_locale : PyVal -> option string.
Variable cfg : Settings.

(** [check_cooldown], called at time [now]. *)
Definition check_cooldown (g : Globals) (self : FeedbackService) (now : Z)
  (user_id : Z) (feedback_type : string) (user_lang : option string)
  : CheckResult :=
  let user_lang := or_default user_lang (DEFAULT_LOCALE cfg) in
  if negb (FEEDBACK_COOLDOWN_ENABLED cfg) then Checked true None
  else
    match last_feedback self !! (user_id, feedback_type) with
    | None => Checked true None
    | Some last_time =>
        let elapsed := now - last_time in
        let need := FEEDBACK_COOLDOWN_HOURS cfg * 3600 in
        if elapsed >=? need * 1000000 then Checked true None
        else
          let remaining := remaining_hours need elapsed in
          let key := "messages." +:+ feedback_type +:+ "_cooldown" in
          match
            fst (get_text format stored_locale g key (Some user_lang) None
                   [("hours"%string, VInt remaining)])
          with
          | Return message => Checked false (Some message)
          | Raise e => CheckRaises e
          end
    end.

(** [update_last_feedback], called at time [now]. *)
Definition update_last_feedback (self : FeedbackService) (now : Z)
  (user_id : Z) (feedback_type : string) : FeedbackService :=
  {| last_feedback :=
       <[(user_id, feedback_type) := now]> (last_feedback self) |}.

End WithEnvironment.

(** Rounding up to whole hours, as the specification asks: the least
    number of hours that covers [need - elapsed]. *)
Definition ceil_hours (need elapsed : Z) : Z :=
  - ((- (need * 1000000 - elapsed)) / (3600 * 1000000)).

End Feedback.

(** ** Concrete locale data used in the statements below *)

Module LocaleExamples.

Import Py Config Locales Feedback.

Definition en : Json :=
  JObj [("messages"%string,
         JObj [("welcome"%string, JStr "Hello");
               ("min_length"%string, JStr "At least {n} characters");
               ("positional"%string, JStr "Wait {} hours");
               ("suggestion_cooldown"%string,
                JStr "Next suggestion in {hours} h")])].

Definition globals : Globals :=
  {| _current_locale := Some "en"%string;
     _locales_data := [("en"%string, en)];
     _user_locales := [] |}.

Definition no_storage : PyVal -> option string := fun _ => None.

Definition settings : Settings :=
  {| ADMIN_ID := 1;
     ASK_MIN_LENGTH := 20;
     DEFAULT_LOCALE := "en";
     FEEDBACK_COOLDOWN_ENABLED := true;
     FEEDBACK_COOLDOWN_HOURS := 1 |}.

(** The [datetime] a whole number of seconds after time 0. *)
Definition timestamp_s (seconds : Z) : Z := seconds * 1000000.

(** User 7 sent a suggestion at time 0. *)
Definition one_suggestion : FeedbackService :=
  {| last_feedback := {[ (7, "suggestion"%string) := 0 ]} |}.

End LocaleExamples.

(** ** services/tickets.py and services/bans.py (absent from the sources) *)

Module Tickets.

(** Modelled from the spec: the ticket of section 3, with its status,
    its messages and the sender of the last one. *)
Inductive Status :=
| StatusNew
| StatusWorking
| StatusDone.

Inductive Sender :=
| SenderUser
| SenderSupport.

Record Message := {
  sender : Sender;
  text : string;
  timestamp : Z
}.

Record Ticket := {
  id : nat;
  user_id : Z;
  username : option string;
  status : Status;
  messages : list Message;
  last_actor : Sender;
  rating : option string
}.

(** The tickets in creation order, and the next free identifier. *)
Record TicketService := {
  tickets : list Ticket;
  next_id : nat
}.

Definition is_done (s : Status) : bool :=
  match s with
  | StatusDone => true
  | _ => false
  end.

(** The ticket is one of user [uid] and is not closed. *)
Definition active_for (uid : Z) (t : Ticket) : bool :=
  (user_id t =? uid) && negb (is_done (status t)).

(** Modelled from the spec: [get_user_active_ticket], the
    [getActiveForUser] of section 4.1, "returns the sole non-done
    ticket for that user, or none". *)
Definition get_user_active_ticket (self : TicketService) (uid : Z)
  : option Ticket :=
  List.find (active_for uid) (tickets self).

(** Modelled from the spec: [get_ticket], the look-up by identifier
    behind the NotFound results of section 4.1. *)
Definition get_ticket (self : TicketService) (ticket_id : nat)
  : option Ticket :=
  List.find (fun t => Nat.eqb (id t) ticket_id) (tickets self).

(** The ticket that [get_ticket] finds, replaced by its image under
    [f]. *)
Fixpoint update_first (ticket_id : nat) (f : Ticket -> Ticket)
  (l : list Ticket) : list Ticket :=
  match l with
  | [] => []
  | t :: l' =>
      if Nat.eqb (id t) ticket_id then f t :: l'
      else t :: update_first ticket_id f l'
  end.

Definition update_ticket (ticket_id : nat) (f : Ticket -> Ticket)
  (self : TicketService) : TicketService :=
  {| tickets := update_first ticket_id f (tickets self);
     next_id := next_id self |}.

(** Modelled from the spec: [create_ticket], the [create] of section
    4.1, "fails with AlreadyActive if user already holds a non-done
    ticket; otherwise allocates a new ticket in state new with one
    message, sender=user, last_actor = user".  [None] is the failure. *)
Definition create_ticket (self : TicketService) (now : Z) (uid : Z)
  (initial_message : string) (uname : option string)
  : option (Ticket * TicketService) :=
  match get_user_active_ticket self uid with
  | Some _ => None
  | None =>
      let ticket :=
        {| id := next_id self; user_id := uid; username := uname;
           status := StatusNew;
           messages := [{| sender := SenderUser; text := initial_message;
                           timestamp := now |}];
           last_actor := SenderUser; rating := None |} in
      Some (ticket,
            {| tickets := tickets self ++ [ticket];
               next_id := S (next_id self) |})
  end.

Definition set_status (s : Status) (t : Ticket) : Ticket :=
  {| id := id t; user_id := user_id t; username := username t; status := s;
     messages := messages t; last_actor := last_actor t; rating := rating t |}.

(** Modelled from the spec: [take_ticket], the [take] of section 4.1,
    "legal only from new; transitions to working"; [None] stands for
    both NotFound and InvalidTransition, which the callers do not tell
    apart. *)
Definition take_ticket (self : TicketService) (ticket_id : nat)
  : option (Ticket * TicketService) :=
  match get_ticket self ticket_id with
  | Some t =>
      match status t with
      | StatusNew =>
          Some (set_status StatusWorking t,
                update_ticket ticket_id (set_status StatusWorking) self)
      | _ => None
      end
  | None => None
  end.

(** Modelled from the spec: [close_ticket], the [close] of section
    4.1, "transitions to done from either new or working". *)
Definition close_ticket (self : TicketService) (ticket_id : nat)
  : option (Ticket * TicketService) :=
  match get_ticket self ticket_id with
  | Some t =>
      Some (set_status StatusDone t,
            update_ticket ticket_id (set_status StatusDone) self)
  | None => None
  end.

Definition append_message (m : Message) (t : Ticket) : Ticket :=
  {| id := id t; user_id := user_id t; username := username t;
     status := status t; messages := messages t ++ [m];
     last_actor := sender m; rating := rating t |}.

(** Modelled from the spec: [add_message], the [addMessage] of section
    4.1, "appends a message regardless of current status; updates
    last_actor to sender". *)
Definition add_message (self : TicketService) (now : Z) (ticket_id : nat)
  (who : Sender) (body : string) : option (Ticket * TicketService) :=
  match get_ticket self ticket_id with
  | Some t =>
      let m := {| sender := who; text := body; timestamp := now |} in
      Some (append_message m t, update_ticket ticket_id (append_message m) self)
  | None => None
  end.

(** Modelled from the spec: [clear_active_tickets], the [clearActive]
    of section 4.1, "deletes all non-done tickets; returns count
    removed". *)
Definition clear_active_tickets (self : TicketService)
  : nat * TicketService :=
  (length (List.filter (fun t => negb (is_done (status t))) (tickets self)),
   {| tickets := List.filter (fun t => is_done (status t)) (tickets self);
      next_id := next_id self |}).

(** The invariant of section 3: no user holds two tickets that are
    not closed. *)
Definition single_active (self : TicketService) : Prop :=
  forall uid,
    (length (List.filter (active_for uid) (tickets self)) <= 1)%nat.

End Tickets.

Module Bans.

(** Modelled from the spec: the registry behind [ban_manager], the
    record "user_id -> reason" of section 3 with the interface of
    section 6; the stored reasons are kept in the order of
    [get_banned_list], together with the calls of [ban_user]
    received. *)
Record BanManager := {
  banned : list (Z * string);
  ban_user_calls : list (Z * string)
}.

(** Modelled from the spec: [get_banned_list], the [list] of section
    6. *)
Definition get_banned_list (self : BanManager) : list (Z * string) :=
  banned self.

(** Modelled from the spec: [is_banned], the [isBanned] of section 6. *)
Definition is_banned (self : BanManager) (uid : Z) : bool :=
  existsb (fun entry => fst entry =? uid) (banned self).

Fixpoint store_reason (uid : Z) (reason : string) (l : list (Z * string))
  : list (Z * string) :=
  match l with
  | [] => [(uid, reason)]
  | (u, r) :: l' =>
      if u =? uid then (u, reason) :: l'
      else (u, r) :: store_reason uid reason l'
  end.

(** Modelled from the spec: [ban_user], the [ban] of section 6, on the
    record "user_id -> reason" of section 3. *)
Definition ban_user (self : BanManager) (uid : Z) (reason : string)
  : BanManager :=
  {| banned := store_reason uid reason (banned self);
     ban_user_calls := ban_user_calls self ++ [(uid, reason)] |}.

(** Modelled from the spec: [unban_user], the [unban] of section 6. *)
Definition unban_user (self : BanManager) (uid : Z) : BanManager :=
  {| banned := List.filter (fun entry => negb (fst entry =? uid)) (banned self);
     ban_user_calls := ban_user_calls self |}.

End Bans.

(** ** handlers/user.py, handlers/admin.py and handlers/callbacks.py *)

Module Handlers.

Import Py Config Tickets Bans.

(** The values of [context.user_data["state"]]. *)
Inductive ConvState :=
| awaiting_question
| awaiting_suggestion
| awaiting_review
| awaiting_reply
| search_ticket_input
| awaiting_ban_user_id
| awaiting_ban_reason
| awaiting_unban_user_id.

(** [context.user_data] of one user, with the keys that the embedded
    handlers use; an absent key reads as [None]. *)
Record UserData := {
  state : option ConvState;
  reply_ticket_id : option nat;
  ban_user_id : option Z
}.

Definition no_data : UserData :=
  {| state := None; reply_ticket_id := None; ban_user_id := None |}.

Definition set_state (s : option ConvState) (d : UserData) : UserData :=
  {| state := s; reply_ticket_id := reply_ticket_id d;
     ban_user_id := ban_user_id d |}.

(** The [action] argument of [send_or_update_ticket_card]. *)
Inductive Action :=
| ActionNew
| ActionMessage
| ActionWorking
| ActionClosed.

Inductive Button :=
| ButtonTake (ticket_id : nat)
| ButtonClose (ticket_id : nat)
| ButtonReply (ticket_id : nat)
| ButtonMainMenu.

(** A ticket card: the header chosen by the action, the ticket that
    [format_ticket_card] renders, and the keyboard. *)
Record Card := {
  card_action : Action;
  card_ticket : Ticket;
  card_buttons : list Button
}.

(** The calls that the handlers issue to the transport.  A text is
    recorded as the key and the parameters from which [get_text] and
    [str.format] make it. *)
Inductive Call :=
| ReplyText (chat : Z) (key : string) (params : list (string * PyVal))
| SendText (chat : Z) (key : string) (params : list (string * PyVal))
| NotifyAdmin (from : Z) (body : string)
| ForwardReply (chat : Z) (body : string)
| EditCard (message_id : Z) (card : Card)
| SendCard (card : Card)
| ShowAdminScreen (key : string) (screen_type : string).

(** The exceptions that leave a handler. *)
Inductive Escaped :=
| AlreadyActive.

(** How [edit_message_text] ends: it returns, or raises
    [BadRequest] "Message is not modified" because the content is the
    one already shown, or raises for another reason. *)
Inductive EditOutcome :=
| EditOk
| EditNotModified
| EditFails.

(** What a handler gets from outside while it runs: the time, the
    outcome of the edit of a card, the identifier of the message that
    [send_message] creates for a card ([None]: the call raises), and
    Python's [int] on a stripped text ([None]: [ValueError]). *)
Record Env := {
  now : Z;
  edit_message_text : Z -> Card -> EditOutcome;
  send_message : Card -> option Z;
  int_of_text : string -> option Z
}.

(** The state that the handlers share. *)
Record Bot := {
  ticket_service : TicketService;
  ban_manager : BanManager;
  user_data : gmap Z UserData;
  TICKET_CARD_MESSAGES : gmap nat Z;
  outbox : list Call;
  escaped : list Escaped
}.

Definition empty_bot : Bot :=
  {| ticket_service := {| tickets := []; next_id := 0 |};
     ban_manager := {| banned := []; ban_user_calls := [] |};
     user_data := ∅;
     TICKET_CARD_MESSAGES := ∅;
     outbox := [];
     escaped := [] |}.

Definition data_of (b : Bot) (uid : Z) : UserData :=
  default no_data (user_data b !! uid).

Definition with_tickets (s : TicketService) (b : Bot) : Bot :=
  {| ticket_service := s; ban_manager := ban_manager b;
     user_data := user_data b;
     TICKET_CARD_MESSAGES := TICKET_CARD_MESSAGES b;
     outbox := outbox b; escaped := escaped b |}.

Definition with_bans (m : BanManager) (b : Bot) : Bot :=
  {| ticket_service := ticket_service b; ban_manager := m;
     user_data := user_data b;
     TICKET_CARD_MESSAGES := TICKET_CARD_MESSAGES b;
     outbox := outbox b; escaped := escaped b |}.

Definition with_data (uid : Z) (d : UserData) (b : Bot) : Bot :=
  {| ticket_service := ticket_service b; ban_manager := ban_manager b;
     user_data := <[uid := d]> (user_data b);
     TICKET_CARD_MESSAGES := TICKET_CARD_MESSAGES b;
     outbox := outbox b; escaped := escaped b |}.

Definition with_cards (m : gmap nat Z) (b : Bot) : Bot :=
  {| ticket_service := ticket_service b; ban_manager := ban_manager b;
     user_data := user_data b;
     TICKET_CARD_MESSAGES := m;
     outbox := outbox b; escaped := escaped b |}.

Definition emit (c : Call) (b : Bot) : Bot :=
  {| ticket_service := ticket_service b; ban_manager := ban_manager b;
     user_data := user_data b;
     TICKET_CARD_MESSAGES := TICKET_CARD_MESSAGES b;
     outbox := outbox b ++ [c]; escaped := escaped b |}.

Definition escape (e : Escaped) (b : Bot) : Bot :=
  {| ticket_service := ticket_service b; ban_manager := ban_manager b;
     user_data := user_data b;
     TICKET_CARD_MESSAGES := TICKET_CARD_MESSAGES b;
     outbox := outbox b; escaped := escaped b ++ [e] |}.

Definition put_state (uid : Z) (s : option ConvState) (b : Bot) : Bot :=
  with_data uid (set_state s (data_of b uid)) b.

(** Truth value of an optional message identifier: [None] and [0] are
    false. *)
Definition truthy_id (m : option Z) : bool :=
  match m with
  | Some z => negb (z =? 0)
  | None => false
  end.

(** The user that an update comes from. *)
Record User := {
  uid : Z;
  uname : option string
}.

Section WithEnvironment.

Variable cfg : Settings.
Variable env : Env.

Definition card_buttons_for (t : Ticket) : list Button :=
  match status t with
  | StatusNew => [ButtonTake (id t); ButtonClose (id t); ButtonMainMenu]
  | StatusWorking => [ButtonReply (id t); ButtonClose (id t); ButtonMainMenu]
  | StatusDone => [ButtonMainMenu]
  end.

(** [send_or_update_ticket_card]. *)
Definition send_or_update_ticket_card (ticket_id : nat) (action : Action)
  (message_id : option Z) (b : Bot) : Bot :=
  match get_ticket (ticket_service b) ticket_id with
  | None => b
  | Some ticket =>
      let card := {| card_action := action; card_ticket := ticket;
                     card_buttons := card_buttons_for ticket |} in
      let create (b0 : Bot) : Bot :=
        let b1 := emit (SendCard card) b0 in
        match send_message env card with
        | Some new_id =>
            with_cards (<[ticket_id := new_id]> (TICKET_CARD_MESSAGES b1)) b1
        | None => b1
        end in
      if truthy_id message_id then
        let mid := default 0 message_id in
        let b1 := emit (EditCard mid card) b in
        match edit_message_text env mid card with
        | EditOk =>
            with_cards (<[ticket_id := mid]> (TICKET_CARD_MESSAGES b1)) b1
        | EditNotModified => create b1
        | EditFails => create b1
        end
      else create b
  end.

(** [ask_question_handler]. *)
Definition ask_question_handler (user : User) (b : Bot) : Bot :=
  if is_banned (ban_manager b) (uid user) then
    emit (ReplyText (uid user) "messages.banned" []) b
  else
    match get_user_active_ticket (ticket_service b) (uid user) with
    | Some active_ticket =>
        emit (ReplyText (uid user) "messages.ticket_in_progress"
                [("ticket_id"%string, VInt (Z.of_nat (id active_ticket)))]) b
    | None =>
        emit (ReplyText (uid user) "messages.describe_question"
                [("n"%string, VInt (Z.of_nat (ASK_MIN_LENGTH cfg)))])
          (put_state (uid user) (Some awaiting_question) b)
    end.

(** [handle_question_text]. *)
Definition handle_question_text (user : User) (body : string) (b : Bot)
  : Bot :=
  if (String.length body <? ASK_MIN_LENGTH cfg)%nat then
    emit (ReplyText (uid user) "messages.min_length"
            [("n"%string, VInt (Z.of_nat (ASK_MIN_LENGTH cfg)))]) b
  else
    match create_ticket (ticket_service b) (now env) (uid user) body
            (uname user) with
    | None => escape AlreadyActive b
    | Some (ticket, service) =>
        let b1 := with_tickets service b in
        let b2 := put_state (uid user) None b1 in
        let b3 :=
          emit (ReplyText (uid user) "messages.ticket_created"
                  [("ticket_id"%string, VInt (Z.of_nat (id ticket)))]) b2 in
        send_or_update_ticket_card (id ticket) ActionNew None b3
    end.

(** [handle_ticket_message]. *)
Definition handle_ticket_message (user : User) (ticket_id : nat)
  (body : string) (b : Bot) : Bot :=
  let b1 :=
    match add_message (ticket_service b) (now env) ticket_id SenderUser body
    with
    | Some (_, service) => with_tickets service b
    | None => b
    end in
  let b2 := emit (ReplyText (uid user) "messages.message_sent" []) b1 in
  let b3 := emit (NotifyAdmin (uid user) body) b2 in
  send_or_update_ticket_card ticket_id ActionMessage
    (TICKET_CARD_MESSAGES b3 !! ticket_id) b3.

(** [handle_admin_reply]. *)
Definition handle_admin_reply (user : User) (body : string) (b : Bot) : Bot :=
  match reply_ticket_id (data_of b (uid user)) with
  | None => b
  | Some ticket_id =>
      match add_message (ticket_service b) (now env) ticket_id SenderSupport
              body with
      | None => emit (ReplyText (uid user) "messages.ticket_not_found" []) b
      | Some (ticket, service) =>
          let b1 := with_tickets service b in
          let d := data_of b1 (uid user) in
          let b2 :=
            with_data (uid user)
              {| state := None; reply_ticket_id := None;
                 ban_user_id := ban_user_id d |} b1 in
          let b3 := emit (ReplyText (uid user) "messages.answer_sent" []) b2 in
          let b4 := emit (ForwardReply (user_id ticket) body) b3 in
          send_or_update_ticket_card ticket_id ActionWorking
            (TICKET_CARD_MESSAGES b4 !! ticket_id) b4
      end
  end.

(** The reason stored for [target] in the list of [get_banned_list]:
    the loop with [break] of [admin_text_handler]. *)
Fixpoint find_reason (target : Z) (banned_list : list (Z * string))
  : option string :=
  match banned_list with
  | [] => None
  | (banned_user_id, reason) :: rest =>
      if banned_user_id =? target then Some reason
      else find_reason target rest
  end.

(** [admin_text_handler].  [None]: the branch of the search of a
    ticket, which is not embedded. *)
Definition admin_text_handler (user : User) (body : string) (b : Bot)
  : option Bot :=
  if negb (uid user =? ADMIN_ID cfg) then Some b
  else
    let d := data_of b (uid user) in
    match state d with
    | Some search_ticket_input => None
    | Some awaiting_ban_user_id =>
        match int_of_text env body with
        | Some target =>
            let b1 :=
              with_data (uid user)
                {| state := Some awaiting_ban_reason;
                   reply_ticket_id := reply_ticket_id d;
                   ban_user_id := Some target |} b in
            Some (emit (ReplyText (uid user) "admin.enter_ban_reason" []) b1)
        | None =>
            Some (emit (ReplyText (uid user) "messages.invalid_id_format" [])
                    b)
        end
    | Some awaiting_ban_reason =>
        if truthy_id (ban_user_id d) then
          let target := default 0 (ban_user_id d) in
          let ban_reason :=
            find_reason target (get_banned_list (ban_manager b)) in
          if truthy ban_reason then
            let b1 :=
              emit (ReplyText (uid user) "admin.user_already_banned_reason"
                      [("user_id"%string, VInt target);
                       ("reason"%string, VStr (default "" ban_reason))]) b in
            Some (put_state (uid user) None b1)
          else
            let b1 := with_bans (ban_user (ban_manager b) target body) b in
            let b2 := put_state (uid user) None b1 in
            Some (emit (ReplyText (uid user) "admin.user_banned"
                          [("user_id"%string, VInt target);
                           ("reason"%string, VStr body)]) b2)
        else Some b
    | Some awaiting_unban_user_id =>
        match int_of_text env body with
        | Some target =>
            let ban_reason :=
              find_reason target (get_banned_list (ban_manager b)) in
            if negb (truthy ban_reason) then
              let b1 :=
                emit (ReplyText (uid user) "admin.user_not_banned"
                        [("user_id"%string, VInt target)]) b in
              Some (put_state (uid user) None b1)
            else
              let b1 := with_bans (unban_user (ban_manager b) target) b in
              let b2 := put_state (uid user) None b1 in
              Some (emit (ReplyText (uid user) "admin.user_unbanned_reason"
                            [("user_id"%string, VInt target);
                             ("reason"%string, VStr (default "" ban_reason))])
                      b2)
        | None =>
            Some (emit (ReplyText (uid user) "messages.invalid_id_format" [])
                    b)
        end
    | Some awaiting_reply => Some (handle_admin_reply user body b)
    | _ => Some (emit (ReplyText (uid user) "admin.reply_instruction" []) b)
    end.

(** [text_message_handler].  [None]: the branches of the suggestion and
    of the review, which are not embedded, and the search above. *)
Definition text_message_handler (user : User) (body : string) (b : Bot)
  : option Bot :=
  if is_banned (ban_manager b) (uid user) then
    Some (emit (ReplyText (uid user) "messages.banned" []) b)
  else
    match state (data_of b (uid user)) with
    | Some awaiting_question => Some (handle_question_text user body b)
    | Some awaiting_suggestion => None
    | Some awaiting_review => None
    | Some awaiting_reply => Some (handle_admin_reply user body b)
    | _ =>
        if uid user =? ADMIN_ID cfg then admin_text_handler user body b
        else
          match get_user_active_ticket (ticket_service b) (uid user) with
          | Some active_ticket =>
              match last_actor active_ticket with
              | SenderUser =>
                  Some (emit (ReplyText (uid user)
                                "messages.wait_for_admin_reply" []) b)
              | SenderSupport =>
                  Some (handle_ticket_message user (id active_ticket) body b)
              end
          | None =>
              Some (emit (ReplyText (uid user)
                            "messages.please_choose_from_menu" []) b)
          end
    end.

(** The [callback_data] of the buttons whose branches of
    [callback_handler] are embedded. *)
Inductive CallbackData :=
| user_start_question
| take (ticket_id : nat)
| close (ticket_id : nat)
| reply (ticket_id : nat)
| clear_tickets
| ban_user_button
| unban_user_button.

Definition or_id (stored : option Z) (fallback : Z) : Z :=
  if truthy_id stored then default 0 stored else fallback.

(** [handle_take_ticket]. *)
Definition handle_take_ticket (query_message_id : Z) (ticket_id : nat)
  (b : Bot) : Bot :=
  match take_ticket (ticket_service b) ticket_id with
  | Some (ticket, service) =>
      let b1 := with_tickets service b in
      let b2 :=
        emit (SendText (user_id ticket) "messages.ticket_taken"
                [("ticket_id"%string, VInt (Z.of_nat ticket_id))]) b1 in
      let message_id :=
        or_id (TICKET_CARD_MESSAGES b2 !! ticket_id) query_message_id in
      let b3 :=
        with_cards (<[ticket_id := message_id]> (TICKET_CARD_MESSAGES b2)) b2 in
      send_or_update_ticket_card ticket_id ActionWorking (Some message_id) b3
  | None => emit (ShowAdminScreen "messages.ticket_not_found" "ticket") b
  end.

(** [handle_close_ticket]. *)
Definition handle_close_ticket (query_message_id : Z) (ticket_id : nat)
  (b : Bot) : Bot :=
  match close_ticket (ticket_service b) ticket_id with
  | Some (ticket, service) =>
      let b1 := with_tickets service b in
      let message_id :=
        or_id (TICKET_CARD_MESSAGES b1 !! ticket_id) query_message_id in
      let b2 :=
        with_cards (<[ticket_id := message_id]> (TICKET_CARD_MESSAGES b1)) b1 in
      let b3 :=
        send_or_update_ticket_card ticket_id ActionClosed (Some message_id)
          b2 in
      emit (SendText (user_id ticket) "messages.rate_quality" []) b3
  | None => emit (ShowAdminScreen "messages.ticket_not_found" "ticket") b
  end.

(** [handle_reply_ticket]. *)
Definition handle_reply_ticket (user : User) (ticket_id : nat) (b : Bot)
  : Bot :=
  match get_ticket (ticket_service b) ticket_id with
  | None => b
  | Some ticket =>
      match status ticket with
      | StatusWorking =>
          let d := data_of b (uid user) in
          let b1 :=
            with_data (uid user)
              {| state := Some awaiting_reply;
                 reply_ticket_id := Some ticket_id;
                 ban_user_id := ban_user_id d |} b in
          emit (SendText (ADMIN_ID cfg) "messages.enter_reply" []) b1
      | _ => b
      end
  end.

(** The embedded branches of [callback_handler]. *)
Definition callback_handler (user : User) (query_message_id : Z)
  (data : CallbackData) (b : Bot) : Bot :=
  match data with
  | user_start_question =>
      put_state (uid user) (Some awaiting_question)
        (emit (ReplyText (uid user) "messages.describe_question"
                 [("n"%string, VInt 20)]) b)
  | take ticket_id => handle_take_ticket query_message_id ticket_id b
  | close ticket_id => handle_close_ticket query_message_id ticket_id b
  | reply ticket_id => handle_reply_ticket user ticket_id b
  | clear_tickets =>
      let '(count, service) := clear_active_tickets (ticket_service b) in
      emit (ShowAdminScreen
              (if (0 <? count)%nat then "admin.tickets_cleared"
               else "admin.no_active_tickets") "settings")
        (with_tickets service b)
  | ban_user_button =>
      emit (ShowAdminScreen "admin.enter_user_id" "settings")
        (put_state (uid user) (Some awaiting_ban_user_id) b)
  | unban_user_button =>
      emit (ShowAdminScreen "admin.enter_unban_id" "settings")
        (put_state (uid user) (Some awaiting_unban_user_id) b)
  end.

End WithEnvironment.

(** An update that reaches the bot, with what the handler gets from
    outside while it processes it. *)
Inductive Update :=
| AskQuestion (env : Env) (user : User)
| Text (env : Env) (user : User) (body : string)
| Pressed (env : Env) (user : User) (query_message_id : Z)
    (data : CallbackData).

Definition dispatch (cfg : Settings) (u : Update) (b : Bot) : option Bot :=
  match u with
  | AskQuestion env user => Some (ask_question_handler cfg user b)
  | Text env user body => text_message_handler cfg env user body b
  | Pressed env user query_message_id data =>
      Some (callback_handler cfg env user query_message_id data b)
  end.

Fixpoint process (cfg : Settings) (us : list Update) (b : Bot) : option Bot :=
  match us with
  | [] => Some b
  | u :: us' =>
      match dispatch cfg u b with
      | Some b1 => process cfg us' b1
      | None => None
      end
  end.

(** [create_ticket] was called by the handler: a ticket was added, or
    the failure of the call left the handler. *)
Definition create_called (before after : Bot) : Prop :=
  tickets (ticket_service after) <> tickets (ticket_service before)
  \/ escaped after <> escaped before.

End Handlers.

(** ** Concrete bots used in the statements below *)

Module HandlerExamples.

Import Py Config Tickets Bans Handlers LocaleExamples.

Definition alice : User := {| uid := 7; uname := Some "alice"%string |}.

Definition admin : User := {| uid := 1; uname := Some "boss"%string |}.

(** Every edit succeeds; a new card gets the identifier 500. *)
Definition env_ok : Env :=
  {| now := 0;
     edit_message_text := fun _ _ => EditOk;
     send_message := fun _ => Some 500;
     int_of_text := fun _ => None |}.

(** The edit is refused because the content is unchanged; a new card
    gets the identifier 501. *)
Definition env_not_modified : Env :=
  {| now := 10;
     edit_message_text := fun _ _ => EditNotModified;
     send_message := fun _ => Some 501;
     int_of_text := fun _ => None |}.

Definition question : string := "My printer does not print at all".

(** Alice opens a ticket; its card is message 500 of the admin chat. *)
Definition one_ticket : Bot :=
  default empty_bot
    (process settings
       [Pressed env_ok alice 11 user_start_question;
        Text env_ok alice question]
       empty_bot).

(** Alice asks again while her ticket is open. *)
Definition asks_twice : list Update :=
  [Pressed env_ok alice 11 user_start_question;
   Text env_ok alice question;
   Pressed env_ok alice 12 user_start_question;
   Text env_ok alice question].

(** User 42 is banned with an empty reason, and the admin has just
    entered 42 as the user to ban. *)
Definition banned_without_reason : Bot :=
  with_data 1
    {| state := Some awaiting_ban_reason; reply_ticket_id := None;
       ban_user_id := Some 42 |}
    (with_bans {| banned := [(42, ""%string)]; ban_user_calls := [] |}
       empty_bot).

(** Alice is in [awaiting_question]. *)
Definition alice_asked : Bot :=
  callback_handler settings env_ok alice 11 user_start_question empty_bot.

Definition asked_twice : Bot :=
  default empty_bot (process settings asks_twice empty_bot).

(** The ticket of Alice. *)
Definition open_ticket : Ticket :=
  {| id := 0; user_id := 7; username := Some "alice"%string;
     status := StatusNew;
     messages := [{| sender := SenderUser; text := question;
                     timestamp := 0 |}];
     last_actor := SenderUser; rating := None |}.

End HandlerExamples.

(** ** services/scheduler.py: the status queries *)

Module SchedulerStatus.

Import Py.

(** The timing fields that the status dicts copy from a job. *)
Record Timing := {
  interval : Z;
  last_run : option Z;
  next_run : Z
}.

Definition timing_of (job : Scheduler.Job) : Timing :=
  {| interval := Scheduler.interval job;
     last_run := Scheduler.last_run job;
     next_run := Scheduler.next_run job |}.

(** [get_job_status]: [None] for an unknown id, else the dict with the
    key ['job_id'] and the timing fields. *)
Definition get_job_status (w : Scheduler.World) (job_id : string)
  : option (string * Timing) :=
  match dict_get job_id (Scheduler.jobs (Scheduler.svc w)) with
  | None => None
  | Some job => Some (job_id, timing_of job)
  end.

(** [get_all_jobs]: the comprehension over [self.jobs.items()]. *)
Definition get_all_jobs (w : Scheduler.World) : list (string * Timing) :=
  map (fun '(job_id, job) => (job_id, timing_of job))
    (Scheduler.jobs (Scheduler.svc w)).

End SchedulerStatus.

(** ** locales/__init__.py (the setters) and utils/locale_helper.py *)

Module LocaleHelper.

Import Py Config Locales.

(** The module state of [locales] together with the calls
    [data_manager.update_user_data(user_id, {"locale": code})] that
    returned, in the order in which they were made
    ([storage.data_manager] is absent from the sources). *)
Record LocaleState := {
  globals : Globals;
  updates : list (PyVal * string)
}.

(** [locale_code in _locales_data]. *)
Definition loaded (g : Globals) (locale_code : string) : bool :=
  match dict_get locale_code (_locales_data g) with
  | Some _ => true
  | None => false
  end.

(** [set_locale]. *)
Definition set_locale (g : Globals) (locale_code : string) : bool * Globals :=
  if negb (loaded g locale_code) then (false, g)
  else
    (true,
     {| _current_locale := Some locale_code;
        _locales_data := _locales_data g;
        _user_locales := _user_locales g |}).

(** [get_locale]. *)
Definition get_locale (g : Globals) : option string := _current_locale g.

Section WithEnvironment.

(** The locale that the storage holds for a user, as in [Locales], and
    whether [data_manager.update_user_data] raises. *)
Variable stored_locale : PyVal -> option string.
Variable update_raises : bool.

Definition update_user_data (user_id : PyVal) (locale_code : string)
  (s : LocaleState) : LocaleState :=
  if update_raises then s
  else {| globals := globals s;
          updates := updates s ++ [(user_id, locale_code)] |}.

(** [locales.set_user_locale]: the exception of the storage is caught
    and logged. *)
Definition set_user_locale (s : LocaleState) (user_id : PyVal)
  (locale_code : string) : bool * LocaleState :=
  if negb (loaded (globals s) locale_code) then (false, s)
  else
    let g := globals s in
    let s1 :=
      {| globals :=
           {| _current_locale := _current_locale g;
              _locales_data := _locales_data g;
              _user_locales :=
                user_locales_set user_id locale_code (_user_locales g) |};
         updates := updates s |} in
    (true, update_user_data user_id locale_code s1).

(** [locale_helper.get_user_language]. *)
Definition get_user_language (cfg : Settings) (s : LocaleState)
  (user_id : PyVal) : string * LocaleState :=
  let '(lang, g1) := get_user_locale stored_locale (globals s) user_id in
  let s1 := {| globals := g1; updates := updates s |} in
  if truthy lang then (default "" lang, s1)
  else
    match stored_locale user_id with
    | Some lang =>
        if truthy (Some lang) then (lang, (set_user_locale s1 user_id lang).2)
        else (DEFAULT_LOCALE cfg, s1)
    | None => (DEFAULT_LOCALE cfg, s1)
    end.

(** [locale_helper.set_user_language]: the result of
    [locales.set_user_locale] is not looked at; the call of the storage
    is inside the [try]. *)
Definition set_user_language (s : LocaleState) (user_id : PyVal)
  (lang_code : string) : bool * LocaleState :=
  let s1 := (set_user_locale s user_id lang_code).2 in
  if update_raises then (false, s1)
  else (true, update_user_data user_id lang_code s1).

End WithEnvironment.

End LocaleHelper.

(** ** Concrete states used in the statements on the setters *)

Module LocaleHelperExamples.

Import Py Locales LocaleHelper.

(** The locale state after [load_locales] and [set_locale("en")] with
    the small locale above; nothing was handed to the storage. *)
Definition start_state : LocaleState :=
  {| globals := LocaleExamples.globals; updates := [] |}.

(** User 7 chose a second locale, which has no entries. *)
Definition two_locales : Globals :=
  {| _current_locale := Some "en"%string;
     _locales_data := [("en"%string, LocaleExamples.en);
                       ("ru"%string, JObj [])];
     _user_locales := [(VInt 7, "ru"%string)] |}.

(** A storage that holds the language [de] for every user. *)
Definition stored_de : PyVal -> option string := fun _ => Some "de"%string.

End LocaleHelperExamples.

(** ** Suggestions and reviews: services/feedback.py (the records),
    handlers/user.py and handlers/callbacks.py (the feedback branches) *)

Module FeedbackFlow.

Import Py Config Locales Feedback Bans.

(** A value of the [feedbacks] dict. *)
Record FeedbackData := {
  user_id : Z;
  type : string;
  text : string;
  thanked : bool;
  message_id : option Z;
  created_at : Z
}.

(** [FeedbackService] with both of its dicts: [last_feedback] (above)
    and [feedbacks]. *)
Record Service := {
  cooldown : FeedbackService;
  feedbacks : gmap string FeedbackData
}.

(** [s[:n]]. *)
Definition prefix_of (n : nat) (s : string) : string := String.substring 0 n s.

(** [create_feedback], called at time [now]; [hex] is
    [uuid.uuid4().hex]. *)
Definition create_feedback (self : Service) (now : Z) (hex : string)
  (uid : Z) (feedback_type : string) (body : string) : string * Service :=
  let feedback_id := prefix_of 3 feedback_type +:+ "_" +:+ prefix_of 8 hex in
  (feedback_id,
   {| cooldown := cooldown self;
      feedbacks :=
        <[feedback_id :=
            {| user_id := uid; type := feedback_type; text := body;
               thanked := false; message_id := None; created_at := now |}]>
          (feedbacks self) |}).

(** [thank_feedback]: the record found is changed in place and
    returned. *)
Definition thank_feedback (self : Service) (feedback_id : string)
  : option FeedbackData * Service :=
  match feedbacks self !! feedback_id with
  | Some feedback =>
      let feedback' :=
        {| user_id := user_id feedback; type := type feedback;
           text := text feedback; thanked := true;
           message_id := message_id feedback;
           created_at := created_at feedback |} in
      (Some feedback',
       {| cooldown := cooldown self;
          feedbacks := <[feedback_id := feedback']> (feedbacks self) |})
  | None => (None, self)
  end.

(** [set_message_id]. *)
Definition set_message_id (self : Service) (feedback_id : string) (mid : Z)
  : Service :=
  match feedbacks self !! feedback_id with
  | Some feedback =>
      {| cooldown := cooldown self;
         feedbacks :=
           <[feedback_id :=
               {| user_id := user_id feedback; type := type feedback;
                  text := text feedback; thanked := thanked feedback;
                  message_id := Some mid;
                  created_at := created_at feedback |}]>
             (feedbacks self) |}
  | None => self
  end.

(** [context.user_data] of one user, with the keys that the feedback
    branches use; an absent ["skip_cooldown"] reads as [False]. *)
Record UserData := {
  state : option Handlers.ConvState;
  skip_cooldown : bool
}.

Definition no_data : UserData := {| state := None; skip_cooldown := false |}.

(** The calls to the transport.  A text made by [get_text] from a key
    is recorded as that key; the refusal of the cooldown is recorded as
    the message that [check_cooldown] returned. *)
Inductive Call :=
| ReplyText (chat : Z) (key : string)
| ReplyMessage (chat : Z) (message : option Json)
| AlertAdmin (header_key : string) (from : Z) (body : string)
    (callback_data : string)
| MarkThanked
| SendText (chat : Z) (key : string)
| AnswerCallback (found : bool)
| DeleteMessage.

(** How the alert to the administrator ends: an exception before the
    call of [send_message] (the header could not be made), an exception
    of [send_message], or the message sent with its identifier. *)
Inductive AlertOutcome :=
| AlertNotBuilt
| AlertFails
| AlertSent (mid : Z).

(** What a handler gets from outside while it runs. *)
Record Env := {
  now : Z;
  uuid4_hex : string;
  alert : AlertOutcome
}.

Record Bot := {
  feedback_service : Service;
  ban_manager : BanManager;
  user_data : gmap Z UserData;
  outbox : list Call;
  raised : list PyExc
}.

Definition data_of (b : Bot) (uid : Z) : UserData :=
  default no_data (user_data b !! uid).

Definition with_service (s : Service) (b : Bot) : Bot :=
  {| feedback_service := s; ban_manager := ban_manager b;
     user_data := user_data b; outbox := outbox b; raised := raised b |}.

Definition with_data (uid : Z) (d : UserData) (b : Bot) : Bot :=
  {| feedback_service := feedback_service b; ban_manager := ban_manager b;
     user_data := <[uid := d]> (user_data b); outbox := outbox b;
     raised := raised b |}.

Definition emit (c : Call) (b : Bot) : Bot :=
  {| feedback_service := feedback_service b; ban_manager := ban_manager b;
     user_data := user_data b; outbox := outbox b ++ [c];
     raised := raised b |}.

Definition raise (e : PyExc) (b : Bot) : Bot :=
  {| feedback_service := feedback_service b; ban_manager := ban_manager b;
     user_data := user_data b; outbox := outbox b;
     raised := raised b ++ [e] |}.

Definition put_state (uid : Z) (s : option Handlers.ConvState) (b : Bot)
  : Bot :=
  with_data uid {| state := s; skip_cooldown := skip_cooldown (data_of b uid) |}
    b.

Section WithEnvironment.

Variable format : string -> list (string * PyVal) -> FormatOutcome.
Variable stored_locale : PyVal -> option string.
Variable cfg : Settings.
Variable g : Globals.
Variable env : Env.

(** [feedback_service.check_cooldown(user.id, kind, user_lang)] at the
    time of the handler. *)
Definition check (b : Bot) (uid : Z) (feedback_type : string)
  (user_lang : string) : CheckResult :=
  check_cooldown format stored_locale cfg g (cooldown (feedback_service b))
    (now env) uid feedback_type (Some user_lang).

(** [handle_suggestion_text] and [handle_review_text], which differ in
    the kind of feedback and in the keys of their texts only. *)
Definition handle_feedback_text (feedback_type sent_key header_key : string)
  (uid : Z) (user_lang : string) (body : string) (b : Bot) : Bot :=
  let go (b0 : Bot) : Bot :=
    let b1 :=
      with_data uid {| state := None; skip_cooldown := false |} b0 in
    let b2 := emit (ReplyText uid sent_key) b1 in
    let '(feedback_id, service) :=
      create_feedback (feedback_service b2) (now env) (uuid4_hex env) uid
        feedback_type body in
    let b3 := with_service service b2 in
    match alert env with
    | AlertNotBuilt => b3
    | AlertFails =>
        emit (AlertAdmin header_key uid body ("thank:" +:+ feedback_id)) b3
    | AlertSent mid =>
        let b4 :=
          emit (AlertAdmin header_key uid body ("thank:" +:+ feedback_id))
            b3 in
        with_service (set_message_id (feedback_service b4) feedback_id mid) b4
    end in
  if negb (skip_cooldown (data_of b uid)) then
    match check b uid feedback_type user_lang with
    | Checked true _ =>
        go (with_service
              {| cooldown :=
                   update_last_feedback (cooldown (feedback_service b))
                     (now env) uid feedback_type;
                 feedbacks := feedbacks (feedback_service b) |} b)
    | Checked false error_msg => emit (ReplyMessage uid error_msg) b
    | CheckRaises e => raise e b
    end
  else go b.

Definition handle_suggestion_text :=
  handle_feedback_text "suggestion" "messages.suggestion_sent"
    "admin.suggestion_from".

Definition handle_review_text :=
  handle_feedback_text "review" "messages.review_sent" "admin.review_from".

(** [suggestion_handler] and [review_handler], the commands. *)
Definition feedback_command (feedback_type write_key : string)
  (awaiting : Handlers.ConvState) (uid : Z) (user_lang : string) (b : Bot)
  : Bot :=
  if is_banned (ban_manager b) uid then emit (ReplyText uid "messages.banned") b
  else
    match check b uid feedback_type user_lang with
    | Checked true _ =>
        emit (ReplyText uid write_key) (put_state uid (Some awaiting) b)
    | Checked false error_msg => emit (ReplyMessage uid error_msg) b
    | CheckRaises e => raise e b
    end.

Definition suggestion_handler :=
  feedback_command "suggestion" "messages.write_suggestion"
    Handlers.awaiting_suggestion.

Definition review_handler :=
  feedback_command "review" "messages.write_review" Handlers.awaiting_review.

(** The [callback_data] of the feedback branches of
    [callback_handler]. *)
Inductive CallbackData :=
| after_rate_suggestion
| after_rate_review
| cancel_feedback_prompt
| user_suggestion
| user_review
| thank (feedback_id : string).

(** The branches [user_suggestion] and [user_review]. *)
Definition feedback_button (feedback_type write_key : string)
  (awaiting : Handlers.ConvState) (uid : Z) (user_lang : string) (b : Bot)
  : Bot :=
  match check b uid feedback_type user_lang with
  | Checked true _ =>
      emit (ReplyText uid write_key) (put_state uid (Some awaiting) b)
  | Checked false error_msg =>
      emit (ReplyMessage uid error_msg) (put_state uid None b)
  | CheckRaises e => raise e b
  end.

(** [handle_thank_feedback]; the failures of its transport calls are
    caught and logged. *)
Definition handle_thank_feedback (feedback_id : string) (b : Bot) : Bot :=
  match thank_feedback (feedback_service b) feedback_id with
  | (Some feedback, service) =>
      let b1 := emit MarkThanked (with_service service b) in
      let b2 :=
        emit (SendText (user_id feedback)
                (if String.eqb (type feedback) "suggestion"
                 then "messages.thanks_suggestion"
                 else "messages.thanks_review")) b1 in
      emit (AnswerCallback true) b2
  | (None, _) => emit (AnswerCallback false) b
  end.

(** The feedback branches of [callback_handler]. *)
Definition callback_handler (uid : Z) (user_lang : string)
  (data : CallbackData) (b : Bot) : Bot :=
  match data with
  | after_rate_suggestion =>
      emit (ReplyText uid "messages.write_suggestion")
        (with_data uid {| state := Some Handlers.awaiting_suggestion;
                          skip_cooldown := true |} b)
  | after_rate_review =>
      emit (ReplyText uid "messages.write_review")
        (with_data uid {| state := Some Handlers.awaiting_review;
                          skip_cooldown := true |} b)
  | cancel_feedback_prompt => emit DeleteMessage b
  | user_suggestion =>
      feedback_button "suggestion" "messages.write_suggestion"
        Handlers.awaiting_suggestion uid user_lang b
  | user_review =>
      feedback_button "review" "messages.write_review"
        Handlers.awaiting_review uid user_lang b
  | thank feedback_id => handle_thank_feedback feedback_id b
  end.

(** The branches of [text_message_handler] that lead to the feedback
    handlers; [None]: another branch. *)
Definition text_message_handler (uid : Z) (user_lang : string)
  (body : string) (b : Bot) : option Bot :=
  if is_banned (ban_manager b) uid then
    Some (emit (ReplyText uid "messages.banned") b)
  else
    match state (data_of b uid) with
    | Some Handlers.awaiting_suggestion =>
        Some (handle_suggestion_text uid user_lang body b)
    | Some Handlers.awaiting_review =>
        Some (handle_review_text uid user_lang body b)
    | _ => None
    end.

End WithEnvironment.

End FeedbackFlow.

(** ** Concrete states used in the statements on suggestions and
    reviews *)

Module FeedbackFlowExamples.

Import Py Locales Feedback Bans FeedbackFlow LocaleExamples.

Definition empty_bot : Bot :=
  {| feedback_service :=
       {| cooldown := {| last_feedback := ∅ |}; feedbacks := ∅ |};
     ban_manager := {| banned := []; ban_user_calls := [] |};
     user_data := ∅;
     outbox := [];
     raised := [] |}.

(** A handler that runs the given number of seconds after time 0 and
    whose alert reaches the administrator as message 900. *)
Definition at_time (seconds : Z) : Env :=
  {| now := timestamp_s seconds;
     uuid4_hex := "5f0c2a9be1d34c7f8a6b0d9e3c4f1a2b";
     alert := AlertSent 900 |}.

End FeedbackFlowExamples.

(** ** handlers/admin.py: the pages of the inbox *)

Module Inbox.

(** [l[start:stop]] for integer bounds: a negative bound counts from
    the end, and both are clamped to the list. *)
Definition slice {A : Type} (l : list A) (start stop : Z) : list A :=
  let n := Z.of_nat (length l) in
  let clamp (i : Z) := if i <? 0 then Z.max (i + n) 0 else Z.min i n in
  let lo := clamp start in
  let hi := clamp stop in
  take (Z.to_nat (hi - lo)) (drop (Z.to_nat lo) l).

(** What [show_inbox] computes from the tickets (filtered and sorted)
    and the page number: the number of pages, the tickets listed, the
    pair shown as "page x of y" (absent when the list is empty and the
    text "no tickets" is shown instead), and the pages that the buttons
    of the navigation row lead to. *)
Record View (A : Type) := {
  total_pages : Z;
  page_tickets : list A;
  page_label : option (Z * Z);
  nav_row : list Z
}.

Arguments total_pages {A} _.
Arguments page_tickets {A} _.
Arguments page_label {A} _.
Arguments nav_row {A} _.

(** The pagination of [show_inbox]; [None]: [PAGE_SIZE] is zero and
    the floor division raises [ZeroDivisionError]. *)
Definition show_inbox {A : Type} (PAGE_SIZE : Z) (tickets : list A)
  (page : Z) : option (View A) :=
  if PAGE_SIZE =? 0 then None
  else
    let total_tickets := Z.of_nat (length tickets) in
    let total_pages := Z.max 1 ((total_tickets + PAGE_SIZE - 1) / PAGE_SIZE) in
    let start_idx := page * PAGE_SIZE in
    let end_idx := Z.min (start_idx + PAGE_SIZE) total_tickets in
    let page_tickets := slice tickets start_idx end_idx in
    Some
      {| total_pages := total_pages;
         page_tickets := page_tickets;
         page_label :=
           match page_tickets with
           | [] => None
           | _ :: _ => Some (page + 1, total_pages)
           end;
         nav_row :=
           (if 0 <? page then [page - 1] else [])
           ++ (if page <? total_pages - 1 then [page + 1] else []) |}.

End Inbox.

(** ** handlers/callbacks.py: the routing of [callback_data], and the
    buttons that carry it (utils/keyboards.py, handlers/user.py,
    handlers/admin.py) *)

Module Routing.

Import Py Locales.

(** [data.startswith(p)]. *)
Definition startswith (p data : string) : bool := String.prefix p data.

(** [data.split(":")[i]]; [None]: [IndexError]. *)
Definition field (i : nat) (data : string) : option string :=
  nth_error (split ":" data) i.

(** The branch of [callback_handler] that a [callback_data] takes.  A
    branch that splits the data itself has the part it reads; a branch
    that hands the data to a handler has the data. *)
Inductive Route :=
| show_ticket_card (ticket_id : option string)
| after_rate_suggestion
| after_rate_review
| cancel_feedback_prompt
| user_start_question
| user_suggestion
| user_review
| user_change_language
| set_user_language (locale : option string)
| search_ticket_start
| handle_admin_inbox
| handle_admin_stats
| handle_admin_settings
| ban_user
| unban_user
| handle_bans_list
| clear_tickets
| create_backup
| change_language
| settings
| set_admin_language (locale : option string)
| handle_rating (data : string)
| handle_thank_feedback (data : string)
| handle_take_ticket (data : string)
| handle_close_ticket (data : string)
| handle_reply_ticket (data : string)
| handle_inbox_filter (data : string)
| handle_inbox_page (data : string)
| admin_home
| user_home
| noop
| unhandled.

(** The chain of tests of [callback_handler], in its order;
    [unhandled]: no test holds and the handler returns. *)
Definition route (data : string) : Route :=
  if startswith "ticket:" data then show_ticket_card (field 1 data)
  else if String.eqb data "after_rate_suggestion" then after_rate_suggestion
  else if String.eqb data "after_rate_review" then after_rate_review
  else if String.eqb data "cancel_feedback_prompt" then cancel_feedback_prompt
  else if String.eqb data "user_start_question" then user_start_question
  else if String.eqb data "user_suggestion" then user_suggestion
  else if String.eqb data "user_review" then user_review
  else if String.eqb data "user_change_language" then user_change_language
  else if startswith "user_lang:" data then set_user_language (field 1 data)
  else if String.eqb data "search_ticket_start" then search_ticket_start
  else if String.eqb data "admin_inbox" then handle_admin_inbox
  else if String.eqb data "admin_stats" then handle_admin_stats
  else if String.eqb data "admin_settings" then handle_admin_settings
  else if String.eqb data "ban_user" then ban_user
  else if String.eqb data "unban_user" then unban_user
  else if String.eqb data "bans_list" then handle_bans_list
  else if String.eqb data "clear_tickets" then clear_tickets
  else if String.eqb data "create_backup" then create_backup
  else if String.eqb data "change_language" then change_language
  else if String.eqb data "settings" then settings
  else if startswith "lang:" data then set_admin_language (field 1 data)
  else if startswith "rate:" data then handle_rating data
  else if startswith "thank:" data then handle_thank_feedback data
  else if startswith "take:" data then handle_take_ticket data
  else if startswith "close:" data then handle_close_ticket data
  else if startswith "reply:" data then handle_reply_ticket data
  else if startswith "inbox_filter:" data then handle_inbox_filter data
  else if startswith "inbox_page:" data then handle_inbox_page data
  else if String.eqb data "admin_home" then admin_home
  else if String.eqb data "user_home" then user_home
  else if String.eqb data "noop" then noop
  else unhandled.

(** The first lines of [handle_rating]: [parts[1]] and [parts[2]]. *)
Definition rating_of (data : string) : option (string * string) :=
  match field 1 data, field 2 data with
  | Some ticket_id, Some rating => Some (ticket_id, rating)
  | _, _ => None
  end.

(** The first line of [handle_thank_feedback], [handle_take_ticket],
    [handle_close_ticket], [handle_reply_ticket] and
    [handle_inbox_filter]. *)
Definition id_of (data : string) : option string := field 1 data.

(** The [callback_data] of the buttons of [get_rating_keyboard]. *)
Definition get_rating_keyboard (ticket_id : string) : list string :=
  ["rate:" +:+ ticket_id +:+ ":excellent";
   "rate:" +:+ ticket_id +:+ ":good";
   "rate:" +:+ ticket_id +:+ ":ok"].

(** The same for [get_settings_keyboard], [get_language_keyboard],
    [get_user_language_keyboard] and [get_admin_main_keyboard]. *)
Definition get_settings_keyboard : list string :=
  ["ban_user"; "unban_user"; "bans_list"; "clear_tickets"; "create_backup";
   "change_language"; "admin_home"].

Definition get_language_keyboard : list string :=
  ["lang:ru"; "lang:en"; "settings"].

Definition get_user_language_keyboard : list string :=
  ["user_lang:ru"; "user_lang:en"; "user_home"].

Definition get_admin_main_keyboard : list string :=
  ["admin_inbox"; "admin_stats"; "admin_settings"].

(** The buttons under a ticket card that [send_or_update_ticket_card]
    builds for a ticket of the given status. *)
Definition card_keyboard (ticket_id : string) (status : Tickets.Status)
  : list string :=
  match status with
  | Tickets.StatusNew => ["take:" +:+ ticket_id; "close:" +:+ ticket_id]
  | Tickets.StatusWorking => ["reply:" +:+ ticket_id; "close:" +:+ ticket_id]
  | Tickets.StatusDone => []
  end ++ ["admin_home"].

(** The buttons of the invitation that [handle_rating] sends. *)
Definition feedback_prompt_keyboard : list string :=
  ["after_rate_suggestion"; "after_rate_review"; "cancel_feedback_prompt";
   "user_home"].

(** The filter row, the search row and the home row of the inbox
    ([show_inbox]). *)
Definition inbox_keyboard : list string :=
  map (fun flt => "inbox_filter:" +:+ flt) ["all"; "new"; "working"; "done"]
  ++ ["search_ticket_start"; "admin_home"].

(** The text does not contain the character. *)
Fixpoint free_of (c : ascii) (s : string) : bool :=
  match s with
  | EmptyString => true
  | String c' rest => negb (Ascii.eqb c' c) && free_of c rest
  end.

End Routing.

(** ** utils/formatters.py: the previews and the history of a card *)

Module Formatters.

Import Tickets.

(** The [msg_preview] of [format_ticket_brief], for messages that are
    [Message] objects. *)
Definition brief_preview (ticket : Ticket) : string :=
  match messages ticket with
  | first_msg :: _ =>
      if String.eqb (text first_msg) "" then "[empty]"
      else String.substring 0 30 (text first_msg) +:+ "..."
  | [] => "[no messages]"
  end.

(** The last line of [format_ticket_preview] after its icon:
    [msg_preview] followed by the dots.  [no_messages] is the text of
    [ui.no_messages]. *)
Definition inbox_preview (no_messages : string) (ticket : Ticket) : string :=
  match messages ticket with
  | first_msg :: _ =>
      if String.eqb (text first_msg) "" then "[empty]"
      else String.substring 0 100 (text first_msg)
  | [] => no_messages
  end +:+ "...".

(** The [messages_to_show] of [format_ticket_card]:
    [ticket.messages[-TICKET_HISTORY_LIMIT:]] for a positive limit. *)
Definition messages_to_show (TICKET_HISTORY_LIMIT : Z) (ticket : Ticket)
  : list Message :=
  if 0 <? TICKET_HISTORY_LIMIT then
    Inbox.slice (messages ticket) (- TICKET_HISTORY_LIMIT)
      (Z.of_nat (length (messages ticket)))
  else messages ticket.

End Formatters.

(** ** services/logs.py *)

Module Logs.

(** A file of [DATA_DIR] as [cleanup_old_logs] meets it: its name,
    its modification time ([None]: [os.path.getmtime] raises
    [OSError]), and whether [os.remove] succeeds on it. *)
Record File := {
  filename : string;
  mtime : option Z;
  removable : bool
}.

(** [s.endswith(suffix)]. *)
Definition endswith (suffix s : string) : bool :=
  let n := String.length suffix in
  let m := String.length s in
  (n <=? m)%nat && String.eqb (String.substring (m - n) n s) suffix.

(** The test of the loop: the names that count as logs. *)
Definition is_log (name : string) : bool :=
  String.prefix "bot.log" name || endswith ".log" name.

Definition timedelta_days (days : Z) : Z := days * 86400 * 1000000.

(** The loop of [cleanup_old_logs] over the listing of the directory:
    the files that are left, and [removed_count]. *)
Fixpoint cleanup_loop (cutoff : Z) (files : list File) (removed_count : nat)
  : list File * nat :=
  match files with
  | [] => ([], removed_count)
  | f :: rest =>
      if negb (is_log (filename f)) then
        let '(kept, n) := cleanup_loop cutoff rest removed_count in
        (f :: kept, n)
      else
        match mtime f with
        | Some modified =>
            if modified <? cutoff then
              if removable f then cleanup_loop cutoff rest (S removed_count)
              else
                let '(kept, n) := cleanup_loop cutoff rest removed_count in
                (f :: kept, n)
            else
              let '(kept, n) := cleanup_loop cutoff rest removed_count in
              (f :: kept, n)
        | None =>
            let '(kept, n) := cleanup_loop cutoff rest removed_count in
            (f :: kept, n)
        end
  end.

(** [cleanup_old_logs], called at time [now] on a directory that can
    be listed. *)
Definition cleanup_old_logs (LOG_CLEANUP_ENABLED : bool)
  (LOG_RETENTION_DAYS : Z) (now : Z) (files : list File) : list File * nat :=
  if negb LOG_CLEANUP_ENABLED then (files, O)
  else cleanup_loop (now - timedelta_days LOG_RETENTION_DAYS) files O.

End Logs.

(** ** Concrete bots used in the statements on bans and replies *)

Module HandlerCoverageExamples.

Import Py Config Tickets Bans Handlers LocaleExamples HandlerExamples.

(** As [env_ok], at time 20 and with an [int] that reads two texts. *)
Definition env_int : Env :=
  {| now := 20;
     edit_message_text := fun _ _ => EditOk;
     send_message := fun _ => Some 500;
     int_of_text :=
       fun s =>
         if String.eqb s "42" then Some 42
         else if String.eqb s "0" then Some 0
         else None |}.

(** The administrator has pressed the ban button. *)
Definition admin_bans : Bot :=
  callback_handler settings env_ok admin 11 ban_user_button empty_bot.

(** Alice is banned while she is in [awaiting_question]. *)
Definition banned_alice : Bot :=
  with_bans {| banned := [(7, "spam"%string)]; ban_user_calls := [] |}
    alice_asked.

End HandlerCoverageExamples.

(** ** The ban registry as the handlers fill it *)

Module BanFlow.

Import Py Config Bans Handlers HandlerExamples HandlerCoverageExamples.





End BanFlow.

(** * Properties *)

(** ** Dictionaries *)

Section DictFacts.

Import Py.

Context {V : Type}.
Implicit Types (d : list (string * V)) (k : string) (v : V).

Lemma dict_get_set_eq d k v : dict_get k (dict_set k v d) = Some v.
Proof.
  induction d as [|[k' v'] d IH]; simpl.
  - by rewrite String.eqb_refl.
  - destruct (String.eqb k k') eqn:E; simpl; rewrite E; [done | apply IH].
Qed.

Lemma dict_get_set_ne d k k' v :
  k <> k' -> dict_get k' (dict_set k v d) = dict_get k' d.
Proof.
  intros Hne. induction d as [|[k0 v0] d IH]; simpl.
  - apply String.eqb_neq in Hne. rewrite String.eqb_sym in Hne. by rewrite Hne.
  - destruct (String.eqb k k0) eqn:E; simpl.
    + apply String.eqb_eq in E. subst k0.
      assert (String.eqb k' k = false) as ->; [|done].
      apply String.eqb_neq. congruence.
    + by rewrite IH.
Qed.

Lemma dict_keys_set_present d k v v0 :
  dict_get k d = Some v0 -> dict_keys (dict_set k v d) = dict_keys d.
Proof.
  unfold dict_keys. induction d as [|[k' v'] d IH]; simpl; [done|].
  destruct (String.eqb k k') eqn:E; simpl; [done|].
  intros H. by rewrite IH.
Qed.

Lemma dict_get_Some_keys d k v : dict_get k d = Some v -> In k (dict_keys d).
Proof.
  induction d as [|[k' v'] d IH]; simpl; [done|].
  destruct (String.eqb k k') eqn:E.
  - apply String.eqb_eq in E. auto.
  - auto.
Qed.

Lemma dict_keys_get d k : In k (dict_keys d) -> exists v, dict_get k d = Some v.
Proof.
  induction d as [|[k' v'] d IH]; simpl; [done|].
  destruct (String.eqb k k') eqn:E; [eauto|].
  intros [H|H]; [|auto].
  apply String.eqb_neq in E. congruence.
Qed.

Lemma dict_keys_set_absent d k v :
  dict_get k d = None -> dict_keys (dict_set k v d) = dict_keys d ++ [k].
Proof.
  unfold dict_keys. induction d as [|[k' v'] d IH]; simpl; [done|].
  destruct (String.eqb k k') eqn:E; simpl; [done|].
  intros H. by rewrite IH.
Qed.

Lemma dict_get_None_keys d k : dict_get k d = None -> ~ In k (dict_keys d).
Proof.
  intros Hn Hin. apply dict_keys_get in Hin as [v Hv]. congruence.
Qed.

(** Assignment and deletion keep the keys of a dict distinct. *)
Lemma dict_set_NoDup d k v :
  NoDup (dict_keys d) -> NoDup (dict_keys (dict_set k v d)).
Proof.
  intros Hnd. destruct (dict_get k d) as [v0|] eqn:E.
  - by rewrite (dict_keys_set_present _ _ _ _ E).
  - rewrite (dict_keys_set_absent _ _ _ E).
    apply NoDup_app. repeat split; [done| |apply NoDup_singleton].
    intros x Hx Hk. apply list_elem_of_singleton in Hk. subst x.
    apply list_elem_of_In in Hx. by apply (dict_get_None_keys _ _ E).
Qed.

Lemma dict_del_keys_incl d k x :
  In x (dict_keys (dict_del k d)) -> In x (dict_keys d).
Proof.
  unfold dict_keys. induction d as [|[k' v'] d IH]; simpl; [done|].
  destruct (String.eqb k k'); simpl; [auto|]. intros [H|H]; auto.
Qed.

Lemma dict_del_NoDup d k :
  NoDup (dict_keys d) -> NoDup (dict_keys (dict_del k d)).
Proof.
  induction d as [|[k' v'] d IH]; simpl; [done|].
  intros Hnd. apply NoDup_cons in Hnd as [Hnot Hnd].
  destruct (String.eqb k k'); simpl; [done|].
  apply NoDup_cons. split; [|by apply IH].
  intros Hin. apply Hnot. apply list_elem_of_In.
  apply list_elem_of_In in Hin. by eapply dict_del_keys_incl.
Qed.

End DictFacts.

(** ** Scheduler: the loop body *)

Section SchedulerLoop.

Import Py Scheduler.

Implicit Types (w : World) (j : Job) (r : Run) (ids : list string).
Implicit Types (b : bool) (f : Job -> Job).

Lemma plus_seconds_Some t s t' :
  plus_seconds t s = Some t' -> t' = t + timedelta s.
Proof. unfold plus_seconds. case_match; congruence. Qed.

Lemma update_job_frame b id f w :
  clock (update_job b id f w) = clock w
  /\ running (svc (update_job b id f w)) = running (svc w)
  /\ tasks (svc (update_job b id f w)) = tasks (svc w)
  /\ loop_tasks (update_job b id f w) = loop_tasks w
  /\ executed (update_job b id f w) = executed w
  /\ errors (update_job b id f w) = errors w.
Proof.
  unfold update_job. destruct b; [|done].
  by destruct (dict_get id (jobs (svc w))).
Qed.

Lemma update_job_keys b id f w :
  dict_keys (jobs (svc (update_job b id f w))) = dict_keys (jobs (svc w)).
Proof.
  unfold update_job. destruct b; [|done].
  destruct (dict_get id (jobs (svc w))) as [j|] eqn:E; [|done].
  simpl. by eapply dict_keys_set_present.
Qed.

Lemma update_job_other b id f w id' :
  id <> id' ->
  dict_get id' (jobs (svc (update_job b id f w)))
  = dict_get id' (jobs (svc w)).
Proof.
  intros Hne. unfold update_job. destruct b; [|done].
  destruct (dict_get id (jobs (svc w))); [|done].
  simpl. by apply dict_get_set_ne.
Qed.

Lemma update_job_same id f w j :
  dict_get id (jobs (svc w)) = Some j ->
  dict_get id (jobs (svc (update_job true id f w))) = Some (f j).
Proof.
  intros Hj. unfold update_job. rewrite Hj. simpl. apply dict_get_set_eq.
Qed.

(** What [update_job] leaves of an entry, whether the assignment
    reaches the table or not. *)
Lemma update_job_entry b id f w id' :
  (forall j, func (f j) = func j /\ interval (f j) = interval j) ->
  ((fun j' => (func j', interval j')) <$>
     dict_get id' (jobs (svc (update_job b id f w))))
  = ((fun j' => (func j', interval j')) <$> dict_get id' (jobs (svc w))).
Proof.
  intros Hf. destruct (String.eqb id id') eqn:E.
  - apply String.eqb_eq in E. subst id'. unfold update_job.
    destruct b; [|done].
    destruct (dict_get id (jobs (svc w))) as [j|] eqn:Hj; [|by rewrite Hj].
    simpl. rewrite dict_get_set_eq. simpl.
    by destruct (Hf j) as [-> ->].
  - apply String.eqb_neq in E. by rewrite update_job_other.
Qed.

Ltac finish_job_cases r now j :=
  unfold finish_job;
  destruct (outcome r) as [|[]];
  destruct (plus_seconds now (interval j)).

Lemma finish_job_frame now id j b r w :
  running (svc (finish_job now id j b r w).1) = running (svc w)
  /\ tasks (svc (finish_job now id j b r w).1) = tasks (svc w)
  /\ loop_tasks (finish_job now id j b r w).1 = loop_tasks w
  /\ executed (finish_job now id j b r w).1 = executed w.
Proof.
  finish_job_cases r now j; simpl;
    repeat match goal with
      | |- context [update_job ?b ?i ?f ?x] =>
          destruct (update_job_frame b i f x) as (_ & -> & -> & -> & -> & _)
      end; done.
Qed.

Lemma finish_job_errors now id j b r w x :
  In x (errors w) -> In x (errors (finish_job now id j b r w).1).
Proof.
  intros H.
  finish_job_cases r now j; simpl;
    repeat match goal with
      | |- context [update_job ?b ?i ?f ?x] =>
          destruct (update_job_frame b i f x) as (_ & _ & _ & _ & _ & ->)
      end; simpl; rewrite ?in_app_iff; auto.
Qed.

Lemma finish_job_keys now id j b r w :
  dict_keys (jobs (svc (finish_job now id j b r w).1))
  = dict_keys (jobs (svc w)).
Proof.
  finish_job_cases r now j; simpl; rewrite ?update_job_keys; done.
Qed.

Lemma finish_job_other now id j b r w id' :
  id <> id' ->
  dict_get id' (jobs (svc (finish_job now id j b r w).1))
  = dict_get id' (jobs (svc w)).
Proof.
  intros Hne.
  finish_job_cases r now j; simpl; rewrite ?update_job_other by done; done.
Qed.

(** A job body that ends without [CancelledError], at a timestamp from
    which the next run can be computed, is rescheduled from that
    timestamp, and the loop goes on. *)
Lemma finish_job_rescheduled now id j r w :
  dict_get id (jobs (svc w)) = Some j ->
  outcome r <> Raised ExcCancelled ->
  plus_seconds now (interval j) <> None ->
  (finish_job now id j true r w).2 = true
  /\ exists j',
      dict_get id (jobs (svc (finish_job now id j true r w).1)) = Some j'
      /\ func j' = func j
      /\ interval j' = interval j
      /\ next_run j' = now + timedelta (interval j)
      /\ last_run j'
         = match outcome r with Returned => Some now | _ => last_run j end
      /\ (outcome r = Raised ExcException ->
          In id (errors (finish_job now id j true r w).1)).
Proof.
  intros Hj Hr Hp. unfold finish_job.
  destruct (plus_seconds now (interval j)) as [t|] eqn:Ht; [|done].
  apply plus_seconds_Some in Ht. subst t.
  destruct (outcome r) as [|[]]; [| |done].
  - split; [done|]. eexists. split.
    + cbn [fst]. apply update_job_same, update_job_same. exact Hj.
    + by simpl.
  - split; [done|]. eexists. split.
    + cbn [fst]. apply update_job_same. exact Hj.
    + cbn [fst set_next_run func interval next_run last_run].
      repeat split; try done. intros _.
      destruct (update_job_frame true id
                  (set_next_run (now + timedelta (interval j)))
                  (log_error id (set_clock (clock w + elapsed r) w)))
        as (_ & _ & _ & _ & _ & ->).
      simpl. apply in_or_app. right. by left.
Qed.

(** The loop goes on after a job only if the body did not end in
    [CancelledError] and the next run could be computed. *)
Lemma finish_job_go now id j b r w :
  (finish_job now id j b r w).2 = true ->
  outcome r <> Raised ExcCancelled
  /\ plus_seconds now (interval j) <> None.
Proof. by finish_job_cases r now j. Qed.


Lemma finish_job_entry now id j b r w id' :
  ((fun j' => (func j', interval j')) <$>
     dict_get id' (jobs (svc (finish_job now id j b r w).1)))
  = ((fun j' => (func j', interval j')) <$> dict_get id' (jobs (svc w))).
Proof.
  finish_job_cases r now j; simpl; rewrite ?update_job_entry; done.
Qed.

Lemma for_jobs_frame now ids w :
  running (svc (for_jobs now ids w).1) = running (svc w)
  /\ tasks (svc (for_jobs now ids w).1) = tasks (svc w)
  /\ loop_tasks (for_jobs now ids w).1 = loop_tasks w.
Proof.
  revert w. induction ids as [|id ids IH]; intros w; simpl; [done|].
  destruct (dict_get id (jobs (svc w))) as [j|]; [|apply IH].
  destruct (now >=? next_run j); [|apply IH].
  set (w0 := log_executed id w).
  pose proof (finish_job_frame now id j true (call (func j) (clock w)) w0)
    as (Hr & Ht & Hl & _).
  destruct (finish_job now id j true (call (func j) (clock w)) w0) as [w1 go].
  simpl in *. destruct go; simpl.
  - destruct (IH w1) as (-> & -> & ->). by rewrite Hr, Ht, Hl.
  - by rewrite Hr, Ht, Hl.
Qed.

(** The log of the job bodies entered only grows. *)
Lemma for_jobs_log now ids : forall w,
  exists more, executed (for_jobs now ids w).1 = executed w ++ more.
Proof.
  induction ids as [|id ids IH]; intros w; simpl.
  - exists []. by rewrite app_nil_r.
  - destruct (dict_get id (jobs (svc w))) as [j|]; [|apply IH].
    destruct (now >=? next_run j); [|apply IH].
    set (w0 := log_executed id w).
    pose proof (finish_job_frame now id j true (call (func j) (clock w)) w0)
      as (_ & _ & _ & He).
    destruct (finish_job now id j true (call (func j) (clock w)) w0)
      as [w1 go].
    simpl in *. destruct go; simpl.
    + destruct (IH w1) as [more ->]. rewrite He, <- app_assoc. eauto.
    + rewrite He. eauto.
Qed.

Lemma for_jobs_executed now ids w x :
  In x (executed w) -> In x (executed (for_jobs now ids w).1).
Proof.
  intros Hx. destruct (for_jobs_log now ids w) as [more ->].
  apply in_or_app. by left.
Qed.

Lemma for_jobs_errors now ids w x :
  In x (errors w) -> In x (errors (for_jobs now ids w).1).
Proof.
  revert w. induction ids as [|id ids IH]; intros w Hx; simpl; [done|].
  destruct (dict_get id (jobs (svc w))) as [j|]; [|by apply IH].
  destruct (now >=? next_run j); [|by apply IH].
  set (w0 := log_executed id w).
  pose proof (finish_job_errors now id j true (call (func j) (clock w)) w0 x
                Hx) as He.
  destruct (finish_job now id j true (call (func j) (clock w)) w0) as [w1 go].
  simpl in *. destruct go; simpl; [by apply IH | done].
Qed.

Lemma for_jobs_other now ids w id' :
  ~ In id' ids ->
  dict_get id' (jobs (svc (for_jobs now ids w).1))
  = dict_get id' (jobs (svc w)).
Proof.
  revert w. induction ids as [|id ids IH]; intros w Hn; simpl; [done|].
  assert (id <> id') as Hne by (intros ->; apply Hn; by left).
  assert (~ In id' ids) as Hn' by (intros H; apply Hn; by right).
  destruct (dict_get id (jobs (svc w))) as [j|]; [|by apply IH].
  destruct (now >=? next_run j); [|by apply IH].
  set (w0 := log_executed id w).
  pose proof (finish_job_other now id j true (call (func j) (clock w)) w0 id'
                Hne) as Ho.
  destruct (finish_job now id j true (call (func j) (clock w)) w0) as [w1 go].
  simpl in *. destruct go; simpl; [by rewrite IH | done].
Qed.

(** An iteration that reaches its end has run every job that was due
    when its turn came, and has rescheduled each of them from the
    timestamp [now] of the iteration. *)
Lemma for_jobs_due now ids w id j :
  NoDup ids ->
  (for_jobs now ids w).2 = true ->
  In id ids ->
  dict_get id (jobs (svc w)) = Some j ->
  next_run j <= now ->
  exists t j' new,
    executed (for_jobs now ids w).1 = executed w ++ new
    /\ In (id, t) new
    /\ outcome (call (func j) t) <> Raised ExcCancelled
    /\ dict_get id (jobs (svc (for_jobs now ids w).1)) = Some j'
    /\ func j' = func j
    /\ interval j' = interval j
    /\ next_run j' = now + timedelta (interval j)
    /\ last_run j'
       = match outcome (call (func j) t) with
         | Returned => Some now
         | _ => last_run j
         end
    /\ (outcome (call (func j) t) = Raised ExcException ->
        In id (errors (for_jobs now ids w).1)).
Proof.
  revert w. induction ids as [|id0 ids IH]; intros w Hnd Hgo Hin Hj Hdue;
    [done|].
  apply NoDup_cons in Hnd as [Hfresh Hnd].
  simpl in Hgo |- *.
  destruct (String.eqb id0 id) eqn:E.
  - apply String.eqb_eq in E. subst id0. rewrite Hj in Hgo |- *.
    assert ((now >=? next_run j) = true) as Hge by (apply Z.geb_le; lia).
    rewrite Hge in Hgo |- *.
    set (w0 := log_executed id w) in *.
    set (r := call (func j) (clock w)) in *.
    assert ((finish_job now id j true r w0).2 = true) as Hfin.
    { destruct (finish_job now id j true r w0) as [w1 []]; done. }
    destruct (finish_job_go _ _ _ _ _ _ Hfin) as [Hr Hp].
    destruct (finish_job_rescheduled now id j r w0 Hj Hr Hp)
      as (_ & j' & Hget & Hf & Hi & Hn & Hl & He).
    pose proof (finish_job_frame now id j true r w0) as (_ & _ & _ & Hex).
    destruct (finish_job now id j true r w0) as [w1 go]. simpl in *. subst go.
    destruct (for_jobs_log now ids w1) as [more Hmore].
    exists (clock w), j', ((id, clock w) :: more). fold r.
    split_and!; try done.
    + by rewrite Hmore, Hex, <- app_assoc.
    + by left.
    + rewrite for_jobs_other; [done|]. by rewrite <- list_elem_of_In.
    + intros Hexc. apply for_jobs_errors. by apply He.
  - apply String.eqb_neq in E.
    destruct Hin as [->|Hin]; [done|].
    destruct (dict_get id0 (jobs (svc w))) as [j0|]; [|by apply IH].
    destruct (now >=? next_run j0); [|by apply IH].
    set (w0 := log_executed id0 w) in *.
    set (r := call (func j0) (clock w)) in *.
    pose proof (finish_job_other now id0 j0 true r w0 id E) as Ho.
    pose proof (finish_job_frame now id0 j0 true r w0) as (_ & _ & _ & Hex).
    destruct (finish_job now id0 j0 true r w0) as [w1 go]. simpl in *.
    destruct go; [|done].
    destruct (IH w1) as (t & j' & new & Hlog & Hnew & H); try done.
    { by rewrite Ho. }
    exists t, j', ((id0, clock w) :: new).
    split; [by rewrite Hlog, Hex, <- app_assoc|].
    split; [by right|]. exact H.
Qed.


Lemma finish_job_NoDup now id j b r w :
  NoDup (dict_keys (jobs (svc w))) ->
  NoDup (dict_keys (jobs (svc (finish_job now id j b r w).1))).
Proof. by rewrite finish_job_keys. Qed.

Lemma for_jobs_keys now ids : forall w,
  dict_keys (jobs (svc (for_jobs now ids w).1)) = dict_keys (jobs (svc w)).
Proof.
  induction ids as [|id ids IH]; intros w; simpl; [done|].
  destruct (dict_get id (jobs (svc w))) as [j|]; [|by apply IH].
  destruct (now >=? next_run j); [|by apply IH].
  pose proof (finish_job_keys now id j true (call (func j) (clock w))
                (log_executed id w)) as Hk.
  destruct (finish_job now id j true (call (func j) (clock w))
              (log_executed id w)) as [w1 go].
  simpl in *. destruct go; simpl; [by rewrite IH | done].
Qed.

Lemma for_jobs_NoDup now ids w :
  NoDup (dict_keys (jobs (svc w))) ->
  NoDup (dict_keys (jobs (svc (for_jobs now ids w).1))).
Proof. by rewrite for_jobs_keys. Qed.

End SchedulerLoop.

(** ** Scheduler: steps between suspension points *)

Section SchedulerSteps.

Import Py Scheduler.

Implicit Types (w : World) (j : Job) (st : TaskState) (ids : list string).
Implicit Types (fate : option (list string)) (p : World * bool).

Lemma scan_frame now used changed ids w :
  svc (scan now used changed ids w).1 = svc w
  /\ loop_tasks (scan now used changed ids w).1 = loop_tasks w
  /\ clock (scan now used changed ids w).1 = clock w.
Proof.
  induction ids as [|id ids IH]; simpl; [done|].
  destruct (dict_get id (jobs (svc w))) as [j|]; [|done].
  by destruct (now >=? next_run j).
Qed.

Lemma log_refl w : exists more, executed w = executed w ++ more.
Proof. exists []. by rewrite app_nil_r. Qed.

Lemma scan_log now used changed ids w :
  exists more, executed (scan now used changed ids w).1 = executed w ++ more.
Proof.
  induction ids as [|id ids IH]; simpl.
  - apply log_refl.
  - destruct (dict_get id (jobs (svc w))) as [j|]; [|done].
    destruct (now >=? next_run j); [|done]. simpl. eauto.
Qed.

Lemma length_jobs_keys {V} (d : list (string * V)) :
  length d = length (dict_keys d).
Proof. unfold dict_keys. by rewrite length_map. Qed.

Lemma finish_job_length now id j b r w :
  length (jobs (svc (finish_job now id j b r w).1)) = length (jobs (svc w)).
Proof. by rewrite !length_jobs_keys, finish_job_keys. Qed.

Lemma drive_settled n w st : in_job st = false -> drive n (w, st) = (w, st).
Proof. destruct n; [done|]. simpl. by intros ->. Qed.

(** Resuming the task until it sleeps is the loop body run in one go,
    when nothing else touches the job table. *)
Lemma drive_scan ids : forall n now used w,
  (length ids <= n)%nat ->
  used = length (jobs (svc w)) ->
  drive n (scan now used false ids w)
  = ((for_jobs now ids w).1,
     if (for_jobs now ids w).2 then Sleeping else Done).
Proof.
  induction ids as [|id ids IH]; intros n now used w Hn Hu; simpl.
  - by apply drive_settled.
  - destruct (dict_get id (jobs (svc w))) as [j|];
      [|apply IH; [simpl in Hn; lia | done]].
    destruct (now >=? next_run j); [|apply IH; [simpl in Hn; lia | done]].
    destruct n as [|n]; [simpl in Hn; lia|]. simpl.
    pose proof (finish_job_length now id j true (call (func j) (clock w))
                  (log_executed id w)) as Hlen.
    destruct (finish_job now id j true (call (func j) (clock w))
                (log_executed id w)) as [w1 go].
    simpl in Hlen. unfold after_job, next_jobs. destruct go; simpl.
    + rewrite Hlen, Hu, Nat.eqb_refl. simpl.
      apply IH; [simpl in Hn; lia | done].
    + by apply drive_settled.
Qed.

Lemma drive_enter_loop n w :
  (length (jobs (svc w)) <= n)%nat ->
  drive n (enter_loop w) = loop_iteration w.
Proof.
  intros Hn. unfold enter_loop, loop_iteration.
  destruct (running (svc w)); [|by apply drive_settled].
  rewrite drive_scan; [|by rewrite <- length_jobs_keys | done].
  by destruct (for_jobs (clock w) (dict_keys (jobs (svc w))) w).
Qed.


Lemma enter_loop_jobs w : jobs (svc (enter_loop w).1) = jobs (svc w).
Proof.
  unfold enter_loop. destruct (running (svc w)); [|done].
  by destruct (scan_frame (clock w) (length (jobs (svc w))) false
                 (dict_keys (jobs (svc w))) w) as (-> & _).
Qed.

Lemma enter_loop_stopped w :
  running (svc w) = false -> enter_loop w = (w, Done).
Proof. intros H. unfold enter_loop. by rewrite H. Qed.

Lemma enter_loop_log w :
  exists more, executed (enter_loop w).1 = executed w ++ more.
Proof.
  unfold enter_loop.
  destruct (running (svc w)); [apply scan_log | apply log_refl].
Qed.

Lemma after_job_frame fate now rest used changed p :
  svc (after_job fate now rest used changed p).1 = svc p.1
  /\ loop_tasks (after_job fate now rest used changed p).1 = loop_tasks p.1
  /\ exists more,
      executed (after_job fate now rest used changed p).1
      = executed p.1 ++ more.
Proof.
  destruct p as [w1 go]. unfold after_job.
  pose proof (log_refl w1) as Hnil.
  destruct go; [|done].
  destruct (next_jobs fate rest used changed w1) as [ids|]; [|done].
  destruct (scan_frame now used changed ids w1) as (-> & -> & _).
  repeat split. apply scan_log.
Qed.


Lemma resume_Done fate w : resume fate Done w = (w, Done).
Proof. done. Qed.

Lemma throw_frame fate st w :
  tasks (svc (throw fate st w).1) = tasks (svc w)
  /\ running (svc (throw fate st w).1) = running (svc w)
  /\ loop_tasks (throw fate st w).1 = loop_tasks w.
Proof.
  destruct st as [| |now id j b started rest used changed|]; simpl;
    try done.
  destruct (after_job_frame fate now rest used changed
              (finish_job now id j b (cancelled (func j) started) w))
    as (-> & -> & _).
  by destruct (finish_job_frame now id j b (cancelled (func j) started) w)
    as (-> & -> & -> & _).
Qed.

(** Under a cleared flag a cancelled task has finished when the
    awaiting caller resumes. *)
Lemma cancel_and_await_finishes fate st w :
  running (svc w) = false ->
  (cancel_and_await fate st w).2 = Done
  /\ tasks (svc (cancel_and_await fate st w).1) = tasks (svc w)
  /\ running (svc (cancel_and_await fate st w).1) = false
  /\ loop_tasks (cancel_and_await fate st w).1 = loop_tasks w.
Proof.
  intros Hrun.
  destruct st as [| |now id j b started rest used changed|]; simpl;
    try done.
  pose proof (finish_job_frame now id j b (cancelled (func j) started) w)
    as (Hr & Ht & Hl & _).
  destruct (finish_job now id j b (cancelled (func j) started) w) as [w1 go].
  simpl in *. destruct go; simpl; [|by rewrite Hr].
  destruct (next_jobs fate rest used changed w1) as [ids|]; simpl;
    [|by rewrite Hr].
  pose proof (for_jobs_frame now ids w1) as (Hr2 & Ht2 & Hl2).
  destruct (for_jobs now ids w1) as [w2 go2]. simpl in *.
  destruct go2; simpl; [|by rewrite Hr2, Ht2, Hl2, Hr].
  rewrite enter_loop_stopped; simpl; [|by rewrite Hr2, Hr].
  by rewrite Hr2, Ht2, Hl2, Hr.
Qed.

(** While [stop] awaits a task the log of the job bodies entered only
    grows, and the job table keeps its keys. *)
Lemma cancel_and_await_log fate st w :
  exists more, executed (cancel_and_await fate st w).1 = executed w ++ more.
Proof.
  destruct st as [| |now id j b started rest used changed|]; simpl;
    try apply log_refl.
  pose proof (finish_job_frame now id j b (cancelled (func j) started) w)
    as (_ & _ & _ & He).
  destruct (finish_job now id j b (cancelled (func j) started) w) as [w1 go].
  simpl in *. rewrite <- He.
  destruct go; simpl; [|apply log_refl].
  destruct (next_jobs fate rest used changed w1) as [ids|]; simpl;
    [|apply log_refl].
  destruct (for_jobs_log now ids w1) as [more1 He1].
  destruct (for_jobs now ids w1) as [w2 go2]. simpl in *.
  destruct go2; simpl.
  - destruct (enter_loop_log (set_clock (clock w2 + timedelta 1) w2))
      as [more2 ->].
    simpl. rewrite He1, <- app_assoc. eauto.
  - rewrite He1. eauto.
Qed.

Lemma cancel_and_await_keys fate st w :
  dict_keys (jobs (svc (cancel_and_await fate st w).1))
  = dict_keys (jobs (svc w)).
Proof.
  destruct st as [| |now id j b started rest used changed|]; simpl;
    try done.
  pose proof (finish_job_keys now id j b (cancelled (func j) started) w)
    as Hk.
  destruct (finish_job now id j b (cancelled (func j) started) w) as [w1 go].
  simpl in *. destruct go; simpl; [|done].
  destruct (next_jobs fate rest used changed w1) as [ids|]; simpl; [|done].
  pose proof (for_jobs_keys now ids w1) as Hk1.
  destruct (for_jobs now ids w1) as [w2 go2]. simpl in *.
  destruct go2; simpl; [|congruence].
  rewrite enter_loop_jobs. simpl. congruence.
Qed.

(** The awaits of [stop] taken in one piece are what the event loop
    does in steps: it throws [CancelledError] into the task, resumes it
    until it sleeps or has ended, and resumes it from the sleep. *)
Lemma cancel_and_await_in_steps fate now id j b started rest used w n :
  (length rest <= n)%nat ->
  cancel_and_await fate (InJob now id j b started rest used false) w
  = match drive n (throw fate (InJob now id j b started rest used false) w)
    with
    | (w2, Sleeping) => resume None Sleeping w2
    | p => p
    end.
Proof.
  intros Hn. simpl.
  pose proof (finish_job_length now id j b (cancelled (func j) started) w)
    as Hlen.
  destruct (finish_job now id j b (cancelled (func j) started) w) as [w1 go].
  simpl in Hlen. unfold after_job, next_jobs.
  destruct go; [|by rewrite drive_settled].
  destruct (Nat.eqb (length (jobs (svc w1))) used) eqn:E; simpl;
    [|by rewrite drive_settled].
  apply Nat.eqb_eq in E.
  rewrite drive_scan by done.
  by destruct (for_jobs now rest w1) as [w2 []].
Qed.

End SchedulerSteps.

(** ** Scheduler: what holds when the calls do not overlap *)

Section SchedulerInvariant.

Import Py Scheduler.

Implicit Types (w : World) (st : TaskState) (e : Event).
Implicit Types (fate : option (list string)).




Lemma cancel_task_stopped fate task w :
  running (svc w) = false ->
  running (svc (cancel_task fate task w)) = false
  /\ tasks (svc (cancel_task fate task w)) = tasks (svc w)
  /\ (forall st, loop_tasks w !! task = Some st ->
      loop_tasks (cancel_task fate task w) = <[task := Done]> (loop_tasks w))
  /\ (loop_tasks w !! task = None ->
      loop_tasks (cancel_task fate task w) = loop_tasks w).
Proof.
  intros Hrun. unfold cancel_task.
  destruct (loop_tasks w !! task) as [st|] eqn:Hst; [|done].
  destruct (cancel_and_await_finishes fate st w Hrun) as (Hd & Ht & Hr & Hl).
  destruct (cancel_and_await fate st w) as [w1 st1]. simpl in *. subst st1.
  repeat split; try done. intros st' _. by rewrite Hl.
Qed.

Lemma cancel_task_log fate task w :
  (exists more, executed (cancel_task fate task w) = executed w ++ more)
  /\ dict_keys (jobs (svc (cancel_task fate task w)))
     = dict_keys (jobs (svc w)).
Proof.
  unfold cancel_task.
  destruct (loop_tasks w !! task) as [st|]; [|split; [apply log_refl|done]].
  pose proof (cancel_and_await_log fate st w) as Hl.
  pose proof (cancel_and_await_keys fate st w) as Hk.
  by destruct (cancel_and_await fate st w) as [w1 st1].
Qed.

Lemma cancel_tasks_log fate ts : forall w,
  (exists more,
     executed (fold_left (fun acc task => cancel_task fate task acc) ts w)
     = executed w ++ more)
  /\ dict_keys
       (jobs (svc (fold_left (fun acc task => cancel_task fate task acc) ts w)))
     = dict_keys (jobs (svc w)).
Proof.
  induction ts as [|t ts IH]; intros w; simpl; [split; [apply log_refl|done]|].
  destruct (IH (cancel_task fate t w)) as [[more1 ->] ->].
  destruct (cancel_task_log fate t w) as [[more2 ->] ->].
  split; [|done]. rewrite <- app_assoc. eauto.
Qed.



Lemma note_change_Done key b st : note_change key b st = Done <-> st = Done.
Proof. by destruct st. Qed.








(** The keys of the job table stay distinct. *)
Lemma resume_keys fate st w :
  dict_keys (jobs (svc (resume fate st w).1)) = dict_keys (jobs (svc w)).
Proof.
  destruct st as [| |now id j b started rest used changed|]; simpl;
    [| | |done].
  - by rewrite enter_loop_jobs.
  - by rewrite enter_loop_jobs.
  - destruct (after_job_frame fate now rest used changed
                (finish_job now id j b (call (func j) started) w))
      as (-> & _).
    apply finish_job_keys.
Qed.

Lemma step_NoDup e w w' :
  NoDup (dict_keys (jobs (svc w))) ->
  step e w = Some w' ->
  NoDup (dict_keys (jobs (svc w'))).
Proof.
  intros Hnd Hstep.
  destruct e as [|fate|id f iv|id|task fate|d]; simpl in Hstep.
  - injection Hstep as <-. unfold start. by destruct (running (svc w)).
  - injection Hstep as <-. unfold stop_with, stop_leave, stop_enter.
    destruct (negb (running (svc w))); [done|]. simpl.
    by destruct (cancel_tasks_log fate (tasks (svc w)) (set_running false w))
      as [_ ->].
  - injection Hstep as <-. simpl. by apply dict_set_NoDup.
  - injection Hstep as <-. unfold remove_job.
    destruct (has_job id w); [|done]. simpl. by apply dict_del_NoDup.
  - destruct (loop_tasks w !! task) as [st|]; [|done].
    pose proof (resume_keys fate st w) as H.
    destruct (resume fate st w) as [w1 st1]. injection Hstep as <-.
    simpl in *. by rewrite H.
  - destruct (0 <=? d); [|done]. by injection Hstep as <-.
Qed.

Lemma reachable_NoDup w :
  reachable_without_overlap w -> NoDup (dict_keys (jobs (svc w))).
Proof.
  intros [evs Hrun].
  assert (forall evs w0 w1,
            NoDup (dict_keys (jobs (svc w0))) ->
            run evs w0 = Some w1 ->
            NoDup (dict_keys (jobs (svc w1)))) as Hgen.
  { clear. induction evs as [|e evs IH]; intros w0 w1 H0 Hr; simpl in Hr.
    - by injection Hr as <-.
    - destruct (step e w0) as [w2|] eqn:Hs; [|done].
      eapply IH; [|done]. by eapply step_NoDup. }
  eapply Hgen; [|done]. simpl. apply NoDup_nil. done.
Qed.




End SchedulerInvariant.

(** ** Scheduler: the statements of the specification *)

Section SchedulerClaims.

Import Py Scheduler SchedulerExamples.

Implicit Types (w : World) (j : Job) (ids : list string).
Implicit Types (fate : option (list string)).

Lemma finish_job_raises_only_Exception now id j b r w :
  raises_only_Exception w ->
  raises_only_Exception (finish_job now id j b r w).1.
Proof.
  intros Hw id' j' t e Hget Hout.
  pose proof (finish_job_entry now id j b r w id') as He.
  rewrite Hget in He. simpl in He.
  destruct (dict_get id' (jobs (svc w))) as [j0|] eqn:E0; [|done].
  injection He as Hf _. eapply Hw; [exact E0|]. by rewrite <- Hf.
Qed.

(** Rescheduling a job that was due keeps the sums of the due jobs in
    the range of [datetime]. *)
Lemma finish_job_in_range now id j r w :
  dict_get id (jobs (svc w)) = Some j ->
  next_run j <= now ->
  due_jobs_in_range now w ->
  due_jobs_in_range now (finish_job now id j true r w).1.
Proof.
  intros Hj Hdue Hw id' j' Hget Hd'.
  pose proof (finish_job_entry now id j true r w id') as He.
  rewrite Hget in He. simpl in He.
  destruct (String.eqb id id') eqn:E.
  - apply String.eqb_eq in E. subst id'. rewrite Hj in He.
    injection He as _ Hi. rewrite Hi. by eapply Hw.
  - apply String.eqb_neq in E. rewrite finish_job_other in Hget by done.
    by eapply Hw.
Qed.

(** When job bodies raise nothing but instances of [Exception] and the
    next run of every job that is due can be computed, the [for] loop
    reaches its end. *)
Lemma for_jobs_completes now ids : forall w,
  raises_only_Exception w ->
  due_jobs_in_range now w ->
  (for_jobs now ids w).2 = true.
Proof.
  induction ids as [|id ids IH]; intros w Hw Hin; simpl; [done|].
  destruct (dict_get id (jobs (svc w))) as [j|] eqn:Hj; [|by apply IH].
  destruct (now >=? next_run j) eqn:Hdue; [|by apply IH].
  apply Z.geb_le in Hdue.
  set (w0 := log_executed id w).
  set (r := call (func j) (clock w)).
  assert (outcome r <> Raised ExcCancelled) as Hr.
  { intros Hc. by pose proof (Hw _ _ _ _ Hj Hc). }
  pose proof (finish_job_rescheduled now id j r w0 Hj Hr (Hin _ _ Hj Hdue))
    as [Hgo _].
  pose proof (finish_job_raises_only_Exception now id j true r w0 Hw) as Hw1.
  pose proof (finish_job_in_range now id j r w0 Hj Hdue Hin) as Hin1.
  destruct (finish_job now id j true r w0) as [w1 go]. simpl in *. subst go.
  by apply IH.
Qed.

Lemma loop_iteration_Sleeping w :
  (loop_iteration w).2 = Sleeping ->
  running (svc w) = true
  /\ (for_jobs (clock w) (dict_keys (jobs (svc w))) w).2 = true
  /\ (loop_iteration w).1
     = (for_jobs (clock w) (dict_keys (jobs (svc w))) w).1.
Proof.
  unfold loop_iteration. destruct (running (svc w)); [|done].
  destruct (for_jobs (clock w) (dict_keys (jobs (svc w))) w) as [w1 []];
    done.
Qed.

Lemma dict_get_In {V} (d : list (string * V)) k v :
  dict_get k d = Some v -> In (k, v) d.
Proof.
  induction d as [|[k' v'] d IH]; simpl; [done|].
  destruct (String.eqb k k') eqn:E; [|auto].
  apply String.eqb_eq in E. subst k'. intros [= ->]. by left.
Qed.

(** The range of the due jobs, decided on the job table. *)
Lemma due_jobs_in_range_check now w :
  forallb (fun entry =>
             (now <? next_run entry.2)
             || bool_decide (plus_seconds now (interval entry.2) <> None))
    (jobs (svc w)) = true ->
  due_jobs_in_range now w.
Proof.
  intros Hall id j Hj Hdue. apply dict_get_In in Hj.
  rewrite forallb_forall in Hall. specialize (Hall _ Hj). simpl in Hall.
  apply orb_true_iff in Hall as [H|H]; [apply Z.ltb_lt in H; lia|].
  by apply bool_decide_eq_true in H.
Qed.

(** In the states that the scheduler reaches the keys of the job table
    are distinct, so that the rule of the iteration timestamp holds
    there without that condition. *)
Lemma reachable_iteration_reschedules w job_id job_info :
  reachable_without_overlap w ->
  (loop_iteration w).2 = Sleeping ->
  dict_get job_id (jobs (svc w)) = Some job_info ->
  next_run job_info <= clock w ->
  exists job_info',
    dict_get job_id (jobs (svc (loop_iteration w).1)) = Some job_info'
    /\ next_run job_info' = clock w + timedelta (interval job_info).
Proof.
  intros Hreach Hs Hj Hdue.
  destruct (loop_iteration_Sleeping w Hs) as (_ & Hgo & ->).
  destruct (for_jobs_due (clock w) _ w job_id job_info
              (reachable_NoDup w Hreach) Hgo
              (dict_get_Some_keys _ _ _ Hj) Hj Hdue)
    as (t & j' & new & _ & _ & _ & Hget & _ & _ & Hn & _).
  by exists j'.
Qed.

(** A job that is alone in its iteration is rescheduled one interval
    after the start of its run, and is left alone until then: the
    iterations one and two seconds later do not run it. *)
Example single_job_waits_for_its_interval :
  let w := default init
             (run [EvStart; EvAddJob "report" quick 10;
                   EvResume 0%nat None; EvResume 0%nat None;
                   EvResume 0%nat None; EvResume 0%nat None] init) in
  executed w = [("report"%string, 0)]
  /\ clock w = timedelta 2
  /\ (next_run <$> dict_get "report" (jobs (svc w))) = Some (timedelta 10).
Proof. repeat split. Qed.


(** A third way in which a run leaves [next_run] as it was: the sum of
    the timestamp and the interval is not a [datetime].  The backup
    job of [far_returning] returns; [last_run] is set, the sum raises
    [OverflowError], the failure is logged as the job's, and the loop
    ends before the report job, which was due, has run.  The cleanup
    job of [far_failing] raises; the sum raises in the handler, and
    the loop ends. *)
Example overflow_ends_the_loop :
  ~ rescheduled_from_run_start far_returning
  /\ ~ failure_is_contained far_failing
  /\ (loop_iteration far_returning).2 = Done
  /\ executed (loop_iteration far_returning).1 = [("backup"%string, 0)]
  /\ errors (loop_iteration far_returning).1 = ["backup"%string]
  /\ ((fun j => (last_run j, next_run j)) <$>
        dict_get "backup" (jobs (svc (loop_iteration far_returning).1)))
     = Some (Some 0, 0)
  /\ (loop_iteration far_failing).2 = Done
  /\ executed (loop_iteration far_failing).1 = [("cleanup"%string, 0)].
Proof.
  split_and!; try reflexivity.
  - intros H.
    specialize (H "backup"%string 0
                  {| func := quick; interval := far; last_run := Some 0;
                     next_run := 0 |}).
    assert (0 = 0 + timedelta far) as Habs.
    { apply H; vm_compute; auto. }
    vm_compute in Habs. discriminate.
  - intros H.
    destruct (H "cleanup"%string
                {| func := failing; interval := far; last_run := None;
                   next_run := 0 |} 0 ExcException)
      as (Hs & _).
    + vm_compute. reflexivity.
    + vm_compute. auto.
    + vm_compute. reflexivity.
    + vm_compute in Hs. discriminate.
Qed.



Example rescheduled_in_an_iteration_that_ends :
  runs_of_iteration cancelled_last
  = [("report"%string, 0); ("sync"%string, 0)]
  /\ (loop_iteration cancelled_last).2 = Done
  /\ (next_run <$>
        dict_get "report" (jobs (svc (loop_iteration cancelled_last).1)))
     = Some (timedelta 10)
  /\ (next_run <$>
        dict_get "sync" (jobs (svc (loop_iteration cancelled_last).1)))
     = Some 0.
Proof. repeat split. Qed.

(** C5, as the specification words it, fails: a job body out of which
    [asyncio.CancelledError] comes (it awaits a cancelled future) ends
    the loop; the exception is caught by the outer handler of
    [_run_scheduler], not by the handler around the job. *)
Lemma cancelled_error_ends_the_loop : ~ failure_is_contained cancelled_first.
Proof.
  intros H.
  destruct (H "sync"%string
              {| func := awaits_cancelled; interval := 10; last_run := None;
                 next_run := 0 |} 0 ExcCancelled)
    as (Hs & _).
  - vm_compute. reflexivity.
  - vm_compute. auto.
  - vm_compute. reflexivity.
  - vm_compute in Hs. discriminate.
Qed.

(** C5, amended: when the exceptions that job bodies raise are
    instances of [Exception], and the timestamp of the iteration plus
    the interval is a [datetime] for every job that is due, an
    iteration of the loop runs every job that is due, logs each
    failure, reschedules the failing job one interval after the
    timestamp of the iteration, and ends in the sleep of the loop,
    which therefore goes on. *)
Theorem exception_in_job_is_contained w :
  running (svc w) = true ->
  NoDup (dict_keys (jobs (svc w))) ->
  raises_only_Exception w ->
  due_jobs_in_range (clock w) w ->
  (loop_iteration w).2 = Sleeping
  /\ forall job_id job_info,
      dict_get job_id (jobs (svc w)) = Some job_info ->
      next_run job_info <= clock w ->
      exists t job_info',
        In (job_id, t) (executed (loop_iteration w).1)
        /\ dict_get job_id (jobs (svc (loop_iteration w).1)) = Some job_info'
        /\ next_run job_info' = clock w + timedelta (interval job_info)
        /\ (outcome (call (func job_info) t) = Raised ExcException ->
            In job_id (errors (loop_iteration w).1)).
Proof.
  intros Hrun Hnd Hw Hin.
  pose proof (for_jobs_completes (clock w) (dict_keys (jobs (svc w))) w Hw
                Hin) as Hgo.
  assert (loop_iteration w
          = ((for_jobs (clock w) (dict_keys (jobs (svc w))) w).1, Sleeping))
    as ->.
  { unfold loop_iteration. rewrite Hrun.
    destruct (for_jobs (clock w) (dict_keys (jobs (svc w))) w) as [w1 go].
    simpl in Hgo. by subst go. }
  split; [done|]. simpl. intros id j Hj Hdue.
  destruct (for_jobs_due (clock w) _ w id j Hnd Hgo
              (dict_get_Some_keys _ _ _ Hj) Hj Hdue)
    as (t & j' & new & Hlog & Hnew & _ & Hget & _ & _ & Hn & _ & He).
  exists t, j'. split_and!; try done.
  rewrite Hlog. apply in_or_app. by right.
Qed.

Lemma failing_first_raises_only_Exception :
  raises_only_Exception failing_first.
Proof.
  intros id j t e Hget Hout.
  destruct (String.eqb id "cleanup") eqn:E1.
  - apply String.eqb_eq in E1. subst id. vm_compute in Hget.
    injection Hget as <-. simpl in Hout. congruence.
  - destruct (String.eqb id "report") eqn:E2.
    + apply String.eqb_eq in E2. subst id. vm_compute in Hget.
      injection Hget as <-. simpl in Hout. congruence.
    + simpl in Hget. rewrite E1, E2 in Hget. done.
Defined.

Lemma exception_in_job_is_contained_witness :
  (loop_iteration failing_first).2 = Sleeping
  /\ forall job_id job_info,
      dict_get job_id (jobs (svc failing_first)) = Some job_info ->
      next_run job_info <= clock failing_first ->
      exists t job_info',
        In (job_id, t) (executed (loop_iteration failing_first).1)
        /\ dict_get job_id (jobs (svc (loop_iteration failing_first).1))
           = Some job_info'
        /\ next_run job_info'
           = clock failing_first + timedelta (interval job_info)
        /\ (outcome (call (func job_info) t) = Raised ExcException ->
            In job_id (errors (loop_iteration failing_first).1)).
Proof.
  apply (exception_in_job_is_contained failing_first).
  - vm_compute. reflexivity.
  - apply (bool_decide_unpack _). vm_compute. reflexivity.
  - apply failing_first_raises_only_Exception.
  - apply due_jobs_in_range_check. vm_compute. reflexivity.
Defined.

(** A key added to the job table while a task is suspended inside its
    [for] loop ends that loop: when the task is resumed, the iterator
    finds the size of the dict changed and raises [RuntimeError].  The
    flag stays up, so that [start] does not create another task. *)
Lemma new_job_during_an_iteration_ends_the_loop w task now id j b started rest
    changed job_id f interval_seconds fate w' :
  loop_tasks w !! task
  = Some (InJob now id j b started rest (length (jobs (svc w))) changed) ->
  has_job job_id w = false ->
  step (EvResume task fate) (add_job job_id f interval_seconds w) = Some w' ->
  loop_tasks w' !! task = Some Done
  /\ running (svc w') = running (svc w).
Proof.
  intros Hst Hnew Hstep. simpl in Hstep.
  rewrite list_lookup_fmap, Hst in Hstep. simpl in Hstep.
  set (w0 := add_job job_id f interval_seconds w) in *.
  assert (length (jobs (svc w0)) = S (length (jobs (svc w)))) as Hlen.
  { unfold w0, add_job. simpl. rewrite !length_jobs_keys.
    unfold has_job in Hnew.
    destruct (dict_get job_id (jobs (svc w))) eqn:E; [done|].
    rewrite (dict_keys_set_absent _ _ _ E), length_app. simpl. lia. }
  set (r := call (func j) started) in *.
  pose proof (finish_job_length now id j
                (b && negb (String.eqb job_id id)) r w0) as Hl.
  pose proof (finish_job_frame now id j
                (b && negb (String.eqb job_id id)) r w0) as (Hr & _ & Hlt & _).
  destruct (finish_job now id j (b && negb (String.eqb job_id id)) r w0)
    as [w1 go].
  cbn [fst] in Hl, Hr, Hlt. unfold after_job, next_jobs in Hstep.
  assert ((length (jobs (svc w1)) =? length (jobs (svc w)))%nat = false)
    as Hne by (apply Nat.eqb_neq; lia).
  rewrite Hne in Hstep. simpl in Hstep.
  assert (w' = set_loop_tasks (<[task := Done]> (loop_tasks w1)) w1) as ->.
  { destruct go; by injection Hstep as <-. }
  simpl. split; [|done].
  apply list_lookup_insert_eq. rewrite Hlt. unfold w0. simpl.
  rewrite length_fmap. by apply lookup_lt_Some in Hst.
Qed.



(** [stop] on a task suspended in a job body that swallows the
    cancellation: the rest of the iteration (the report job) runs while
    [stop] awaits the task, and the task has finished when [stop]
    returns. *)
Example stop_awaits_the_rest_of_the_iteration :
  executed stubborn_world = [("sync"%string, 0)]
  /\ executed (stop stubborn_world)
     = [("sync"%string, 0); ("report"%string, timedelta 1)]
  /\ map in_job (loop_tasks stubborn_world) = [true]
  /\ loop_tasks (stop stubborn_world) = [Done]
  /\ running (svc (stop stubborn_world)) = false.
Proof. repeat split. Qed.

(** The condition on [start] is needed: a scheduler that is started
    again runs its jobs again. *)
Example restart_runs_jobs_again :
  executed
    (default init
       (run [EvElapse (timedelta 20); EvStart; EvResume 1%nat None]
          (stop stubborn_world)))
  = [("sync"%string, 0); ("report"%string, timedelta 1);
     ("sync"%string, timedelta 22)].
Proof. reflexivity. Qed.





End SchedulerClaims.

(** ** Localisation: [get_text] *)

Section GetText.

Import Py Locales LocaleExamples.

Variable format : string -> list (string * PyVal) -> FormatOutcome.
Variable stored_locale : PyVal -> option string.

Implicit Types (g : Globals) (key : string) (kwargs : list (string * PyVal)).

Lemma choose_locale_explicit g l kwargs :
  truthy (Some l) = true ->
  choose_locale stored_locale g (Some l) None kwargs = (Some l, g).
Proof.
  intros Hl. unfold choose_locale. rewrite Hl.
  change (truthy None) with false. cbn [negb andb]. by rewrite Hl.
Qed.

Lemma get_text_explicit g key l kwargs :
  truthy (Some l) = true ->
  get_text format stored_locale g key (Some l) None kwargs
  = (translate format g (Some l) key kwargs, g).
Proof. intros Hl. unfold get_text. by rewrite choose_locale_explicit. Qed.

Lemma filter_without_user_id kwargs :
  dict_get "user_id" kwargs = None ->
  List.filter (fun kv => negb (String.eqb (fst kv) "user_id")) kwargs = kwargs.
Proof.
  induction kwargs as [|[k v] kw IH]; intros Hu; [done|].
  cbn [dict_get] in Hu. cbn [List.filter fst].
  rewrite String.eqb_sym.
  destruct (String.eqb "user_id" k); [done|].
  cbn [negb]. by rewrite IH.
Qed.

(** The exceptions raised while the key is resolved, and every
    exception of [str.format] except [IndexError], are handled inside
    [get_text]. *)
Lemma translate_raises_only_IndexError g cur key kwargs e :
  translate format g cur key kwargs = Raise e ->
  e = IndexError
  /\ exists template kw, format template kw = FormatRaises IndexError.
Proof.
  unfold translate.
  destruct (negb (truthy cur)); [done|].
  destruct (subscript _ _) as [?|data]; [done|].
  destruct (navigate _ data) as [?|value]; [done|].
  destruct kwargs as [|kv kwargs]; [done|].
  destruct (List.filter _ (kv :: kwargs)) as [|fk fks]; [done|].
  destruct value as [| | |template| |]; try done.
  destruct (format template (fk :: fks)) as [s|[]] eqn:Hf; try done.
  intros [= <-]. eauto.
Qed.

Lemma get_text_never_raises_for g key lang locale kwargs :
  (forall template kw, format template kw <> FormatRaises IndexError) ->
  forall e,
    (get_text format stored_locale g key lang locale kwargs).1 <> Raise e.
Proof.
  intros Hfmt e. unfold get_text.
  destruct (choose_locale stored_locale g lang locale kwargs) as [cur g1].
  simpl. intros Hr.
  apply translate_raises_only_IndexError in Hr as (_ & t & kw & Hf).
  by apply (Hfmt t kw).
Qed.

(** No locale given, no user to look one up for, and no global locale
    set: the empty string. *)
Lemma get_text_unset_locale g key kwargs :
  _current_locale g = None ->
  dict_get "user_id" kwargs = None ->
  get_text format stored_locale g key None None kwargs = (Return (JStr ""), g).
Proof.
  intros Hcur Hu. unfold get_text, choose_locale. simpl.
  by rewrite Hu, Hcur.
Qed.

(** A locale that was not loaded: the empty string. *)
Lemma get_text_unknown_locale g key l kwargs :
  truthy (Some l) = true ->
  dict_get l (_locales_data g) = None ->
  get_text format stored_locale g key (Some l) None kwargs
  = (Return (JStr ""), g).
Proof.
  intros Hl Hd. rewrite get_text_explicit by done.
  unfold translate. rewrite Hl. simpl. by rewrite Hd.
Qed.

(** A key that does not lead to a value: the empty string. *)
Lemma get_text_unknown_key g key l data kwargs e :
  truthy (Some l) = true ->
  dict_get l (_locales_data g) = Some data ->
  navigate (split "." key) data = inl e ->
  get_text format stored_locale g key (Some l) None kwargs
  = (Return (JStr ""), g).
Proof.
  intros Hl Hd Hn. rewrite get_text_explicit by done.
  unfold translate. rewrite Hl. simpl. by rewrite Hd, Hn.
Qed.

(** A key that leads to a string, with no keyword argument: that
    string. *)
Lemma get_text_plain g key l data s :
  truthy (Some l) = true ->
  dict_get l (_locales_data g) = Some data ->
  navigate (split "." key) data = inr (JStr s) ->
  get_text format stored_locale g key (Some l) None [] = (Return (JStr s), g).
Proof.
  intros Hl Hd Hn. rewrite get_text_explicit by done.
  unfold translate. rewrite Hl. simpl. by rewrite Hd, Hn.
Qed.

(** A parameter that the template names and the call does not pass
    ([KeyError]), or a template that [str.format] rejects
    ([ValueError]): the template as it is. *)
Lemma get_text_unformatted g key l data template kv kwargs :
  truthy (Some l) = true ->
  dict_get l (_locales_data g) = Some data ->
  navigate (split "." key) data = inr (JStr template) ->
  dict_get "user_id" (kv :: kwargs) = None ->
  format template (kv :: kwargs) = FormatRaises KeyError
  \/ format template (kv :: kwargs) = FormatRaises ValueError ->
  get_text format stored_locale g key (Some l) None (kv :: kwargs)
  = (Return (JStr template), g).
Proof.
  intros Hl Hd Hn Hu Hf. rewrite get_text_explicit by done.
  unfold translate. rewrite Hl. cbn [negb default from_option id subscript].
  rewrite Hd, Hn, (filter_without_user_id _ Hu).
  by destruct Hf as [-> | ->].
Qed.

(** [user_id] does not reach [str.format]: with an explicit locale, a
    call that passes it gives what the call without it gives. *)
Lemma get_text_user_id_not_formatted g key l kwargs u :
  truthy (Some l) = true ->
  get_text format stored_locale g key (Some l) None
    (("user_id"%string, u) :: kwargs)
  = get_text format stored_locale g key (Some l) None kwargs.
Proof.
  intros Hl. rewrite !get_text_explicit by done. f_equal.
  unfold translate. destruct (negb (truthy (Some l))); [done|].
  destruct (subscript _ _) as [?|data]; [done|].
  destruct (navigate _ data) as [?|value]; [done|].
  by destruct kwargs.
Qed.

End GetText.

Section GetTextClaim.

Import Py Locales LocaleExamples.

(** C9 at the inputs on which [get_text] is not total.  A key that
    names a section of the locale file makes it return that section, a
    [dict], not a string; a template with a positional field, formatted
    with keyword arguments only, makes [str.format] raise
    [IndexError], which neither handler of [get_text] catches. *)
Theorem get_text_is_not_total :
  (get_text format_plain no_storage globals "messages" (Some "en"%string)
     None []).1
  = Return
      (JObj [("welcome"%string, JStr "Hello");
             ("min_length"%string, JStr "At least {n} characters");
             ("positional"%string, JStr "Wait {} hours");
             ("suggestion_cooldown"%string,
              JStr "Next suggestion in {hours} h")])
  /\ ~ returns_string
        (get_text format_plain no_storage globals "messages"
           (Some "en"%string) None []).1
  /\ (get_text format_plain no_storage globals "messages.positional"
        (Some "en"%string) None [("hours"%string, VInt 3)]).1
     = Raise IndexError.
Proof.
  repeat split.
  intros [s Hs]. vm_compute in Hs. discriminate.
Qed.

End GetTextClaim.

(** ** Feedback cooldown *)

Section Cooldown.

Import Py Config Locales Feedback LocaleExamples.

Variable format : string -> list (string * PyVal) -> FormatOutcome.
Variable stored_locale : PyVal -> option string.
Variable cfg : Settings.

Implicit Types (g : Globals) (self : FeedbackService).

(** On a whole number of seconds the formula of the code rounds up to
    the next hour. *)
Lemma remaining_hours_whole_seconds need seconds :
  remaining_hours need (seconds * 1000000)
  = ceil_hours need (seconds * 1000000).
Proof.
  unfold remaining_hours, ceil_hours.
  replace (need * 1000000 - seconds * 1000000 + 3599 * 1000000)
    with ((need - seconds + 3599) * 1000000) by lia.
  replace (- (need * 1000000 - seconds * 1000000))
    with ((seconds - need) * 1000000) by lia.
  rewrite !Z.div_mul_cancel_r by lia.
  Z.to_euclidean_division_equations. lia.
Qed.

(** In general it rounds up unless the time left exceeds a whole number
    of hours by less than a second, in which case it rounds down. *)
Lemma remaining_hours_rounds need elapsed :
  let left := need * 1000000 - elapsed in
  remaining_hours need elapsed
  = if decide (0 < left mod 3600000000 < 1000000)
    then ceil_hours need elapsed - 1
    else ceil_hours need elapsed.
Proof.
  unfold remaining_hours, ceil_hours. simpl.
  destruct (decide _) as [H|H];
    Z.to_euclidean_division_equations; lia.
Qed.

Lemma check_cooldown_disabled g self now user_id feedback_type user_lang :
  FEEDBACK_COOLDOWN_ENABLED cfg = false ->
  check_cooldown format stored_locale cfg g self now user_id feedback_type
    user_lang
  = Checked true None.
Proof. intros H. unfold check_cooldown. by rewrite H. Qed.

(** With no earlier submission the check allows. *)
Lemma check_cooldown_no_record g self now user_id feedback_type user_lang :
  last_feedback self !! (user_id, feedback_type) = None ->
  check_cooldown format stored_locale cfg g self now user_id feedback_type
    user_lang
  = Checked true None.
Proof.
  intros H. unfold check_cooldown. rewrite H.
  by destruct (negb (FEEDBACK_COOLDOWN_ENABLED cfg)).
Qed.

(** Once the window has elapsed the check allows. *)
Lemma check_cooldown_elapsed g self now user_id feedback_type user_lang last :
  last_feedback self !! (user_id, feedback_type) = Some last ->
  FEEDBACK_COOLDOWN_HOURS cfg * 3600 * 1000000 <= now - last ->
  check_cooldown format stored_locale cfg g self now user_id feedback_type
    user_lang
  = Checked true None.
Proof.
  intros H Hle. unfold check_cooldown. rewrite H.
  destruct (negb (FEEDBACK_COOLDOWN_ENABLED cfg)); [done|].
  assert ((now - last >=? FEEDBACK_COOLDOWN_HOURS cfg * 3600 * 1000000) = true)
    as -> by (apply Z.geb_le; lia).
  done.
Qed.

(** Inside the window the check refuses, with the message that
    [get_text] makes of the hours computed by [remaining_hours]. *)
Lemma check_cooldown_pending g self now user_id feedback_type user_lang last :
  FEEDBACK_COOLDOWN_ENABLED cfg = true ->
  last_feedback self !! (user_id, feedback_type) = Some last ->
  now - last < FEEDBACK_COOLDOWN_HOURS cfg * 3600 * 1000000 ->
  check_cooldown format stored_locale cfg g self now user_id feedback_type
    user_lang
  = match
      (get_text format stored_locale g
         ("messages." +:+ feedback_type +:+ "_cooldown")
         (Some (or_default user_lang (DEFAULT_LOCALE cfg))) None
         [("hours"%string,
           VInt (remaining_hours (FEEDBACK_COOLDOWN_HOURS cfg * 3600)
                   (now - last)))]).1
    with
    | Return message => Checked false (Some message)
    | Raise e => CheckRaises e
    end.
Proof.
  intros He H Hlt. unfold check_cooldown. rewrite He, H. simpl.
  assert ((now - last >=? FEEDBACK_COOLDOWN_HOURS cfg * 3600 * 1000000)
          = false) as ->; [|done].
  destruct (Z.geb_spec (now - last)
              (FEEDBACK_COOLDOWN_HOURS cfg * 3600 * 1000000)); [lia|done].
Qed.

End Cooldown.

Section CooldownClaim.

Import Py Config Locales Feedback LocaleExamples.

(** The boundary of property 5 of the specification: with a window of
    one hour, 3599 s after the last submission the check refuses and
    reports one hour; 3600 s after it, the check allows. *)
Example cooldown_boundary :
  check_cooldown format_plain no_storage settings globals one_suggestion
    (timestamp_s 3599) 7 "suggestion" (Some "en"%string)
  = Checked false (Some (JStr "Next suggestion in 1 h"))
  /\ check_cooldown format_plain no_storage settings globals one_suggestion
       (timestamp_s 3600) 7 "suggestion" (Some "en"%string)
     = Checked true None.
Proof. split; vm_compute; reflexivity. Qed.

(** C3 at the input on which the code departs from it: with a window
    of one hour, 3599.5 s after the last submission the check refuses
    and reports zero hours, where rounding up gives one. *)
Theorem cooldown_reports_zero_hours :
  check_cooldown format_plain no_storage settings globals one_suggestion
    3599500000 7 "suggestion" (Some "en"%string)
  = Checked false (Some (JStr "Next suggestion in 0 h"))
  /\ remaining_hours 3600 3599500000 = 0
  /\ ceil_hours 3600 3599500000 = 1.
Proof. repeat split; vm_compute; reflexivity. Qed.

End CooldownClaim.

(** ** Tickets: the single active ticket *)

Section TicketFacts.

Import Tickets.

Implicit Types (l : list Ticket) (t : Ticket) (self : TicketService).

Lemma find_None_filter (p : Ticket -> bool) l :
  List.find p l = None -> List.filter p l = [].
Proof.
  induction l as [|x l IH]; simpl; [done|].
  destruct (p x); [done|]. apply IH.
Qed.

Lemma filter_length_le (p : Ticket -> bool) l :
  (length (List.filter p l) <= length l)%nat.
Proof.
  induction l as [|x l IH]; simpl; [lia|]. destruct (p x); simpl; lia.
Qed.

Lemma update_first_filter (p : Ticket -> bool) ticket_id f l t :
  List.find (fun x => Nat.eqb (id x) ticket_id) l = Some t ->
  (p (f t) = true -> p t = true) ->
  (length (List.filter p (update_first ticket_id f l))
   <= length (List.filter p l))%nat.
Proof.
  intros Hfind Hp. induction l as [|x l IH]; simpl in *; [done|].
  destruct (Nat.eqb (id x) ticket_id).
  - injection Hfind as ->. simpl.
    destruct (p (f t)) eqn:E.
    + rewrite (Hp eq_refl). simpl. lia.
    + destruct (p t); simpl; lia.
  - specialize (IH Hfind). simpl. destruct (p x); simpl; lia.
Qed.

Lemma single_active_update self ticket_id f t :
  get_ticket self ticket_id = Some t ->
  (forall uid, active_for uid (f t) = true -> active_for uid t = true) ->
  single_active self ->
  single_active (update_ticket ticket_id f self).
Proof.
  intros Hget Hf Hs uid. simpl.
  etransitivity; [|apply (Hs uid)].
  eapply update_first_filter; [apply Hget | apply Hf].
Qed.

Lemma single_active_create self now uid body uname t self' :
  create_ticket self now uid body uname = Some (t, self') ->
  single_active self ->
  single_active self'.
Proof.
  unfold create_ticket, get_user_active_ticket.
  destruct (List.find (active_for uid) (tickets self)) eqn:Hfind; [done|].
  intros [= <- <-] Hs u. simpl. rewrite List.filter_app, length_app. simpl.
  destruct (Z.eqb_spec uid u) as [->|Hne].
  - rewrite (find_None_filter _ _ Hfind). simpl.
    destruct (active_for u _); simpl; lia.
  - unfold active_for at 2. simpl.
    assert ((uid =? u) = false) as -> by by apply Z.eqb_neq.
    simpl. specialize (Hs u). lia.
Qed.

(** A user who holds an open ticket gets no further one. *)
Lemma create_ticket_refuses self now uid body uname t :
  get_user_active_ticket self uid = Some t ->
  create_ticket self now uid body uname = None.
Proof. intros H. unfold create_ticket. by rewrite H. Qed.

Lemma single_active_take self ticket_id t self' :
  take_ticket self ticket_id = Some (t, self') ->
  single_active self -> single_active self'.
Proof.
  unfold take_ticket.
  destruct (get_ticket self ticket_id) as [t0|] eqn:Hget; [|done].
  destruct (status t0) eqn:Hst; try done.
  intros [= <- <-]. eapply single_active_update; [done|].
  intros uid. unfold active_for. simpl. by rewrite Hst.
Qed.

Lemma single_active_close self ticket_id t self' :
  close_ticket self ticket_id = Some (t, self') ->
  single_active self -> single_active self'.
Proof.
  unfold close_ticket.
  destruct (get_ticket self ticket_id) as [t0|] eqn:Hget; [|done].
  intros [= <- <-]. eapply single_active_update; [done|].
  intros uid. unfold active_for. simpl. by rewrite andb_false_r.
Qed.

Lemma single_active_add_message self now ticket_id who body t self' :
  add_message self now ticket_id who body = Some (t, self') ->
  single_active self -> single_active self'.
Proof.
  unfold add_message.
  destruct (get_ticket self ticket_id) as [t0|] eqn:Hget; [|done].
  intros [= <- <-]. eapply single_active_update; [done|]. done.
Qed.

Lemma single_active_clear self :
  single_active self -> single_active (clear_active_tickets self).2.
Proof.
  intros Hs uid. simpl. etransitivity; [|apply (Hs uid)].
  induction (tickets self) as [|x l IH]; simpl; [done|].
  assert (active_for uid x
          = (user_id x =? uid) && negb (is_done (status x))) as Ha by done.
  destruct (is_done (status x)) eqn:E; simpl; rewrite Ha.
  - rewrite andb_false_r. done.
  - rewrite andb_true_r. destruct (user_id x =? uid); simpl; lia.
Qed.

End TicketFacts.

(** ** Handlers *)

Section HandlerFacts.

Import Py Config Tickets Bans Handlers.

Variable cfg : Settings.

Implicit Types (env : Env) (b : Bot) (user : User) (body : string).

Lemma data_of_put_state b u s : state (data_of (put_state u s b) u) = s.
Proof.
  unfold data_of, put_state, with_data. simpl. by rewrite lookup_insert_eq.
Qed.

(** A card render touches the outbox and the registry of card
    messages only. *)
Lemma send_or_update_ticket_card_frame env ticket_id action message_id b :
  let b' := send_or_update_ticket_card env ticket_id action message_id b in
  ticket_service b' = ticket_service b
  /\ ban_manager b' = ban_manager b
  /\ user_data b' = user_data b
  /\ escaped b' = escaped b.
Proof.
  unfold send_or_update_ticket_card.
  destruct (get_ticket (ticket_service b) ticket_id) as [t|]; [|done].
  destruct (truthy_id message_id); simpl.
  - destruct (edit_message_text env _ _); simpl; try done;
      by destruct (send_message env _).
  - by destruct (send_message env _).
Qed.

(** The render with an identifier whose edit succeeds: the card is
    edited in place and the identifier is kept. *)
Lemma render_edit_in_place env ticket_id action m b t :
  get_ticket (ticket_service b) ticket_id = Some t ->
  m <> 0 ->
  let card := {| card_action := action; card_ticket := t;
                 card_buttons := card_buttons_for t |} in
  edit_message_text env m card = EditOk ->
  let b' := send_or_update_ticket_card env ticket_id action (Some m) b in
  outbox b' = outbox b ++ [EditCard m card]
  /\ TICKET_CARD_MESSAGES b' = <[ticket_id := m]> (TICKET_CARD_MESSAGES b).
Proof.
  intros Ht Hm card He. unfold send_or_update_ticket_card. rewrite Ht.
  simpl. apply Z.eqb_neq in Hm. rewrite Hm. simpl. fold card.
  by rewrite He.
Qed.

(** The render with an identifier whose edit raises, for whatever
    reason: a new message is sent and its identifier replaces the
    stored one. *)
Lemma render_falls_back env ticket_id action m b t new_id :
  get_ticket (ticket_service b) ticket_id = Some t ->
  m <> 0 ->
  let card := {| card_action := action; card_ticket := t;
                 card_buttons := card_buttons_for t |} in
  edit_message_text env m card <> EditOk ->
  send_message env card = Some new_id ->
  let b' := send_or_update_ticket_card env ticket_id action (Some m) b in
  outbox b' = outbox b ++ [EditCard m card; SendCard card]
  /\ TICKET_CARD_MESSAGES b'
     = <[ticket_id := new_id]> (TICKET_CARD_MESSAGES b).
Proof.
  intros Ht Hm card He Hs. unfold send_or_update_ticket_card. rewrite Ht.
  simpl. apply Z.eqb_neq in Hm. rewrite Hm. simpl. fold card.
  destruct (edit_message_text env m card); [done| |];
    rewrite Hs; simpl; by rewrite <- app_assoc.
Qed.

(** The render without an identifier: a new message is sent and its
    identifier is stored. *)
Lemma render_first_card env ticket_id action b t new_id :
  get_ticket (ticket_service b) ticket_id = Some t ->
  let card := {| card_action := action; card_ticket := t;
                 card_buttons := card_buttons_for t |} in
  send_message env card = Some new_id ->
  let b' := send_or_update_ticket_card env ticket_id action None b in
  outbox b' = outbox b ++ [SendCard card]
  /\ TICKET_CARD_MESSAGES b'
     = <[ticket_id := new_id]> (TICKET_CARD_MESSAGES b).
Proof.
  intros Ht card Hs. unfold send_or_update_ticket_card. rewrite Ht.
  simpl. fold card. by rewrite Hs.
Qed.

(** Rewrites the ticket service after a card render into the one
    before it. *)
Ltac forget_card_render :=
  match goal with
  | |- context [send_or_update_ticket_card ?e ?i ?a ?m ?x] =>
      destruct (send_or_update_ticket_card_frame e i a m x) as (-> & _)
  end.

(** The single active ticket through the handlers. *)
Lemma handle_question_text_single env user body b :
  single_active (ticket_service b) ->
  single_active (ticket_service (handle_question_text cfg env user body b)).
Proof.
  intros Hs. unfold handle_question_text.
  destruct (String.length body <? ASK_MIN_LENGTH cfg)%nat; [done|].
  destruct (create_ticket _ _ _ _ _) as [[t service]|] eqn:Hc; [|done].
  forget_card_render.
  simpl. by eapply single_active_create.
Qed.

Lemma handle_ticket_message_single env user ticket_id body b :
  single_active (ticket_service b) ->
  single_active
    (ticket_service (handle_ticket_message env user ticket_id body b)).
Proof.
  intros Hs. unfold handle_ticket_message.
  forget_card_render.
  simpl. destruct (add_message _ _ _ _ _) as [[t service]|] eqn:Ha; [|done].
  simpl. by eapply single_active_add_message.
Qed.

Lemma handle_admin_reply_single env user body b :
  single_active (ticket_service b) ->
  single_active (ticket_service (handle_admin_reply env user body b)).
Proof.
  intros Hs. unfold handle_admin_reply.
  destruct (reply_ticket_id _) as [ticket_id|]; [|done].
  destruct (add_message _ _ _ _ _) as [[t service]|] eqn:Ha; [|done].
  forget_card_render.
  simpl. by eapply single_active_add_message.
Qed.

Lemma admin_text_handler_tickets env user body b b' :
  admin_text_handler cfg env user body b = Some b' ->
  single_active (ticket_service b) ->
  single_active (ticket_service b').
Proof.
  unfold admin_text_handler. intros H Hs.
  destruct (negb (uid user =? ADMIN_ID cfg)); [by injection H as <-|].
  destruct (state (data_of b (uid user))) as [[]|];
    try (by injection H as <-).
  - injection H as <-. by apply handle_admin_reply_single.
  - done.
  - destruct (int_of_text env body); by injection H as <-.
  - destruct (truthy_id _); [|by injection H as <-].
    destruct (truthy _); by injection H as <-.
  - destruct (int_of_text env body); [|by injection H as <-].
    destruct (negb _); by injection H as <-.
Qed.

Lemma text_message_handler_single env user body b b' :
  text_message_handler cfg env user body b = Some b' ->
  single_active (ticket_service b) ->
  single_active (ticket_service b').
Proof.
  unfold text_message_handler. intros H Hs.
  destruct (is_banned _ _); [by injection H as <-|].
  assert (forall b0,
    (if uid user =? ADMIN_ID cfg then admin_text_handler cfg env user body b
     else
       match get_user_active_ticket (ticket_service b) (uid user) with
       | Some active_ticket =>
           match last_actor active_ticket with
           | SenderUser =>
               Some (emit (ReplyText (uid user)
                             "messages.wait_for_admin_reply" []) b)
           | SenderSupport =>
               Some (handle_ticket_message env user (id active_ticket)
                       body b)
           end
       | None =>
           Some (emit (ReplyText (uid user)
                         "messages.please_choose_from_menu" []) b)
       end) = Some b0 ->
    single_active (ticket_service b0)) as Helse.
  { intros b0 H0. destruct (uid user =? ADMIN_ID cfg).
    - by eapply admin_text_handler_tickets.
    - destruct (get_user_active_ticket _ _) as [a|];
        [|by injection H0 as <-].
      destruct (last_actor a); injection H0 as <-; [done|].
      by apply handle_ticket_message_single. }
  destruct (state (data_of b (uid user))) as [[]|]; try (by apply Helse);
    try done.
  - injection H as <-. by apply handle_question_text_single.
  - injection H as <-. by apply handle_admin_reply_single.
Qed.

Lemma callback_handler_single env user query_message_id data b :
  single_active (ticket_service b) ->
  single_active
    (ticket_service (callback_handler cfg env user query_message_id data b)).
Proof.
  intros Hs. destruct data as [|ticket_id|ticket_id|ticket_id| | |]; simpl;
    try done.
  - unfold handle_take_ticket.
    destruct (take_ticket _ _) as [[t service]|] eqn:Ht; [|done].
    forget_card_render.
    simpl. by eapply single_active_take.
  - unfold handle_close_ticket.
    destruct (close_ticket _ _) as [[t service]|] eqn:Ht; [|done].
    simpl.
    forget_card_render.
    simpl. by eapply single_active_close.
  - unfold handle_reply_ticket.
    destruct (get_ticket _ _) as [t|]; [|done].
    by destruct (status t).
  - exact (single_active_clear _ Hs).
Qed.

Lemma dispatch_single u b b' :
  dispatch cfg u b = Some b' ->
  single_active (ticket_service b) ->
  single_active (ticket_service b').
Proof.
  destruct u as [env user|env user body|env user m data]; simpl; intros H Hs.
  - injection H as <-. unfold ask_question_handler.
    destruct (is_banned _ _); [done|].
    by destruct (get_user_active_ticket _ _).
  - by eapply text_message_handler_single.
  - injection H as <-. by apply callback_handler_single.
Qed.

Lemma process_single us : forall b b',
  process cfg us b = Some b' ->
  single_active (ticket_service b) ->
  single_active (ticket_service b').
Proof.
  induction us as [|u us IH]; intros b b' H Hs; simpl in H.
  - by injection H as <-.
  - destruct (dispatch cfg u b) as [b1|] eqn:Hd; [|done].
    eapply IH; [done|]. by eapply dispatch_single.
Qed.

End HandlerFacts.

(** ** Handlers: the ban registry *)

Section HandlerBans.

Import Py Config Tickets Bans Handlers BanFlow.

Variable cfg : Settings.

Implicit Types (env : Env) (b : Bot) (user : User) (body : string).












End HandlerBans.

(** ** Handlers: the statements of the specification *)

Section HandlerClaims.

Import Py Config Tickets Bans Handlers LocaleExamples HandlerExamples.
Import HandlerCoverageExamples BanFlow.

Implicit Types (cfg : Settings) (env : Env) (b : Bot) (user : User).

(** A text that arrives in [awaiting_question] from a user who is not
    banned is handed to [handle_question_text]. *)
Lemma question_text_is_routed cfg env user body b :
  is_banned (ban_manager b) (uid user) = false ->
  state (data_of b (uid user)) = Some awaiting_question ->
  text_message_handler cfg env user body b
  = Some (handle_question_text cfg env user body b).
Proof. intros Hb Hs. unfold text_message_handler. by rewrite Hb, Hs. Qed.

(** The button [user_start_question] puts a user into
    [awaiting_question] without looking at the tickets of the user,
    unlike [ask_question_handler]; the question that follows reaches
    [create_ticket], which refuses it. *)
Example second_question_is_refused :
  exists b,
    process settings asks_twice empty_bot = Some b
    /\ tickets (ticket_service b) = tickets (ticket_service one_ticket)
    /\ escaped b = [AlreadyActive]
    /\ state (data_of b (uid alice)) = Some awaiting_question.
Proof. eexists. repeat split; vm_compute; reflexivity. Qed.

(** C1: after any sequence of updates (questions asked by command or
    by button, texts, tickets taken, closed and cleared) no user holds
    two tickets that are not closed; and the question of a user who
    holds one leaves the tickets as they are. *)
Theorem at_most_one_open_ticket cfg us b :
  process cfg us empty_bot = Some b ->
  single_active (ticket_service b)
  /\ forall env user body t,
      get_user_active_ticket (ticket_service b) (uid user) = Some t ->
      ticket_service (handle_question_text cfg env user body b)
      = ticket_service b.
Proof.
  intros Hp. split.
  - eapply process_single; [done|]. intros u. simpl. lia.
  - intros env user body t Ht. unfold handle_question_text.
    destruct (String.length body <? ASK_MIN_LENGTH cfg)%nat; [done|].
    by rewrite (create_ticket_refuses _ _ _ _ _ _ Ht).
Qed.

Lemma at_most_one_open_ticket_witness :
  single_active (ticket_service asked_twice)
  /\ forall env user body t,
      get_user_active_ticket (ticket_service asked_twice) (uid user) = Some t ->
      ticket_service (handle_question_text settings env user body asked_twice)
      = ticket_service asked_twice.
Proof.
  apply (at_most_one_open_ticket settings asks_twice asked_twice).
  vm_compute. reflexivity.
Defined.

(** C7: a text shorter than [ASK_MIN_LENGTH], handled in
    [awaiting_question], does not reach [create_ticket], leaves the
    state at [awaiting_question], and is answered by the prompt
    [messages.min_length]. *)
Theorem short_question_is_rejected cfg env user body b :
  (String.length body < ASK_MIN_LENGTH cfg)%nat ->
  state (data_of b (uid user)) = Some awaiting_question ->
  let b' := handle_question_text cfg env user body b in
  ~ create_called b b'
  /\ ticket_service b' = ticket_service b
  /\ state (data_of b' (uid user)) = Some awaiting_question
  /\ outbox b'
     = outbox b
       ++ [ReplyText (uid user) "messages.min_length"
             [("n"%string, VInt (Z.of_nat (ASK_MIN_LENGTH cfg)))]].
Proof.
  intros Hlen Hs. unfold handle_question_text.
  apply Nat.ltb_lt in Hlen. rewrite Hlen. simpl.
  repeat split; try done. intros [H|H]; by apply H.
Qed.

Lemma short_question_is_rejected_witness :
  let b' :=
    handle_question_text settings env_ok alice "too short" alice_asked in
  ~ create_called alice_asked b'
  /\ ticket_service b' = ticket_service alice_asked
  /\ state (data_of b' (uid alice)) = Some awaiting_question
  /\ outbox b'
     = outbox alice_asked
       ++ [ReplyText (uid alice) "messages.min_length"
             [("n"%string, VInt (Z.of_nat (ASK_MIN_LENGTH settings)))]].
Proof.
  apply (short_question_is_rejected settings env_ok alice "too short"
           alice_asked).
  - vm_compute. lia.
  - vm_compute. reflexivity.
Defined.

(** C8 at the input on which the code departs from it.  The card of
    ticket 0 is message 500; it is rendered again with the same
    content, and the transport refuses the edit as "not modified".
    The render does not take this for a success: it sends the card
    again and replaces the stored identifier by that of the new
    message. *)
Theorem unchanged_card_is_sent_again :
  let card := {| card_action := ActionNew;
                 card_ticket := open_ticket;
                 card_buttons := card_buttons_for open_ticket |} in
  let b' :=
    send_or_update_ticket_card env_not_modified 0 ActionNew
      (TICKET_CARD_MESSAGES one_ticket !! 0%nat) one_ticket in
  get_ticket (ticket_service one_ticket) 0 = Some open_ticket
  /\ TICKET_CARD_MESSAGES one_ticket !! 0%nat = Some 500
  /\ edit_message_text env_not_modified 500 card = EditNotModified
  /\ outbox b' = outbox one_ticket ++ [EditCard 500 card; SendCard card]
  /\ TICKET_CARD_MESSAGES b' !! 0%nat = Some 501.
Proof. repeat split; vm_compute; reflexivity. Qed.




(** The condition on the registry is needed.  The guard tests the
    stored reason, not the presence of the user in the list: on a
    registry that holds user 42 with the empty reason, which the
    handlers do not produce, [ban_user] is called again and the stored
    reason becomes the new one. *)
Example empty_reason_is_overwritten :
  find_reason 42 (get_banned_list (ban_manager banned_without_reason))
  = Some ""%string
  /\ exists b',
      admin_text_handler settings env_ok admin "spam" banned_without_reason
      = Some b'
      /\ ban_user_calls (ban_manager b') = [(42, "spam"%string)]
      /\ banned (ban_manager b') = [(42, "spam"%string)]
      /\ outbox b'
         = [ReplyText 1 "admin.user_banned"
              [("user_id"%string, VInt 42); ("reason"%string, VStr "spam")]]
      /\ state (data_of b' 1) = None.
Proof.
  split; [reflexivity|]. eexists. repeat split; vm_compute; reflexivity.
Qed.

End HandlerClaims.

(** * Further properties of the embedded code *)

(** ** The scheduler: what an iteration leaves alone, and the job table *)

Section SchedulerCoverage.

Import Py Scheduler SchedulerExamples.

Implicit Types (w : World) (j : Job) (ids : list string).

Lemma for_jobs_not_due now ids : forall w id j,
  dict_get id (jobs (svc w)) = Some j ->
  now < next_run j ->
  dict_get id (jobs (svc (for_jobs now ids w).1)) = Some j
  /\ forall t, In (id, t) (executed (for_jobs now ids w).1) ->
               In (id, t) (executed w).
Proof.
  induction ids as [|id0 ids IH]; intros w id j Hj Hlt; simpl; [done|].
  destruct (dict_get id0 (jobs (svc w))) as [j0|] eqn:Hj0; [|by apply IH].
  destruct (now >=? next_run j0) eqn:Hdue; [|by apply IH].
  destruct (String.eqb id0 id) eqn:E.
  { apply String.eqb_eq in E. subst id0.
    assert (j0 = j) as -> by congruence. lia. }
  apply String.eqb_neq in E.
  pose proof (finish_job_frame now id0 j0 true (call (func j0) (clock w))
                (log_executed id0 w)) as (_ & _ & _ & Hex).
  pose proof (finish_job_other now id0 j0 true (call (func j0) (clock w))
                (log_executed id0 w) id E) as Hother.
  destruct (finish_job now id0 j0 true (call (func j0) (clock w))
              (log_executed id0 w)) as [w1 go].
  simpl in Hex, Hother.
  assert (forall t, In (id, t) (executed w1) -> In (id, t) (executed w))
    as Hback.
  { intros t. rewrite Hex. simpl. rewrite in_app_iff. simpl.
    intros [H|[H|[]]]; [done|]. congruence. }
  destruct go; simpl.
  - destruct (IH w1 id j) as [Hget Hin]; [by rewrite Hother|done|].
    split; [done|]. intros t Ht. by apply Hback, Hin.
  - split; [by rewrite Hother|done].
Qed.

Lemma loop_iteration_for_jobs w :
  (loop_iteration w).1
  = if running (svc w)
    then (for_jobs (clock w) (dict_keys (jobs (svc w))) w).1
    else w.
Proof.
  unfold loop_iteration. destruct (running (svc w)); [|done].
  by destruct (for_jobs (clock w) (dict_keys (jobs (svc w))) w).
Qed.

(** X1: a job whose [next_run] lies after the timestamp of an
    iteration is not run in that iteration, whatever the other jobs do,
    and its entry in the job table is left as it was. *)
Theorem job_is_not_run_before_it_is_due w job_id job_info :
  dict_get job_id (jobs (svc w)) = Some job_info ->
  clock w < next_run job_info ->
  dict_get job_id (jobs (svc (loop_iteration w).1)) = Some job_info
  /\ forall t, In (job_id, t) (executed (loop_iteration w).1) ->
               In (job_id, t) (executed w).
Proof.
  intros Hj Hlt. rewrite loop_iteration_for_jobs.
  destruct (running (svc w)); [|done].
  by apply for_jobs_not_due.
Qed.

Lemma job_is_not_run_before_it_is_due_witness :
  dict_get "report"
    (jobs (svc (loop_iteration
                  (set_clock (timedelta 5) (loop_iteration two_jobs).1)).1))
  = Some {| func := quick; interval := 10; last_run := Some 0;
            next_run := timedelta 10 |}
  /\ forall t,
      In ("report"%string, t)
        (executed
           (loop_iteration
              (set_clock (timedelta 5) (loop_iteration two_jobs).1)).1) ->
      In ("report"%string, t)
        (executed (set_clock (timedelta 5) (loop_iteration two_jobs).1)).
Proof.
  apply (job_is_not_run_before_it_is_due
           (set_clock (timedelta 5) (loop_iteration two_jobs).1) "report").
  - vm_compute. reflexivity.
  - vm_compute. reflexivity.
Defined.

(** X2: two runs of a job are at least one interval apart, measured
    between the timestamps of their iterations: after an iteration that
    ran the job and went on to its sleep, an iteration whose timestamp
    is less than one interval later neither runs the job again nor
    changes its entry in the job table. *)
Theorem runs_of_a_job_are_an_interval_apart w w' job_id job_info :
  NoDup (dict_keys (jobs (svc w))) ->
  (loop_iteration w).2 = Sleeping ->
  dict_get job_id (jobs (svc w)) = Some job_info ->
  next_run job_info <= clock w ->
  jobs (svc w') = jobs (svc (loop_iteration w).1) ->
  clock w' < clock w + timedelta (interval job_info) ->
  dict_get job_id (jobs (svc (loop_iteration w').1))
  = dict_get job_id (jobs (svc w'))
  /\ forall t, In (job_id, t) (executed (loop_iteration w').1) ->
               In (job_id, t) (executed w').
Proof.
  intros Hnd Hs Hj Hdue Hjobs Hlt.
  destruct (loop_iteration_Sleeping w Hs) as (_ & Hgo & Hw1).
  rewrite Hw1 in Hjobs.
  destruct (for_jobs_due (clock w) _ w job_id job_info Hnd Hgo
              (dict_get_Some_keys _ _ _ Hj) Hj Hdue)
    as (t0 & j' & new & _ & _ & _ & Hget & _ & _ & Hn & _).
  rewrite <- Hjobs in Hget.
  rewrite loop_iteration_for_jobs. destruct (running (svc w')); [|done].
  rewrite Hget.
  apply (for_jobs_not_due _ _ w' job_id j' Hget). lia.
Qed.

Lemma runs_of_a_job_are_an_interval_apart_witness :
  dict_get "report"
    (jobs (svc (loop_iteration
                  (set_clock (timedelta 9) (loop_iteration two_jobs).1)).1))
  = dict_get "report"
      (jobs (svc (set_clock (timedelta 9) (loop_iteration two_jobs).1)))
  /\ forall t,
      In ("report"%string, t)
        (executed
           (loop_iteration
              (set_clock (timedelta 9) (loop_iteration two_jobs).1)).1) ->
      In ("report"%string, t)
        (executed (set_clock (timedelta 9) (loop_iteration two_jobs).1)).
Proof.
  apply (runs_of_a_job_are_an_interval_apart two_jobs
           (set_clock (timedelta 9) (loop_iteration two_jobs).1) "report"
           {| func := quick; interval := 10; last_run := None;
              next_run := 0 |}).
  - apply (bool_decide_unpack _). vm_compute. reflexivity.
  - vm_compute. reflexivity.
  - vm_compute. reflexivity.
  - vm_compute. discriminate.
  - reflexivity.
  - vm_compute. reflexivity.
Defined.

Lemma add_job_raises_only_Exception job_id f interval_seconds w :
  raises_only_Exception w ->
  (forall t e, outcome (call f t) = Raised e -> e = ExcException) ->
  raises_only_Exception (add_job job_id f interval_seconds w).
Proof.
  intros Hw Hf id j t e Hget Hout. unfold add_job in Hget. simpl in Hget.
  destruct (String.eqb job_id id) eqn:E.
  - apply String.eqb_eq in E. subst id. rewrite dict_get_set_eq in Hget.
    injection Hget as <-. simpl in Hout. by eapply Hf.
  - apply String.eqb_neq in E. rewrite dict_get_set_ne in Hget by done.
    by eapply Hw.
Qed.

(** X3: a job registered with [add_job] is due at once: in an
    iteration of a running scheduler that starts after the call, at
    whatever later time, with the job table as the call left it, the
    new job runs, also when the id replaces a job that was not yet due,
    and is scheduled one interval after the timestamp of that
    iteration.  The job bodies raise nothing but instances of
    [Exception], and the timestamp plus the interval is a [datetime]
    for every job that is due. *)
Theorem added_job_runs_in_the_next_iteration w job_id f interval_seconds t :
  running (svc w) = true ->
  NoDup (dict_keys (jobs (svc w))) ->
  raises_only_Exception w ->
  (forall t' e, outcome (call f t') = Raised e -> e = ExcException) ->
  clock w <= t ->
  let w1 := set_clock t (add_job job_id f interval_seconds w) in
  due_jobs_in_range t w1 ->
  (loop_iteration w1).2 = Sleeping
  /\ exists t' job_info,
      In (job_id, t') (runs_of_iteration w1)
      /\ dict_get job_id (jobs (svc (loop_iteration w1).1)) = Some job_info
      /\ func job_info = f
      /\ interval job_info = interval_seconds
      /\ next_run job_info = t + timedelta interval_seconds.
Proof.
  intros Hrun Hnd Hw Hf Hlater w1 Hin.
  assert (raises_only_Exception w1) as Hw1.
  { intros id j t' e Hget Hout.
    by eapply (add_job_raises_only_Exception job_id f interval_seconds w). }
  pose proof (for_jobs_completes (clock w1) (dict_keys (jobs (svc w1))) w1 Hw1
                Hin) as Hgo.
  unfold runs_of_iteration.
  assert (loop_iteration w1
          = ((for_jobs (clock w1) (dict_keys (jobs (svc w1))) w1).1, Sleeping))
    as ->.
  { unfold loop_iteration.
    assert (running (svc w1) = true) as -> by done.
    destruct (for_jobs (clock w1) (dict_keys (jobs (svc w1))) w1) as [w2 go].
    simpl in Hgo. by subst go. }
  split; [done|]. cbn [fst].
  assert (dict_get job_id (jobs (svc w1))
          = Some {| func := f; interval := interval_seconds;
                    last_run := None; next_run := clock w |}) as Hj.
  { unfold w1, add_job. simpl. apply dict_get_set_eq. }
  assert (NoDup (dict_keys (jobs (svc w1)))) as Hnd1.
  { unfold w1, add_job. simpl. by apply dict_set_NoDup. }
  destruct (for_jobs_due (clock w1) _ w1 job_id _ Hnd1 Hgo
              (dict_get_Some_keys _ _ _ Hj) Hj)
    as (t' & j' & new & Hlog & Hnew & _ & Hget & Hfn & Hi & Hn & _).
  { simpl. lia. }
  exists t', j'. split_and!; try done.
  by rewrite Hlog, drop_app_length.
Qed.

Lemma added_job_runs_in_the_next_iteration_witness :
  let w1 := set_clock (timedelta 3) (add_job "cleanup" failing 30 two_jobs) in
  (loop_iteration w1).2 = Sleeping
  /\ exists t' job_info,
      In ("cleanup"%string, t') (runs_of_iteration w1)
      /\ dict_get "cleanup" (jobs (svc (loop_iteration w1).1)) = Some job_info
      /\ func job_info = failing
      /\ interval job_info = 30
      /\ next_run job_info = timedelta 3 + timedelta 30.
Proof.
  apply (added_job_runs_in_the_next_iteration two_jobs "cleanup" failing 30
           (timedelta 3)).
  - vm_compute. reflexivity.
  - apply (bool_decide_unpack _). vm_compute. reflexivity.
  - apply add_job_raises_only_Exception.
    + apply add_job_raises_only_Exception.
      * intros id j t e Hget. vm_compute in Hget. discriminate.
      * intros t e H. vm_compute in H. discriminate.
    + intros t e H. vm_compute in H. discriminate.
  - intros t e H. vm_compute in H. congruence.
  - vm_compute. discriminate.
  - apply due_jobs_in_range_check. vm_compute. reflexivity.
Defined.

Lemma for_jobs_entry now ids : forall w id',
  ((fun j' => (func j', interval j')) <$>
     dict_get id' (jobs (svc (for_jobs now ids w).1)))
  = ((fun j' => (func j', interval j')) <$> dict_get id' (jobs (svc w))).
Proof.
  induction ids as [|id ids IH]; intros w id'; simpl; [done|].
  destruct (dict_get id (jobs (svc w))) as [j|] eqn:Hj; [|by apply IH].
  destruct (now >=? next_run j); [|by apply IH].
  pose proof (finish_job_entry now id j true (call (func j) (clock w))
                (log_executed id w) id') as Hf.
  destruct (finish_job now id j true (call (func j) (clock w))
              (log_executed id w)) as [w1 go].
  simpl in Hf. destruct go; simpl; [by rewrite IH | done].
Qed.

(** X4: an iteration of the loop changes nothing of the job table but
    the [last_run] and [next_run] of its jobs: the ids and their order,
    and the callable and the interval of every job, are as before. *)
Theorem iteration_keeps_the_job_table w :
  dict_keys (jobs (svc (loop_iteration w).1)) = dict_keys (jobs (svc w))
  /\ forall job_id,
      ((fun j => (func j, interval j)) <$>
         dict_get job_id (jobs (svc (loop_iteration w).1)))
      = ((fun j => (func j, interval j)) <$> dict_get job_id (jobs (svc w))).
Proof.
  rewrite loop_iteration_for_jobs. destruct (running (svc w)); [|done].
  split; [apply for_jobs_keys | apply for_jobs_entry].
Qed.

Lemma dict_get_del_eq {V} (d : list (string * V)) k :
  NoDup (dict_keys d) -> dict_get k (dict_del k d) = None.
Proof.
  unfold dict_keys.
  induction d as [|[k' v'] d IH]; simpl; intros Hnd; [done|].
  apply NoDup_cons in Hnd as [Hk Hnd].
  destruct (String.eqb k k') eqn:E.
  - apply String.eqb_eq in E. subst k'.
    destruct (dict_get k d) eqn:Hg; [|done].
    exfalso. apply Hk, list_elem_of_In. by eapply dict_get_Some_keys.
  - simpl. rewrite E. by apply IH.
Qed.

Lemma dict_get_del_ne {V} (d : list (string * V)) k k' :
  k <> k' -> dict_get k' (dict_del k d) = dict_get k' d.
Proof.
  intros Hne. induction d as [|[k0 v0] d IH]; simpl; [done|].
  destruct (String.eqb k k0) eqn:E.
  - apply String.eqb_eq in E. subst k0.
    destruct (String.eqb k' k) eqn:E'; [|done].
    apply String.eqb_eq in E'. congruence.
  - simpl. by rewrite IH.
Qed.

(** X5: the job table behaves as a map under [add_job], [remove_job]
    and [get_job_status].  A job just added (or added again under the
    same id) is reported with the given interval, no last run and the
    time of the call as next run; a job just removed is unknown; the
    status of every other id is not affected by either call; and
    [get_all_jobs] reports the same timing for each id. *)
Theorem job_status_follows_add_and_remove w job_id f interval_seconds :
  NoDup (dict_keys (jobs (svc w))) ->
  SchedulerStatus.get_job_status (add_job job_id f interval_seconds w) job_id
  = Some (job_id,
          {| SchedulerStatus.interval := interval_seconds;
             SchedulerStatus.last_run := None;
             SchedulerStatus.next_run := clock w |})
  /\ SchedulerStatus.get_job_status (remove_job job_id w) job_id = None
  /\ (forall other, other <> job_id ->
        SchedulerStatus.get_job_status (add_job job_id f interval_seconds w)
          other
        = SchedulerStatus.get_job_status w other
        /\ SchedulerStatus.get_job_status (remove_job job_id w) other
           = SchedulerStatus.get_job_status w other)
  /\ forall other,
      dict_get other (SchedulerStatus.get_all_jobs w)
      = snd <$> SchedulerStatus.get_job_status w other.
Proof.
  intros Hnd.
  assert (forall other,
            dict_get other (jobs (svc (remove_job job_id w)))
            = dict_get other (dict_del job_id (jobs (svc w)))) as Hdel.
  { intros other. unfold remove_job, has_job.
    destruct (dict_get job_id (jobs (svc w))) eqn:E; [done|].
    destruct (String.eqb job_id other) eqn:E'.
    - apply String.eqb_eq in E'. subst other.
      by rewrite dict_get_del_eq, E.
    - apply String.eqb_neq in E'. by rewrite dict_get_del_ne. }
  unfold SchedulerStatus.get_job_status. rewrite !Hdel.
  unfold add_job. simpl. split; [|split; [|split]].
  - by rewrite dict_get_set_eq.
  - by rewrite dict_get_del_eq.
  - intros other Hne. rewrite Hdel.
    by rewrite dict_get_set_ne, dict_get_del_ne.
  - intros other. unfold SchedulerStatus.get_all_jobs. clear Hnd Hdel.
    induction (jobs (svc w)) as [|[k v] d IH]; simpl; [done|].
    destruct (String.eqb other k); [done|]. apply IH.
Qed.

Lemma job_status_follows_add_and_remove_witness :
  SchedulerStatus.get_job_status (add_job "backup" quick 5 two_jobs) "backup"
  = Some ("backup"%string,
          {| SchedulerStatus.interval := 5;
             SchedulerStatus.last_run := None;
             SchedulerStatus.next_run := clock two_jobs |})
  /\ SchedulerStatus.get_job_status (remove_job "backup" two_jobs) "backup"
     = None
  /\ (forall other, other <> "backup"%string ->
        SchedulerStatus.get_job_status (add_job "backup" quick 5 two_jobs)
          other
        = SchedulerStatus.get_job_status two_jobs other
        /\ SchedulerStatus.get_job_status (remove_job "backup" two_jobs) other
           = SchedulerStatus.get_job_status two_jobs other)
  /\ forall other,
      dict_get other (SchedulerStatus.get_all_jobs two_jobs)
      = snd <$> SchedulerStatus.get_job_status two_jobs other.
Proof.
  apply (job_status_follows_add_and_remove two_jobs "backup" quick 5).
  apply (bool_decide_unpack _). vm_compute. reflexivity.
Defined.

Lemma cancel_tasks_stopped fate ts : forall w,
  running (svc w) = false ->
  running (svc (fold_left (fun acc task => cancel_task fate task acc) ts w))
  = false.
Proof.
  induction ts as [|t ts IH]; intros w Hw; simpl; [done|].
  apply IH. by apply cancel_task_stopped.
Qed.

(** X6: [stop] leaves the flag down in every state, and a second
    [stop] changes nothing ([main.py] calls [stop] from the shutdown
    handler and again when the bot has ended). *)
Theorem stop_twice_is_stop_once w :
  running (svc (stop w)) = false /\ stop (stop w) = stop w.
Proof.
  assert (running (svc (stop w)) = false) as Hoff.
  { unfold stop, stop_with, stop_leave, stop_enter.
    destruct (running (svc w)) eqn:Hrun; simpl; [|done].
    apply (cancel_tasks_stopped None (tasks (svc w)) (set_running false w)).
    done. }
  split; [done|]. unfold stop at 1, stop_with. by rewrite Hoff.
Qed.

End SchedulerCoverage.

(** ** Localisation: the choice of the locale and its setters *)

Section LocaleCoverage.

Import Py Config Locales LocaleExamples LocaleHelper.

Variable format : string -> list (string * PyVal) -> FormatOutcome.
Variable stored_locale : PyVal -> option string.
Variable update_raises : bool.

Implicit Types (g : Globals) (s : LocaleState) (u : PyVal).

Lemma user_locales_get_set_eq u l d :
  user_locales_get u (user_locales_set u l d) = Some l.
Proof.
  induction d as [|[u' l'] d IH]; simpl.
  - by destruct (decide (u = u)).
  - destruct (decide (u = u')) as [->|Hne]; simpl.
    + by destruct (decide (u' = u')).
    + by destruct (decide (u = u')).
Qed.

Lemma user_locales_get_set_ne u u' l d :
  u' <> u ->
  user_locales_get u' (user_locales_set u l d) = user_locales_get u' d.
Proof.
  intros Hne. induction d as [|[u0 l0] d IH]; simpl.
  - by destruct (decide (u' = u)).
  - destruct (decide (u = u0)) as [->|Hne0]; simpl.
    + by destruct (decide (u' = u0)).
    + destruct (decide (u' = u0)); [done|]. apply IH.
Qed.

Lemma translate_without_user_id g cur key kwargs u :
  translate format g cur key (("user_id"%string, u) :: kwargs)
  = translate format g cur key kwargs.
Proof.
  unfold translate. destruct (negb (truthy cur)); [done|].
  destruct (subscript _ _) as [?|data]; [done|].
  destruct (navigate _ data) as [?|value]; [done|].
  by destruct kwargs.
Qed.

(** X7: the locale that [get_text] uses, by priority.  An explicit
    [locale] goes before [lang], an explicit locale goes before the
    locale of the user named by [user_id], and that one goes before the
    global locale, which is the one that the last successful
    [set_locale] gave; [user_id] itself is not passed on to the
    formatting. *)
Theorem get_text_locale_priority g key u user_locale l l' kwargs :
  u <> VNone ->
  user_locales_get u (_user_locales g) = Some user_locale ->
  truthy (Some l) = true ->
  truthy (Some l') = true ->
  dict_get "user_id" kwargs = None ->
  get_text format stored_locale g key (Some l) (Some l')
    (("user_id"%string, u) :: kwargs)
  = (translate format g (Some l') key kwargs, g)
  /\ get_text format stored_locale g key (Some l) None
       (("user_id"%string, u) :: kwargs)
     = (translate format g (Some l) key kwargs, g)
  /\ get_text format stored_locale g key None None
       (("user_id"%string, u) :: kwargs)
     = (translate format g (Some user_locale) key kwargs, g)
  /\ get_text format stored_locale g key None None kwargs
     = (translate format g (_current_locale g) key kwargs, g)
  /\ forall locale_code g',
      set_locale g locale_code = (true, g') ->
      get_text format stored_locale g' key None None kwargs
      = (translate format g' (Some locale_code) key kwargs, g').
Proof.
  intros Hu Hget Hl Hl' Hkw. split; [|split; [|split; [|split]]].
  - unfold get_text, choose_locale. rewrite Hl, Hl'. cbn [negb andb].
    rewrite Hl'. by rewrite translate_without_user_id.
  - rewrite get_text_explicit by done.
    by rewrite translate_without_user_id.
  - unfold get_text, choose_locale.
    change (truthy None) with false. cbn [negb andb dict_get].
    change (String.eqb "user_id" "user_id") with true. cbv iota.
    unfold get_user_locale. rewrite Hget.
    change (truthy None) with false. cbv iota.
    destruct u; [done| |]; simpl; by rewrite translate_without_user_id.
  - unfold get_text, choose_locale.
    change (truthy None) with false. cbn [negb andb]. by rewrite Hkw.
  - intros locale_code g' Hset. unfold set_locale in Hset.
    destruct (negb (loaded g locale_code)); [done|].
    injection Hset as <-.
    unfold get_text, choose_locale.
    change (truthy None) with false. cbn [negb andb]. by rewrite Hkw.
Qed.

(** X8: [set_user_locale] refuses a locale that was not loaded and
    changes nothing then; for a loaded one it returns [True], the next
    [get_user_locale] of that user gives the new locale whatever the
    storage holds, and the locale of every other user and the global
    locale are as before.  The new locale is handed to the storage
    once, and a failure of the storage does not undo the change. *)
Theorem set_user_locale_then_get s u locale_code :
  let r := set_user_locale update_raises s u locale_code in
  (loaded (globals s) locale_code = false -> r = (false, s))
  /\ (loaded (globals s) locale_code = true ->
      r.1 = true
      /\ get_user_locale stored_locale (globals r.2) u
         = (Some locale_code, globals r.2)
      /\ (forall u', u' <> u ->
            user_locales_get u' (_user_locales (globals r.2))
            = user_locales_get u' (_user_locales (globals s)))
      /\ get_locale (globals r.2) = get_locale (globals s)
      /\ updates r.2
         = updates s ++ (if update_raises then [] else [(u, locale_code)])).
Proof.
  unfold set_user_locale. split; intros Hl; rewrite Hl; simpl; [done|].
  assert (globals
            (update_user_data update_raises u locale_code
               {| globals :=
                    {| _current_locale := _current_locale (globals s);
                       _locales_data := _locales_data (globals s);
                       _user_locales :=
                         user_locales_set u locale_code
                           (_user_locales (globals s)) |};
                  updates := updates s |})
          = {| _current_locale := _current_locale (globals s);
               _locales_data := _locales_data (globals s);
               _user_locales :=
                 user_locales_set u locale_code
                   (_user_locales (globals s)) |}) as Hg.
  { unfold update_user_data. by destruct update_raises. }
  rewrite Hg. repeat split.
  - unfold get_user_locale. simpl. by rewrite user_locales_get_set_eq.
  - intros u' Hne. simpl. by apply user_locales_get_set_ne.
  - unfold update_user_data. destruct update_raises; simpl; [|done].
    by rewrite app_nil_r.
Qed.

(** X9: [get_user_language] never gives an empty language when
    [DEFAULT_LOCALE] is not empty, and it gives the locale that is held
    in memory for the user when there is one. *)
Theorem get_user_language_is_never_empty cfg s u :
  truthy (Some (DEFAULT_LOCALE cfg)) = true ->
  truthy (Some (get_user_language stored_locale update_raises cfg s u).1)
  = true
  /\ forall l,
      user_locales_get u (_user_locales (globals s)) = Some l ->
      truthy (Some l) = true ->
      (get_user_language stored_locale update_raises cfg s u).1 = l.
Proof.
  intros Hd. unfold get_user_language.
  destruct (get_user_locale stored_locale (globals s) u) as [lang g1] eqn:Hg.
  split.
  - destruct (truthy lang) eqn:Hlang.
    + destruct lang as [l|]; [|done]. done.
    + destruct (stored_locale u) as [l|]; [|done].
      by destruct (truthy (Some l)) eqn:Hl.
  - intros l Hget Hl. unfold get_user_locale in Hg. rewrite Hget in Hg.
    injection Hg as <- <-. by rewrite Hl.
Qed.

(** X10: [set_user_language] does not look at what [set_user_locale]
    answers: for a language that was not loaded it leaves the locales
    held in memory as they are, yet hands the language to the storage
    and returns [True].  With such a language in the storage and none
    in memory, [get_text] called for that user looks up the stored
    language and gives the empty string for every key, not the text of
    the global or of the default language. *)
Theorem set_user_language_persists_unloaded s u lang_code :
  loaded (globals s) lang_code = false ->
  set_user_language false s u lang_code
  = (true, {| globals := globals s;
              updates := updates s ++ [(u, lang_code)] |})
  /\ set_user_locale false s u lang_code = (false, s)
  /\ (u <> VNone ->
      user_locales_get u (_user_locales (globals s)) = None ->
      stored_locale u = Some lang_code ->
      truthy (Some lang_code) = true ->
      forall key kwargs,
        (get_text format stored_locale (globals s) key None None
           (("user_id"%string, u) :: kwargs)).1
        = Return (JStr "")).
Proof.
  intros Hl. split; [|split].
  - unfold set_user_language, set_user_locale. by rewrite Hl.
  - unfold set_user_locale. by rewrite Hl.
  - intros Hu Hmiss Hstored Htruthy key kwargs.
    unfold get_text, choose_locale.
    change (truthy None) with false. cbn [negb andb dict_get].
    change (String.eqb "user_id" "user_id") with true. cbv iota.
    assert (get_user_locale stored_locale (globals s) u
            = (Some lang_code,
               {| _current_locale := _current_locale (globals s);
                  _locales_data := _locales_data (globals s);
                  _user_locales :=
                    user_locales_set u lang_code
                      (_user_locales (globals s)) |})) as Hget.
    { unfold get_user_locale. by rewrite Hmiss, Hstored, Htruthy. }
    change (truthy None) with false. cbv iota.
    assert (forall g' : Globals,
              _locales_data g' = _locales_data (globals s) ->
              translate format g' (Some lang_code) key
                (("user_id"%string, u) :: kwargs) = Return (JStr ""))
      as Hempty.
    { intros g' Hdata. unfold translate. rewrite Htruthy. simpl.
      rewrite Hdata. unfold loaded in Hl.
      by destruct (dict_get lang_code (_locales_data (globals s))). }
    destruct u; [done| |]; rewrite Hget; simpl; by apply Hempty.
Qed.

End LocaleCoverage.

Section LocaleCoverageExamples.

Import Py Config Locales LocaleExamples LocaleHelper LocaleHelperExamples.

Lemma get_text_locale_priority_witness :
  get_text format_plain no_storage two_locales "messages.welcome"
    (Some "xx"%string) (Some "en"%string) [("user_id"%string, VInt 7)]
  = (Return (JStr "Hello"), two_locales)
  /\ get_text format_plain no_storage two_locales "messages.welcome" None None
       [("user_id"%string, VInt 7)]
     = (Return (JStr ""), two_locales).
Proof.
  destruct (get_text_locale_priority format_plain no_storage two_locales
              "messages.welcome" (VInt 7) "ru" "xx" "en" [])
    as (H1 & _ & H3 & _ & _).
  - discriminate.
  - reflexivity.
  - reflexivity.
  - reflexivity.
  - reflexivity.
  - split; [exact H1|exact H3].
Defined.

Lemma set_user_locale_then_get_witness :
  let r := set_user_locale false start_state (VInt 7) "en" in
  r.1 = true
  /\ get_user_locale no_storage (LocaleHelper.globals r.2) (VInt 7)
     = (Some "en"%string, LocaleHelper.globals r.2)
  /\ (forall u', u' <> VInt 7 ->
        user_locales_get u' (_user_locales (LocaleHelper.globals r.2))
        = user_locales_get u' (_user_locales LocaleExamples.globals))
  /\ get_locale (LocaleHelper.globals r.2) = get_locale LocaleExamples.globals
  /\ updates r.2 = [(VInt 7, "en"%string)].
Proof.
  apply (set_user_locale_then_get no_storage false start_state (VInt 7) "en").
  reflexivity.
Defined.

Lemma get_user_language_is_never_empty_witness :
  truthy
    (Some (get_user_language no_storage false settings start_state (VInt 7)).1)
  = true
  /\ forall l,
      user_locales_get (VInt 7)
        (_user_locales (LocaleHelper.globals start_state)) = Some l ->
      truthy (Some l) = true ->
      (get_user_language no_storage false settings start_state (VInt 7)).1
      = l.
Proof.
  apply (get_user_language_is_never_empty no_storage false settings
           start_state (VInt 7)).
  reflexivity.
Defined.

Lemma set_user_language_persists_unloaded_witness :
  set_user_language false start_state (VInt 7) "de"
  = (true, {| globals := LocaleExamples.globals;
              updates := [(VInt 7, "de"%string)] |})
  /\ set_user_locale false start_state (VInt 7) "de" = (false, start_state)
  /\ (VInt 7 <> VNone ->
      user_locales_get (VInt 7)
        (_user_locales (LocaleHelper.globals start_state)) = None ->
      stored_de (VInt 7) = Some "de"%string ->
      truthy (Some "de"%string) = true ->
      forall key kwargs,
        (get_text format_plain stored_de (LocaleHelper.globals start_state)
           key None None (("user_id"%string, VInt 7) :: kwargs)).1
        = Return (JStr "")).
Proof.
  apply (set_user_language_persists_unloaded format_plain stored_de
           start_state (VInt 7) "de").
  reflexivity.
Defined.

End LocaleCoverageExamples.

(** ** The cooldown between two submissions *)

Section CooldownCoverage.

Import Py Config Locales Feedback.

Variable format : string -> list (string * PyVal) -> FormatOutcome.
Variable stored_locale : PyVal -> option string.
Variable cfg : Settings.

Implicit Types (g : Globals) (self : FeedbackService).

(** X11: when the cooldown is enabled, a submission recorded by
    [update_last_feedback] at time [t0] makes [check_cooldown] refuse
    the same kind of feedback of the same user at every time less than
    [FEEDBACK_COOLDOWN_HOURS] after [t0] (also at times before [t0]),
    and allow it from then on. *)
Theorem cooldown_lasts_the_configured_hours g self t0 t user_id feedback_type
  user_lang :
  FEEDBACK_COOLDOWN_ENABLED cfg = true ->
  check_cooldown format stored_locale cfg g
    (update_last_feedback self t0 user_id feedback_type) t user_id
    feedback_type user_lang
  = Checked true None
  <-> FEEDBACK_COOLDOWN_HOURS cfg * 3600 * 1000000 <= t - t0.
Proof.
  intros He.
  assert (last_feedback (update_last_feedback self t0 user_id feedback_type)
            !! (user_id, feedback_type) = Some t0) as Hlast.
  { unfold update_last_feedback. simpl. apply lookup_insert_eq. }
  split.
  - intros Hc.
    destruct (Z_le_gt_dec (FEEDBACK_COOLDOWN_HOURS cfg * 3600 * 1000000)
                (t - t0)) as [|Hgt]; [done|].
    rewrite (check_cooldown_pending format stored_locale cfg g _ t user_id
               feedback_type user_lang t0 He Hlast) in Hc by lia.
    by destruct (get_text _ _ _ _ _ _ _).1.
  - intros Hle. by eapply check_cooldown_elapsed.
Qed.

(** X12: the cooldown is kept per user and per kind of feedback: a
    submission recorded for one pair does not change the answer of
    [check_cooldown] for another user or for the other kind. *)
Theorem cooldown_is_per_user_and_kind g self t0 t user_id feedback_type
  other_id other_type user_lang :
  (other_id, other_type) <> (user_id, feedback_type) ->
  check_cooldown format stored_locale cfg g
    (update_last_feedback self t0 user_id feedback_type) t other_id
    other_type user_lang
  = check_cooldown format stored_locale cfg g self t other_id other_type
      user_lang.
Proof.
  intros Hne. unfold check_cooldown, update_last_feedback. simpl.
  by rewrite lookup_insert_ne.
Qed.

(** X13: while the cooldown lasts and the clock has not gone back
    behind the last submission, the number of hours that the refusal
    reports lies between zero and [FEEDBACK_COOLDOWN_HOURS], and it does
    not grow as time passes. *)
Theorem reported_hours_are_within_the_window hours elapsed elapsed' :
  0 <= elapsed <= elapsed' ->
  elapsed' < hours * 3600 * 1000000 ->
  0 <= remaining_hours (hours * 3600) elapsed'
  /\ remaining_hours (hours * 3600) elapsed'
     <= remaining_hours (hours * 3600) elapsed
  /\ remaining_hours (hours * 3600) elapsed <= hours.
Proof.
  intros He Hlt. unfold remaining_hours.
  repeat split.
  - apply Z.div_pos; lia.
  - apply Z.div_le_mono; lia.
  - assert ((hours * 3600 * 1000000 - elapsed + 3599 * 1000000)
            / (3600 * 1000000) < hours + 1); [|lia].
    apply Z.div_lt_upper_bound; lia.
Qed.

End CooldownCoverage.

Section CooldownCoverageExamples.

Import Py Config Locales Feedback LocaleExamples.

Lemma cooldown_lasts_the_configured_hours_witness :
  check_cooldown format_plain no_storage settings globals
    (update_last_feedback one_suggestion (timestamp_s 100) 7 "suggestion")
    (timestamp_s 3700) 7 "suggestion" None
  = Checked true None
  <-> FEEDBACK_COOLDOWN_HOURS settings * 3600 * 1000000
      <= timestamp_s 3700 - timestamp_s 100.
Proof.
  apply (cooldown_lasts_the_configured_hours format_plain no_storage settings
           globals one_suggestion (timestamp_s 100) (timestamp_s 3700) 7
           "suggestion" None).
  reflexivity.
Defined.

Lemma cooldown_is_per_user_and_kind_witness :
  check_cooldown format_plain no_storage settings globals
    (update_last_feedback one_suggestion (timestamp_s 100) 7 "suggestion")
    (timestamp_s 200) 7 "review" None
  = check_cooldown format_plain no_storage settings globals one_suggestion
      (timestamp_s 200) 7 "review" None.
Proof.
  apply (cooldown_is_per_user_and_kind format_plain no_storage settings
           globals one_suggestion (timestamp_s 100) (timestamp_s 200) 7
           "suggestion" 7 "review" None).
  discriminate.
Defined.

Lemma reported_hours_are_within_the_window_witness :
  0 <= remaining_hours (2 * 3600) 3599500000
  /\ remaining_hours (2 * 3600) 3599500000
     <= remaining_hours (2 * 3600) 1000000
  /\ remaining_hours (2 * 3600) 1000000 <= 2.
Proof.
  apply (reported_hours_are_within_the_window 2 1000000 3599500000).
  - lia.
  - lia.
Defined.

End CooldownCoverageExamples.

(** ** Suggestions and reviews *)

Section FeedbackFlowCoverage.

Import Py Config Locales Feedback Bans FeedbackFlow.

Variable format : string -> list (string * PyVal) -> FormatOutcome.
Variable stored_locale : PyVal -> option string.
Variable cfg : Settings.
Variable g : Globals.

Implicit Types (b : Bot) (env : Env) (uid : Z).

Lemma data_of_with_data b uid d : data_of (with_data uid d b) uid = d.
Proof. unfold data_of, with_data. simpl. by rewrite lookup_insert_eq. Qed.

Lemma data_of_emit c b uid : data_of (emit c b) uid = data_of b uid.
Proof. done. Qed.

Lemma data_of_raise e b uid : data_of (raise e b) uid = data_of b uid.
Proof. done. Qed.

Lemma data_of_put_state_eq b uid s :
  data_of (put_state uid s b) uid
  = {| state := s; skip_cooldown := skip_cooldown (data_of b uid) |}.
Proof. unfold put_state. by rewrite data_of_with_data. Qed.

Lemma state_put_state b uid s : state (data_of (put_state uid s b) uid) = s.
Proof. by rewrite data_of_put_state_eq. Qed.

Lemma check_refuses env b uid feedback_type user_lang t0 :
  FEEDBACK_COOLDOWN_ENABLED cfg = true ->
  last_feedback (cooldown (feedback_service b)) !! (uid, feedback_type)
  = Some t0 ->
  now env - t0 < FEEDBACK_COOLDOWN_HOURS cfg * 3600 * 1000000 ->
  forall m,
    check format stored_locale cfg g env b uid feedback_type user_lang
    <> Checked true m.
Proof.
  intros He Hlast Hlt m. unfold check.
  rewrite (check_cooldown_pending format stored_locale cfg g _ (now env) uid
             feedback_type (Some user_lang) t0 He Hlast Hlt).
  by destruct (get_text _ _ _ _ _ _ _).1.
Qed.

Lemma set_message_id_insert c (m : gmap string FeedbackData) feedback_id
  feedback mid :
  set_message_id {| cooldown := c; feedbacks := <[feedback_id := feedback]> m |}
    feedback_id mid
  = {| cooldown := c;
       feedbacks :=
         <[feedback_id :=
             {| user_id := user_id feedback; type := type feedback;
                text := text feedback; thanked := thanked feedback;
                message_id := Some mid;
                created_at := created_at feedback |}]> m |}.
Proof.
  unfold set_message_id. simpl. rewrite lookup_insert_eq.
  by rewrite insert_insert_eq.
Qed.

(** The state after a text that was let through. *)
Lemma handle_text_accepted env feedback_type sent_key header_key uid
  user_lang body b service :
  service
  = (if skip_cooldown (data_of b uid) then feedback_service b
     else {| cooldown :=
               update_last_feedback (cooldown (feedback_service b)) (now env)
                 uid feedback_type;
             feedbacks := feedbacks (feedback_service b) |}) ->
  (skip_cooldown (data_of b uid) = false ->
   exists m,
     check format stored_locale cfg g env b uid feedback_type user_lang
     = Checked true m) ->
  let b' :=
    handle_feedback_text format stored_locale cfg g env feedback_type sent_key
      header_key uid user_lang body b in
  let feedback_id :=
    prefix_of 3 feedback_type +:+ "_" +:+ prefix_of 8 (uuid4_hex env) in
  cooldown (feedback_service b') = cooldown service
  /\ feedbacks (feedback_service b')
     = <[feedback_id :=
           {| user_id := uid; type := feedback_type; text := body;
              thanked := false;
              message_id :=
                match alert env with AlertSent mid => Some mid | _ => None end;
              created_at := now env |}]> (feedbacks service)
  /\ user_data b'
     = <[uid := {| state := None; skip_cooldown := false |}]> (user_data b)
  /\ ban_manager b' = ban_manager b
  /\ raised b' = raised b.
Proof.
  intros -> Hcheck. unfold handle_feedback_text.
  destruct (skip_cooldown (data_of b uid)) eqn:Hskip; simpl.
  - destruct (alert env); simpl; rewrite ?set_message_id_insert; done.
  - destruct (Hcheck eq_refl) as [m ->].
    destruct (alert env); simpl; rewrite ?set_message_id_insert; done.
Qed.

(** X14: a suggestion or review that passed the cooldown check starts
    the cooldown: while it lasts, the button and the command of the
    same kind answer with the refusal and leave no state behind, and a
    further text of that kind (sent without the exemption) is refused
    as well; none of them adds a feedback record or moves the time of
    the last submission. *)
Theorem second_feedback_has_to_wait env1 env2 feedback_type sent_key
  header_key write_key awaiting uid user_lang body body2 b m :
  FEEDBACK_COOLDOWN_ENABLED cfg = true ->
  skip_cooldown (data_of b uid) = false ->
  check format stored_locale cfg g env1 b uid feedback_type user_lang
  = Checked true m ->
  now env2 - now env1 < FEEDBACK_COOLDOWN_HOURS cfg * 3600 * 1000000 ->
  let b1 :=
    handle_feedback_text format stored_locale cfg g env1 feedback_type sent_key
      header_key uid user_lang body b in
  let pressed :=
    feedback_button format stored_locale cfg g env2 feedback_type write_key
      awaiting uid user_lang b1 in
  let commanded :=
    feedback_command format stored_locale cfg g env2 feedback_type write_key
      awaiting uid user_lang b1 in
  let texted :=
    handle_feedback_text format stored_locale cfg g env2 feedback_type sent_key
      header_key uid user_lang body2 (put_state uid (Some awaiting) b1) in
  feedback_service pressed = feedback_service b1
  /\ state (data_of pressed uid) = None
  /\ (forall key,
        ~ In (ReplyText uid key)
            (skipn (length (outbox b1)) (outbox pressed)))
  /\ feedback_service commanded = feedback_service b1
  /\ state (data_of commanded uid) = None
  /\ feedback_service texted = feedback_service b1
  /\ state (data_of texted uid) = Some awaiting.
Proof.
  intros He Hskip Hc Hlt b1 pressed commanded texted.
  destruct (handle_text_accepted env1 feedback_type sent_key header_key uid
              user_lang body b _ eq_refl) as (Hcool & Hfb & Hud & _ & _).
  { intros _. by exists m. }
  rewrite Hskip in Hcool, Hfb. simpl in Hcool, Hfb. fold b1 in Hcool, Hfb, Hud.
  assert (last_feedback (cooldown (feedback_service b1))
            !! (uid, feedback_type) = Some (now env1)) as Hlast.
  { rewrite Hcool. unfold update_last_feedback. simpl.
    apply lookup_insert_eq. }
  pose proof (check_refuses env2 b1 uid feedback_type user_lang (now env1)
                He Hlast Hlt) as Href.
  assert (data_of b1 uid = {| state := None; skip_cooldown := false |})
    as Hd1.
  { unfold data_of. rewrite Hud. by rewrite lookup_insert_eq. }
  assert (check format stored_locale cfg g env2
            (put_state uid (Some awaiting) b1) uid feedback_type user_lang
          = check format stored_locale cfg g env2 b1 uid feedback_type
              user_lang) as Hsame by done.
  unfold commanded, feedback_command, pressed, feedback_button, texted,
    handle_feedback_text.
  rewrite !data_of_put_state_eq, Hd1, Hsame.
  cbn [skip_cooldown negb].
  destruct (check format stored_locale cfg g env2 b1 uid feedback_type
              user_lang) as [[] error_message|e] eqn:E;
    [by destruct (Href error_message)| |].
  - split; [done|]. split; [by rewrite data_of_emit, state_put_state|].
    split.
    { intros key. simpl. rewrite drop_app_length. simpl.
      intros [H|[]]. discriminate. }
    split; [by destruct (is_banned _ _)|]. split.
    { destruct (is_banned _ _); by rewrite data_of_emit, Hd1. }
    split; [done|]. by rewrite data_of_emit, state_put_state.
  - split; [done|]. split; [by rewrite data_of_raise, Hd1|].
    split.
    { intros key. simpl. rewrite drop_all. intros []. }
    split; [by destruct (is_banned _ _)|]. split.
    { destruct (is_banned _ _);
        by rewrite ?data_of_emit, ?data_of_raise, Hd1. }
    split; [done|]. by rewrite data_of_raise, state_put_state.
Qed.

(** X15: the invitation after a rating exempts one submission from
    the cooldown.  After the button [after_rate_suggestion] or
    [after_rate_review] the next text of a user who is not banned is
    taken as feedback of that kind whatever the cooldown says; it does
    not start a cooldown of its own (the time of the last submission is
    not touched), the record is stored, and the exemption is used up. *)
Theorem feedback_after_rating_skips_the_cooldown env uid user_lang body b
  data feedback_type :
  (data = after_rate_suggestion /\ feedback_type = "suggestion"%string)
  \/ (data = after_rate_review /\ feedback_type = "review"%string) ->
  is_banned (ban_manager b) uid = false ->
  let b1 :=
    callback_handler format stored_locale cfg g env uid user_lang data b in
  let feedback_id :=
    prefix_of 3 feedback_type +:+ "_" +:+ prefix_of 8 (uuid4_hex env) in
  skip_cooldown (data_of b1 uid) = true
  /\ exists b2,
      text_message_handler format stored_locale cfg g env uid user_lang body
        b1 = Some b2
      /\ cooldown (feedback_service b2) = cooldown (feedback_service b)
      /\ feedbacks (feedback_service b2) !! feedback_id
         = Some {| user_id := uid; type := feedback_type; text := body;
                   thanked := false;
                   message_id :=
                     match alert env with
                     | AlertSent mid => Some mid
                     | _ => None
                     end;
                   created_at := now env |}
      /\ data_of b2 uid = {| state := None; skip_cooldown := false |}.
Proof.
  intros Hkind Hban b1 feedback_id.
  assert (data_of b1 uid
          = {| state :=
                 Some (if String.eqb feedback_type "suggestion"
                       then Handlers.awaiting_suggestion
                       else Handlers.awaiting_review);
               skip_cooldown := true |}
          /\ feedback_service b1 = feedback_service b
          /\ ban_manager b1 = ban_manager b) as (Hd1 & Hs1 & Hb1).
  { destruct Hkind as [[-> ->]|[-> ->]]; unfold b1; simpl;
      rewrite data_of_emit, data_of_with_data; done. }
  split; [by rewrite Hd1|].
  unfold text_message_handler. rewrite Hb1, Hban, Hd1. simpl.
  assert (exists sent_key header_key,
            (if String.eqb feedback_type "suggestion"
             then Some (handle_suggestion_text format stored_locale cfg g env
                          uid user_lang body b1)
             else Some (handle_review_text format stored_locale cfg g env
                          uid user_lang body b1))
            = Some (handle_feedback_text format stored_locale cfg g env
                      feedback_type sent_key header_key uid user_lang body b1))
    as (sent_key & header_key & Hh).
  { destruct Hkind as [[_ ->]|[_ ->]]; simpl; eauto. }
  exists (handle_feedback_text format stored_locale cfg g env feedback_type
            sent_key header_key uid user_lang body b1).
  destruct (handle_text_accepted env feedback_type sent_key header_key uid
              user_lang body b1 _ eq_refl) as (Hcool & Hfb & Hud & _ & _).
  { rewrite Hd1. simpl. discriminate. }
  rewrite Hd1 in Hcool, Hfb. simpl in Hcool, Hfb.
  repeat split.
  - rewrite <- Hh. by destruct Hkind as [[_ ->]|[_ ->]].
  - by rewrite Hcool, Hs1.
  - rewrite Hfb. apply lookup_insert_eq.
  - unfold data_of. rewrite Hud. by rewrite lookup_insert_eq.
Qed.

(** X16: the thanks of the administrator reach the author.  The alert
    for a feedback that was let through carries the button
    [thank:<id>] of the new record; pressing it marks that record as
    thanked, keeps its author, text and message identifier, and sends
    the thanks for that kind of feedback to the author.  For an
    identifier that is not known nothing is stored or sent. *)
Theorem thanks_reach_the_author env feedback_type sent_key header_key uid
  user_lang body b mid :
  alert env = AlertSent mid ->
  (skip_cooldown (data_of b uid) = false ->
   exists m,
     check format stored_locale cfg g env b uid feedback_type user_lang
     = Checked true m) ->
  let b1 :=
    handle_feedback_text format stored_locale cfg g env feedback_type sent_key
      header_key uid user_lang body b in
  let feedback_id :=
    prefix_of 3 feedback_type +:+ "_" +:+ prefix_of 8 (uuid4_hex env) in
  let b2 := handle_thank_feedback feedback_id b1 in
  In (AlertAdmin header_key uid body ("thank:" +:+ feedback_id)) (outbox b1)
  /\ feedbacks (feedback_service b2) !! feedback_id
     = Some {| user_id := uid; type := feedback_type; text := body;
               thanked := true; message_id := Some mid;
               created_at := now env |}
  /\ outbox b2
     = outbox b1
       ++ [MarkThanked;
           SendText uid
             (if String.eqb feedback_type "suggestion"
              then "messages.thanks_suggestion"
              else "messages.thanks_review");
           AnswerCallback true]
  /\ forall unknown,
      feedbacks (feedback_service b2) !! unknown = None ->
      handle_thank_feedback unknown b2 = emit (AnswerCallback false) b2.
Proof.
  intros Halert Hcheck b1 feedback_id b2.
  destruct (handle_text_accepted env feedback_type sent_key header_key uid
              user_lang body b _ eq_refl Hcheck) as (_ & Hfb & _).
  fold b1 feedback_id in Hfb. rewrite Halert in Hfb.
  assert (feedbacks (feedback_service b1) !! feedback_id
          = Some {| user_id := uid; type := feedback_type; text := body;
                    thanked := false; message_id := Some mid;
                    created_at := now env |}) as Hget.
  { rewrite Hfb. apply lookup_insert_eq. }
  split; [|split; [|split]].
  - unfold b1, handle_feedback_text.
    destruct (skip_cooldown (data_of b uid)) eqn:Hskip; simpl.
    + rewrite Halert. simpl. rewrite in_app_iff. right. by left.
    + destruct (Hcheck eq_refl) as [m ->]. rewrite Halert. simpl.
      rewrite in_app_iff. right. by left.
  - unfold b2, handle_thank_feedback, thank_feedback. rewrite Hget. simpl.
    by rewrite lookup_insert_eq.
  - unfold b2, handle_thank_feedback, thank_feedback. rewrite Hget. simpl.
    by rewrite <- !app_assoc.
  - intros unknown Hnone. unfold handle_thank_feedback at 1, thank_feedback.
    by rewrite Hnone.
Qed.

End FeedbackFlowCoverage.

Section FeedbackFlowCoverageExamples.

Import Py Config Locales Feedback Bans FeedbackFlow LocaleExamples
  FeedbackFlowExamples.

Lemma second_feedback_has_to_wait_witness :
  let b1 :=
    handle_feedback_text format_plain no_storage settings globals (at_time 0)
      "suggestion" "messages.suggestion_sent" "admin.suggestion_from" 7 "en"
      "More colours" empty_bot in
  let pressed :=
    feedback_button format_plain no_storage settings globals (at_time 600)
      "suggestion" "messages.write_suggestion" Handlers.awaiting_suggestion
      7 "en" b1 in
  let commanded :=
    feedback_command format_plain no_storage settings globals (at_time 600)
      "suggestion" "messages.write_suggestion" Handlers.awaiting_suggestion
      7 "en" b1 in
  let texted :=
    handle_feedback_text format_plain no_storage settings globals
      (at_time 600) "suggestion" "messages.suggestion_sent"
      "admin.suggestion_from" 7 "en" "More shapes"
      (put_state 7 (Some Handlers.awaiting_suggestion) b1) in
  feedback_service pressed = feedback_service b1
  /\ state (data_of pressed 7) = None
  /\ (forall key,
        ~ In (ReplyText 7 key) (skipn (length (outbox b1)) (outbox pressed)))
  /\ feedback_service commanded = feedback_service b1
  /\ state (data_of commanded 7) = None
  /\ feedback_service texted = feedback_service b1
  /\ state (data_of texted 7) = Some Handlers.awaiting_suggestion.
Proof.
  apply (second_feedback_has_to_wait format_plain no_storage settings globals
           (at_time 0) (at_time 600) "suggestion" "messages.suggestion_sent"
           "admin.suggestion_from" "messages.write_suggestion"
           Handlers.awaiting_suggestion 7 "en" "More colours" "More shapes"
           empty_bot None).
  - reflexivity.
  - reflexivity.
  - vm_compute. reflexivity.
  - vm_compute. reflexivity.
Defined.

Lemma feedback_after_rating_skips_the_cooldown_witness :
  let b :=
    handle_feedback_text format_plain no_storage settings globals (at_time 0)
      "review" "messages.review_sent" "admin.review_from" 7 "en" "Fine"
      empty_bot in
  let b1 :=
    callback_handler format_plain no_storage settings globals (at_time 600) 7
      "en" after_rate_review b in
  let feedback_id :=
    prefix_of 3 "review" +:+ "_" +:+ prefix_of 8 (uuid4_hex (at_time 600)) in
  skip_cooldown (data_of b1 7) = true
  /\ exists b2,
      text_message_handler format_plain no_storage settings globals
        (at_time 600) 7 "en" "Even better" b1 = Some b2
      /\ cooldown (feedback_service b2) = cooldown (feedback_service b)
      /\ feedbacks (feedback_service b2) !! feedback_id
         = Some {| user_id := 7; type := "review"; text := "Even better";
                   thanked := false;
                   message_id :=
                     match alert (at_time 600) with
                     | AlertSent mid => Some mid
                     | _ => None
                     end;
                   created_at := now (at_time 600) |}
      /\ data_of b2 7 = {| state := None; skip_cooldown := false |}.
Proof.
  apply (feedback_after_rating_skips_the_cooldown format_plain no_storage
           settings globals (at_time 600) 7 "en" "Even better"
           (handle_feedback_text format_plain no_storage settings globals
              (at_time 0) "review" "messages.review_sent" "admin.review_from"
              7 "en" "Fine" empty_bot)
           after_rate_review "review").
  - right. split; reflexivity.
  - reflexivity.
Defined.

Lemma thanks_reach_the_author_witness :
  let b1 :=
    handle_feedback_text format_plain no_storage settings globals (at_time 0)
      "review" "messages.review_sent" "admin.review_from" 7 "en" "Fine"
      empty_bot in
  let feedback_id :=
    prefix_of 3 "review" +:+ "_" +:+ prefix_of 8 (uuid4_hex (at_time 0)) in
  let b2 := handle_thank_feedback feedback_id b1 in
  In (AlertAdmin "admin.review_from" 7 "Fine" ("thank:" +:+ feedback_id))
    (outbox b1)
  /\ feedbacks (feedback_service b2) !! feedback_id
     = Some {| user_id := 7; type := "review"; text := "Fine";
               thanked := true; message_id := Some 900;
               created_at := now (at_time 0) |}
  /\ outbox b2
     = outbox b1
       ++ [MarkThanked;
           SendText 7
             (if String.eqb "review" "suggestion"
              then "messages.thanks_suggestion"
              else "messages.thanks_review");
           AnswerCallback true]
  /\ forall unknown,
      feedbacks (feedback_service b2) !! unknown = None ->
      handle_thank_feedback unknown b2 = emit (AnswerCallback false) b2.
Proof.
  apply (thanks_reach_the_author format_plain no_storage settings globals
           (at_time 0) "review" "messages.review_sent" "admin.review_from" 7
           "en" "Fine" empty_bot 900).
  - reflexivity.
  - intros _. exists None. vm_compute. reflexivity.
Defined.

End FeedbackFlowCoverageExamples.

(** ** The pages of the inbox *)

Section InboxCoverage.

Import Inbox.

Context {A : Type}.

Implicit Types (l tickets : list A) (page : Z).

Lemma lookup_take_drop l (m d k : nat) :
  take m (drop d l) !! k
  = if decide (k < m)%nat then l !! (d + k)%nat else None.
Proof.
  destruct (decide (k < m)%nat).
  - rewrite lookup_take_lt by done. apply lookup_drop.
  - apply lookup_take_ge. lia.
Qed.

Lemma lookup_slice l start stop (k : nat) :
  0 <= start -> 0 <= stop ->
  slice l start stop !! k
  = if decide (start + Z.of_nat k < stop)
    then l !! Z.to_nat (start + Z.of_nat k)
    else None.
Proof.
  intros Hs He. unfold slice.
  assert ((start <? 0) = false) as -> by lia.
  assert ((stop <? 0) = false) as -> by lia.
  rewrite lookup_take_drop.
  destruct (decide (k < _)%nat) as [Hk|Hk];
    destruct (decide (start + Z.of_nat k < stop)) as [Hlt|Hge].
  - f_equal. lia.
  - apply lookup_ge_None. lia.
  - symmetry. apply lookup_ge_None. lia.
  - done.
Qed.

Lemma length_slice l start stop :
  0 <= start -> 0 <= stop ->
  Z.of_nat (length (slice l start stop))
  = Z.max 0 (Z.min stop (Z.of_nat (length l)) - start).
Proof.
  intros Hs He. unfold slice.
  assert ((start <? 0) = false) as -> by lia.
  assert ((stop <? 0) = false) as -> by lia.
  rewrite length_take, length_drop. lia.
Qed.

(** X17: the page [page] of the inbox lists the tickets at the
    positions [page * PAGE_SIZE] to [page * PAGE_SIZE + PAGE_SIZE - 1]
    of the sorted list, in that order, as far as they exist; so every
    ticket is listed on one page and on that page only. *)
Theorem inbox_page_lists_its_part PAGE_SIZE tickets page :
  0 < PAGE_SIZE ->
  0 <= page ->
  exists view,
    show_inbox PAGE_SIZE tickets page = Some view
    /\ forall k : nat,
        page_tickets view !! k
        = if decide (Z.of_nat k < PAGE_SIZE)
          then tickets !! Z.to_nat (page * PAGE_SIZE + Z.of_nat k)
          else None.
Proof.
  intros HP Hpage. unfold show_inbox.
  assert ((PAGE_SIZE =? 0) = false) as -> by lia.
  eexists. split; [done|]. simpl. intros k.
  rewrite lookup_slice by lia.
  destruct (decide (_ < Z.min _ _)) as [Hlt|Hge];
    destruct (decide (Z.of_nat k < PAGE_SIZE)) as [Hk|Hk]; try done.
  - lia.
  - symmetry. apply lookup_ge_None. lia.
Qed.

(** X18: the number of pages is the least number of pages of
    [PAGE_SIZE] tickets that hold all tickets, and one when there is no
    ticket.  A page holds at most [PAGE_SIZE] tickets; it is empty,
    and shown as "no tickets" without a page number, exactly when there
    is no ticket at all or the page number is not below the number of
    pages (the page number is stored between two displays and the list
    may have shrunk). *)
Theorem inbox_page_count PAGE_SIZE tickets page :
  0 < PAGE_SIZE ->
  0 <= page ->
  exists view,
    show_inbox PAGE_SIZE tickets page = Some view
    /\ 1 <= total_pages view
    /\ Z.of_nat (length tickets) <= total_pages view * PAGE_SIZE
    /\ (total_pages view = 1
        \/ (total_pages view - 1) * PAGE_SIZE < Z.of_nat (length tickets))
    /\ Z.of_nat (length (page_tickets view)) <= PAGE_SIZE
    /\ (page_tickets view = []
        <-> tickets = [] \/ total_pages view <= page)
    /\ (page_label view = None <-> page_tickets view = []).
Proof.
  intros HP Hpage. unfold show_inbox.
  assert ((PAGE_SIZE =? 0) = false) as -> by lia.
  eexists. split; [done|]. simpl.
  set (n := Z.of_nat (length tickets)).
  assert (0 <= n) as Hn by lia.
  set (q := (n + PAGE_SIZE - 1) / PAGE_SIZE).
  assert (PAGE_SIZE * q <= n + PAGE_SIZE - 1 < PAGE_SIZE * (q + 1)) as Hq.
  { unfold q. pose proof (Z.mul_div_le (n + PAGE_SIZE - 1) PAGE_SIZE HP).
    pose proof (Z.mul_succ_div_gt (n + PAGE_SIZE - 1) PAGE_SIZE HP). lia. }
  assert (Z.of_nat (length (slice tickets (page * PAGE_SIZE)
                              (Z.min (page * PAGE_SIZE + PAGE_SIZE) n)))
          = Z.max 0 (Z.min (page * PAGE_SIZE + PAGE_SIZE) n
                     - page * PAGE_SIZE)) as Hlen.
  { rewrite length_slice by lia. fold n. lia. }
  split; [lia|]. split; [nia|]. split; [nia|]. split; [lia|]. split.
  - rewrite <- length_zero_iff_nil.
    assert (tickets = [] <-> n = 0) as ->.
    { unfold n. rewrite <- length_zero_iff_nil. lia. }
    split.
    + intros H0. rewrite H0 in Hlen. simpl in Hlen.
      destruct (Z.eq_dec n 0); [by left|right]. nia.
    + intros [H0|Hge]; [lia|].
      assert (n <= page * PAGE_SIZE) by nia. lia.
  - by destruct (slice _ _ _).
Qed.

(** X19: on a page that exists, the navigation row offers the page
    before it unless it is the first and the page after it unless it is
    the last, and nothing else; so the buttons never lead out of the
    pages that exist. *)
Theorem inbox_navigation_stays_in_range PAGE_SIZE tickets page :
  0 < PAGE_SIZE ->
  exists view,
    show_inbox PAGE_SIZE tickets page = Some view
    /\ (In (page - 1) (nav_row view) <-> 0 < page)
    /\ (In (page + 1) (nav_row view) <-> page + 1 < total_pages view)
    /\ forall target,
        In target (nav_row view) ->
        (target = page - 1 \/ target = page + 1)
        /\ (0 <= page < total_pages view -> 0 <= target < total_pages view).
Proof.
  intros HP. unfold show_inbox.
  assert ((PAGE_SIZE =? 0) = false) as -> by lia.
  eexists. split; [done|]. simpl.
  set (tp := Z.max 1 _).
  destruct (Z.ltb_spec 0 page) as [Hb|Hb];
    destruct (Z.ltb_spec page (tp - 1)) as [Hf|Hf]; simpl;
    repeat split; try lia; try tauto;
    intros; intuition lia.
Qed.

End InboxCoverage.

Section InboxCoverageExamples.

Import Inbox.

Lemma inbox_page_lists_its_part_witness :
  exists view,
    show_inbox 2 ["e"; "d"; "c"; "b"; "a"]%string 2 = Some view
    /\ forall k : nat,
        page_tickets view !! k
        = if decide (Z.of_nat k < 2)
          then ["e"; "d"; "c"; "b"; "a"]%string
               !! Z.to_nat (2 * 2 + Z.of_nat k)
          else None.
Proof.
  apply (inbox_page_lists_its_part 2 ["e"; "d"; "c"; "b"; "a"]%string 2).
  - lia.
  - lia.
Defined.

Lemma inbox_page_count_witness :
  exists view,
    show_inbox 2 ["e"; "d"; "c"; "b"; "a"]%string 3 = Some view
    /\ 1 <= total_pages view
    /\ Z.of_nat (length ["e"; "d"; "c"; "b"; "a"]%string)
       <= total_pages view * 2
    /\ (total_pages view = 1
        \/ (total_pages view - 1) * 2
           < Z.of_nat (length ["e"; "d"; "c"; "b"; "a"]%string))
    /\ Z.of_nat (length (page_tickets view)) <= 2
    /\ (page_tickets view = []
        <-> ["e"; "d"; "c"; "b"; "a"]%string = [] \/ total_pages view <= 3)
    /\ (page_label view = None <-> page_tickets view = []).
Proof.
  apply (inbox_page_count 2 ["e"; "d"; "c"; "b"; "a"]%string 3).
  - lia.
  - lia.
Defined.

Lemma inbox_navigation_stays_in_range_witness :
  exists view,
    show_inbox 2 ["e"; "d"; "c"; "b"; "a"]%string 2 = Some view
    /\ (In (2 - 1) (nav_row view) <-> 0 < 2)
    /\ (In (2 + 1) (nav_row view) <-> 2 + 1 < total_pages view)
    /\ forall target,
        In target (nav_row view) ->
        (target = 2 - 1 \/ target = 2 + 1)
        /\ (0 <= 2 < total_pages view -> 0 <= target < total_pages view).
Proof.
  apply (inbox_navigation_stays_in_range 2 ["e"; "d"; "c"; "b"; "a"]%string
           2).
  lia.
Defined.

End InboxCoverageExamples.

(** ** The routing of the buttons *)

Section RoutingCoverage.

Import Py Locales Routing.

Local Open Scope string_scope.

Lemma split_not_nil sep s : split sep s <> [].
Proof.
  destruct s as [|c rest]; simpl; [done|].
  destruct (Ascii.eqb c sep); [done|]. by destruct (split sep rest).
Qed.

(** A text without the separator is one field; before the first
    separator lies the first field. *)
Lemma split_free_of sep s : free_of sep s = true -> split sep s = [s].
Proof.
  induction s as [|c rest IH]; simpl; [done|].
  intros [Hc Hrest]%andb_prop. apply negb_true_iff in Hc. rewrite Hc.
  by rewrite IH.
Qed.

Lemma split_first_field sep s rest :
  free_of sep s = true ->
  split sep (s +:+ String sep rest) = s :: split sep rest.
Proof.
  induction s as [|c s IH]; simpl.
  - intros _. by rewrite Ascii.eqb_refl.
  - intros [Hc Hs]%andb_prop. apply negb_true_iff in Hc. rewrite Hc.
    by rewrite IH.
Qed.

Lemma field_after_prefix p rest i :
  free_of ":" p = true ->
  field (S i) (p +:+ String ":" rest) = field i rest.
Proof. intros Hp. unfold field. by rewrite split_first_field. Qed.

Lemma field_0_free s : free_of ":" s = true -> field 0 s = Some s.
Proof. intros Hs. unfold field. by rewrite split_free_of. Qed.

(** X20: the buttons that carry an identifier reach the handler meant
    for them, whatever the identifier is, and the handler reads the
    identifier back when it holds no colon (of an identifier with a
    colon it reads the part before the first colon). *)
Theorem id_buttons_reach_their_handler id :
  route ("take:" +:+ id) = handle_take_ticket ("take:" +:+ id)
  /\ route ("close:" +:+ id) = handle_close_ticket ("close:" +:+ id)
  /\ route ("reply:" +:+ id) = handle_reply_ticket ("reply:" +:+ id)
  /\ route ("thank:" +:+ id) = handle_thank_feedback ("thank:" +:+ id)
  /\ route ("ticket:" +:+ id) = show_ticket_card (field 0 id)
  /\ (forall kind,
        In kind ["take"; "close"; "reply"; "thank"] ->
        id_of (kind +:+ ":" +:+ id) = field 0 id)
  /\ (free_of ":" id = true -> field 0 id = Some id)
  /\ forall first rest,
      free_of ":" first = true ->
      id = first +:+ ":" +:+ rest ->
      field 0 id = Some first.
Proof.
  do 4 (split; [by destruct id|]). split; [|split; [|split]].
  - assert (route ("ticket:" +:+ id)
            = show_ticket_card (field 1 ("ticket" +:+ String ":" id))) as ->
      by by destruct id.
    by rewrite (field_after_prefix "ticket" id 0).
  - intros kind Hk. unfold id_of.
    apply (field_after_prefix kind id 0).
    simpl in Hk. by destruct Hk as [<-|[<-|[<-|[<-|[]]]]].
  - apply field_0_free.
  - intros first rest Hf ->. unfold field.
    change (first +:+ ":" +:+ rest) with (first +:+ String ":" rest).
    by rewrite (split_first_field ":" first rest Hf).
Qed.

(** X21: the three buttons of the rating keyboard of a ticket whose
    identifier holds no colon reach [handle_rating], which reads back
    the identifier and one of the ratings excellent, good and ok; data
    with fewer than three fields make it raise [IndexError]. *)
Theorem rating_buttons_are_read_back ticket_id :
  free_of ":" ticket_id = true ->
  map route (get_rating_keyboard ticket_id)
  = map handle_rating (get_rating_keyboard ticket_id)
  /\ map rating_of (get_rating_keyboard ticket_id)
     = [Some (ticket_id, "excellent"); Some (ticket_id, "good");
        Some (ticket_id, "ok")]
  /\ route ("rate:" +:+ ticket_id) = handle_rating ("rate:" +:+ ticket_id)
  /\ rating_of ("rate:" +:+ ticket_id) = None.
Proof.
  intros Hid.
  assert (forall rating,
            free_of ":" rating = true ->
            rating_of ("rate:" +:+ ticket_id +:+ ":" +:+ rating)
            = Some (ticket_id, rating)) as Hr.
  { intros rating Hrating. unfold rating_of, field.
    change ("rate:" +:+ ticket_id +:+ ":" +:+ rating)
      with ("rate" +:+ String ":" (ticket_id +:+ String ":" rating)).
    rewrite (split_first_field ":" "rate") by done.
    rewrite (split_first_field ":" ticket_id rating) by done.
    by rewrite split_free_of. }
  split; [by destruct ticket_id|]. split; [|split; [by destruct ticket_id|]].
  - unfold get_rating_keyboard. cbn [map].
    f_equal; [exact (Hr "excellent" eq_refl)|].
    f_equal; [exact (Hr "good" eq_refl)|].
    f_equal. exact (Hr "ok" eq_refl).
  - unfold rating_of, field.
    change ("rate:" +:+ ticket_id) with ("rate" +:+ String ":" ticket_id).
    rewrite (split_first_field ":" "rate" ticket_id) by done.
    by rewrite split_free_of.
Qed.

(** X22: no button is without a branch.  The [callback_data] of every
    button that the keyboards, the ticket card, the invitation after a
    rating and the inbox (its page buttons included) build is
    dispatched by [callback_handler] to the branch meant for it; the
    language buttons carry the locales [ru] and [en]. *)
Theorem every_button_has_its_branch :
  map route get_settings_keyboard
  = [ban_user; unban_user; handle_bans_list; clear_tickets; create_backup;
     change_language; admin_home]
  /\ map route get_language_keyboard
     = [set_admin_language (Some "ru"); set_admin_language (Some "en");
        settings]
  /\ map route get_user_language_keyboard
     = [set_user_language (Some "ru"); set_user_language (Some "en");
        user_home]
  /\ map route get_admin_main_keyboard
     = [handle_admin_inbox; handle_admin_stats; handle_admin_settings]
  /\ map route feedback_prompt_keyboard
     = [after_rate_suggestion; after_rate_review; cancel_feedback_prompt;
        user_home]
  /\ map route inbox_keyboard
     = [handle_inbox_filter "inbox_filter:all";
        handle_inbox_filter "inbox_filter:new";
        handle_inbox_filter "inbox_filter:working";
        handle_inbox_filter "inbox_filter:done";
        search_ticket_start; admin_home]
  /\ (forall page,
        route ("inbox_page:" +:+ page)
        = handle_inbox_page ("inbox_page:" +:+ page))
  /\ forall ticket_id status data,
      In data (card_keyboard ticket_id status
               ++ get_rating_keyboard ticket_id) ->
      route data <> unhandled.
Proof.
  do 6 (split; [reflexivity|]). split; [by intros []|].
  intros ticket_id status data Hin.
  apply in_app_or in Hin as [Hin|Hin].
  - destruct status; simpl in Hin;
      repeat (destruct Hin as [<-|Hin]; [by destruct ticket_id|]); done.
  - simpl in Hin.
    repeat (destruct Hin as [<-|Hin]; [by destruct ticket_id|]). done.
Qed.

End RoutingCoverage.

Section RoutingCoverageExamples.

Import Py Locales Routing.

Local Open Scope string_scope.

Lemma rating_buttons_are_read_back_witness :
  map route (get_rating_keyboard "17")
  = map handle_rating (get_rating_keyboard "17")
  /\ map rating_of (get_rating_keyboard "17")
     = [Some ("17", "excellent"); Some ("17", "good"); Some ("17", "ok")]
  /\ route ("rate:" +:+ "17") = handle_rating ("rate:" +:+ "17")
  /\ rating_of ("rate:" +:+ "17") = None.
Proof.
  apply (rating_buttons_are_read_back "17"). reflexivity.
Defined.

End RoutingCoverageExamples.

(** ** Previews, history and log files *)

Section FormattersCoverage.

Import Tickets Formatters.

Lemma length_substring_0 n s :
  String.length (String.substring 0 n s) = Nat.min n (String.length s).
Proof.
  revert s. induction n as [|n IH]; intros [|c s]; simpl; try done.
  by rewrite IH.
Qed.

Lemma substring_0_all n s :
  (String.length s <= n)%nat -> String.substring 0 n s = s.
Proof.
  revert s. induction n as [|n IH]; intros [|c s]; simpl; try done.
  - lia.
  - intros Hle. rewrite IH; [done|lia].
Qed.

Lemma length_append s1 s2 :
  String.length (s1 +:+ s2) = (String.length s1 + String.length s2)%nat.
Proof. induction s1 as [|c s1 IH]; simpl; [done|]. by rewrite IH. Qed.

(** X23: the card of a ticket shows the newest messages: what
    [format_ticket_card] lists is the end of the history, in the order
    of the history, [TICKET_HISTORY_LIMIT] messages long when the limit
    is positive and the history is longer than that, and the whole
    history otherwise. *)
Theorem card_history_shows_the_newest TICKET_HISTORY_LIMIT ticket :
  exists older,
    messages ticket = older ++ messages_to_show TICKET_HISTORY_LIMIT ticket
    /\ length (messages_to_show TICKET_HISTORY_LIMIT ticket)
       = if 0 <? TICKET_HISTORY_LIMIT
         then Nat.min (Z.to_nat TICKET_HISTORY_LIMIT) (length (messages ticket))
         else length (messages ticket).
Proof.
  unfold messages_to_show.
  destruct (Z.ltb_spec 0 TICKET_HISTORY_LIMIT) as [Hpos|Hle].
  - unfold Inbox.slice.
    set (n := Z.of_nat (length (messages ticket))).
    assert ((- TICKET_HISTORY_LIMIT <? 0) = true) as -> by lia.
    assert ((n <? 0) = false) as -> by lia.
    set (lo := Z.to_nat (Z.max (- TICKET_HISTORY_LIMIT + n) 0)).
    rewrite take_ge by (rewrite length_drop; lia).
    exists (take lo (messages ticket)). split.
    + by rewrite take_drop.
    + rewrite length_drop. lia.
  - exists []. done.
Qed.

(** X24: the one-line preview of a ticket is never longer than 33
    characters and the preview of the inbox list never longer than 103
    (when the text for "no messages" has at most 100): the first
    message is cut after 30 and after 100 characters, and the three dots
    follow it also when nothing was cut. *)
Theorem previews_are_bounded no_messages ticket :
  (String.length (brief_preview ticket) <= 33)%nat
  /\ ((String.length no_messages <= 100)%nat ->
      (String.length (inbox_preview no_messages ticket) <= 103)%nat)
  /\ forall first_msg rest,
      messages ticket = first_msg :: rest ->
      text first_msg <> ""%string ->
      (String.length (text first_msg) <= 30)%nat ->
      brief_preview ticket = text first_msg +:+ "..."
      /\ inbox_preview no_messages ticket = text first_msg +:+ "...".
Proof.
  unfold brief_preview, inbox_preview.
  split; [|split; [|intros first_msg rest Hm Htext Hlen; split]].
  - destruct (messages ticket) as [|m ms]; [simpl; lia|].
    destruct (String.eqb (text m) ""); [simpl; lia|].
    rewrite length_append, length_substring_0.
    change (String.length "...") with 3%nat. lia.
  - intros Hno. rewrite length_append.
    change (String.length "...") with 3%nat.
    destruct (messages ticket) as [|m ms]; [lia|].
    destruct (String.eqb (text m) ""); [simpl; lia|].
    rewrite length_substring_0. lia.
  - rewrite Hm. apply String.eqb_neq in Htext. rewrite Htext.
    by rewrite substring_0_all.
  - rewrite Hm. apply String.eqb_neq in Htext. rewrite Htext.
    rewrite substring_0_all; [done|lia].
Qed.

End FormattersCoverage.

Section LogsCoverage.

Import Logs.

Lemma cleanup_loop_spec cutoff files : forall removed_count,
  (forall f,
     In f (cleanup_loop cutoff files removed_count).1
     <-> In f files
         /\ ~ (is_log (filename f) = true
               /\ removable f = true
               /\ exists modified,
                   mtime f = Some modified /\ modified < cutoff))
  /\ (length (cleanup_loop cutoff files removed_count).1
      + (cleanup_loop cutoff files removed_count).2
      = length files + removed_count)%nat.
Proof.
  induction files as [|f0 rest IH]; intros c; simpl.
  - split; [|done]. intros f. tauto.
  - destruct (is_log (filename f0)) eqn:Hlog; simpl.
    + destruct (mtime f0) as [m|] eqn:Hm.
      * destruct (Z.ltb_spec m cutoff) as [Hold|Hnew].
        -- destruct (removable f0) eqn:Hrem.
           ++ destruct (IH (S c)) as [Hin Hlen]. split; [|lia].
              intros f. rewrite Hin. split.
              ** intros [H1 H2]. split; [by right|done].
              ** intros [[<-|H1] H2]; [|done].
                 exfalso. apply H2. rewrite Hlog, Hm. eauto.
           ++ destruct (IH c) as [Hin Hlen].
              destruct (cleanup_loop cutoff rest c) as [kept n]. simpl in *.
              split; [|lia]. intros f. rewrite Hin. split.
              ** intros [<-|[H1 H2]]; [|by auto].
                 split; [by left|]. intros (_ & Hr & _). congruence.
              ** intros [[<-|H1] H2]; [by left|by right].
        -- destruct (IH c) as [Hin Hlen].
           destruct (cleanup_loop cutoff rest c) as [kept n]. simpl in *.
           split; [|lia]. intros f. rewrite Hin. split.
           ++ intros [<-|[H1 H2]]; [|by auto].
              split; [by left|]. intros (_ & _ & m' & Hm' & Hlt).
              rewrite Hm in Hm'. injection Hm' as <-. lia.
           ++ intros [[<-|H1] H2]; [by left|by right].
      * destruct (IH c) as [Hin Hlen].
        destruct (cleanup_loop cutoff rest c) as [kept n]. simpl in *.
        split; [|lia]. intros f. rewrite Hin. split.
        -- intros [<-|[H1 H2]]; [|by auto].
           split; [by left|]. intros (_ & _ & m' & Hm' & _). congruence.
        -- intros [[<-|H1] H2]; [by left|by right].
    + destruct (IH c) as [Hin Hlen].
      destruct (cleanup_loop cutoff rest c) as [kept n]. simpl in *.
      split; [|lia]. intros f. rewrite Hin. split.
      * intros [<-|[H1 H2]]; [|by auto].
        split; [by left|]. intros (Hl & _). congruence.
      * intros [[<-|H1] H2]; [by left|by right].
Qed.

(** X25: what the cleanup of the logs deletes.  A file of the
    directory is gone afterwards exactly when the cleanup is enabled,
    its name starts with [bot.log] or ends with [.log], its
    modification time can be read and lies more than
    [LOG_RETENTION_DAYS] days before the time of the call, and the
    removal succeeds; every other file (the data files of the same
    directory among them) is left, and [removed_count] is the number of
    files deleted. *)
Theorem cleanup_deletes_old_logs_only LOG_CLEANUP_ENABLED LOG_RETENTION_DAYS
  now files :
  (forall f,
     In f (cleanup_old_logs LOG_CLEANUP_ENABLED LOG_RETENTION_DAYS now files).1
     <-> In f files
         /\ ~ (LOG_CLEANUP_ENABLED = true
               /\ is_log (filename f) = true
               /\ removable f = true
               /\ exists modified,
                   mtime f = Some modified
                   /\ modified < now - timedelta_days LOG_RETENTION_DAYS))
  /\ (length
        (cleanup_old_logs LOG_CLEANUP_ENABLED LOG_RETENTION_DAYS now files).1
      + (cleanup_old_logs LOG_CLEANUP_ENABLED LOG_RETENTION_DAYS now files).2
      = length files)%nat.
Proof.
  unfold cleanup_old_logs. destruct LOG_CLEANUP_ENABLED; simpl.
  - destruct (cleanup_loop_spec (now - timedelta_days LOG_RETENTION_DAYS)
                files O) as [Hin Hlen].
    split; [|lia]. intros f. rewrite Hin. tauto.
  - split; [|lia]. intros f. split; [|tauto].
    intros Hf. split; [done|]. intros (H & _). discriminate.
Qed.

End LogsCoverage.

(** ** The handlers: the registry of cards, bans, and replies *)

Section HandlerCoverage.

Import Py Config Tickets Bans Handlers.

Implicit Types (cfg : Settings) (env : Env) (b : Bot) (user : User)
  (body : string).

(** X26: the registry of ticket cards only ever holds identifiers that
    the transport confirmed.  After [send_or_update_ticket_card] the
    entry of the ticket is what it was, or the identifier of the
    message whose edit succeeded, or the identifier that
    [send_message] returned; the entries of the other tickets, the
    tickets, the bans and the conversation states are untouched. *)
Theorem card_registry_holds_confirmed_ids env ticket_id action message_id b :
  let b' := send_or_update_ticket_card env ticket_id action message_id b in
  (TICKET_CARD_MESSAGES b' !! ticket_id = TICKET_CARD_MESSAGES b !! ticket_id
   \/ (exists mid card,
         message_id = Some mid /\ mid <> 0
         /\ edit_message_text env mid card = EditOk
         /\ TICKET_CARD_MESSAGES b' !! ticket_id = Some mid)
   \/ (exists card new_id,
         send_message env card = Some new_id
         /\ TICKET_CARD_MESSAGES b' !! ticket_id = Some new_id))
  /\ (forall other, other <> ticket_id ->
        TICKET_CARD_MESSAGES b' !! other = TICKET_CARD_MESSAGES b !! other)
  /\ ticket_service b' = ticket_service b
  /\ ban_manager b' = ban_manager b
  /\ user_data b' = user_data b.
Proof.
  intros b'.
  destruct (send_or_update_ticket_card_frame env ticket_id action message_id b)
    as (Ht & Hb & Hu & _).
  split; [|split; [|done]].
  - unfold b', send_or_update_ticket_card.
    destruct (get_ticket (ticket_service b) ticket_id) as [t|]; [|by left].
    set (card := {| card_action := action; card_ticket := t;
                    card_buttons := card_buttons_for t |}).
    destruct (truthy_id message_id) eqn:Hm.
    + destruct message_id as [mid|]; [|done]. simpl in Hm.
      apply negb_true_iff, Z.eqb_neq in Hm. simpl.
      destruct (edit_message_text env mid card) eqn:He; simpl.
      * right. left. exists mid, card. by rewrite lookup_insert_eq.
      * destruct (send_message env card) as [new_id|] eqn:Hs; simpl.
        -- right. right. exists card, new_id. by rewrite lookup_insert_eq.
        -- by left.
      * destruct (send_message env card) as [new_id|] eqn:Hs; simpl.
        -- right. right. exists card, new_id. by rewrite lookup_insert_eq.
        -- by left.
    + destruct (send_message env card) as [new_id|] eqn:Hs; simpl.
      * right. right. exists card, new_id. by rewrite lookup_insert_eq.
      * by left.
  - intros other Hne. unfold b', send_or_update_ticket_card.
    destruct (get_ticket (ticket_service b) ticket_id) as [t|]; [|done].
    destruct (truthy_id message_id).
    + destruct (edit_message_text env _ _); simpl;
        try destruct (send_message env _); simpl;
        rewrite ?lookup_insert_ne; done.
    + destruct (send_message env _); simpl; rewrite ?lookup_insert_ne; done.
Qed.

Lemma find_reason_store target reason l :
  find_reason target (store_reason target reason l) = Some reason.
Proof.
  induction l as [|[u r] l IH]; simpl.
  - by rewrite Z.eqb_refl.
  - destruct (Z.eqb_spec u target) as [->|Hne]; simpl.
    + by rewrite Z.eqb_refl.
    + destruct (Z.eqb_spec u target); [done|]. apply IH.
Qed.

Lemma find_reason_store_ne target other reason l :
  other <> target ->
  find_reason other (store_reason target reason l) = find_reason other l.
Proof.
  intros Hne. induction l as [|[u r] l IH]; simpl.
  - destruct (Z.eqb_spec target other); [congruence|done].
  - destruct (Z.eqb_spec u target) as [->|Hne']; simpl.
    + destruct (Z.eqb_spec target other); [congruence|done].
    + destruct (Z.eqb_spec u other); [done|]. apply IH.
Qed.

Lemma is_banned_find_reason m target :
  is_banned m target = true <-> find_reason target (banned m) <> None.
Proof.
  unfold is_banned. induction (banned m) as [|[u r] l IH]; simpl.
  - split; [discriminate|congruence].
  - destruct (Z.eqb_spec u target); simpl; [|done]. split; done.
Qed.

Lemma unban_after_store target reason l :
  find_reason target l = None ->
  List.filter (fun entry => negb (fst entry =? target))
    (store_reason target reason l) = l.
Proof.
  induction l as [|[u r] l IH]; simpl.
  - intros _. by rewrite Z.eqb_refl.
  - destruct (Z.eqb_spec u target) as [->|Hne]; [done|]. simpl.
    destruct (Z.eqb_spec u target); [done|]. simpl. intros H.
    by rewrite IH.
Qed.

Lemma data_of_with_data_eq b u d : data_of (with_data u d b) u = d.
Proof. unfold data_of, with_data. simpl. by rewrite lookup_insert_eq. Qed.

(** X27: banning takes two messages of the administrator.  In the
    state [awaiting_ban_user_id] a text that [int] accepts is kept as
    the user to ban and the reason is asked for; a text that [int]
    rejects only gets the answer "invalid format" and the state stays.
    The next text is then the reason: for a user other than [0] who has
    no stored reason, [ban_user] is called once with that user and that
    text and the conversation ends.  For the identifier [0] the reason
    is dropped without an answer and the state stays
    [awaiting_ban_reason]. *)
Theorem ban_takes_two_messages cfg env1 env2 user id_text reason b target :
  uid user = ADMIN_ID cfg ->
  state (data_of b (uid user)) = Some awaiting_ban_user_id ->
  int_of_text env1 id_text = Some target ->
  find_reason target (get_banned_list (ban_manager b)) = None ->
  exists b1,
    admin_text_handler cfg env1 user id_text b = Some b1
    /\ ban_manager b1 = ban_manager b
    /\ state (data_of b1 (uid user)) = Some awaiting_ban_reason
    /\ outbox b1
       = outbox b ++ [ReplyText (uid user) "admin.enter_ban_reason" []]
    /\ (target = 0 ->
        admin_text_handler cfg env2 user reason b1 = Some b1)
    /\ (target <> 0 ->
        exists b2,
          admin_text_handler cfg env2 user reason b1 = Some b2
          /\ ban_manager b2 = ban_user (ban_manager b) target reason
          /\ state (data_of b2 (uid user)) = None
          /\ outbox b2
             = outbox b1
               ++ [ReplyText (uid user) "admin.user_banned"
                     [("user_id"%string, VInt target);
                      ("reason"%string, VStr reason)]])
    /\ forall bad_text,
        int_of_text env1 bad_text = None ->
        exists b0,
          admin_text_handler cfg env1 user bad_text b = Some b0
          /\ user_data b0 = user_data b
          /\ ban_manager b0 = ban_manager b
          /\ outbox b0
             = outbox b
               ++ [ReplyText (uid user) "messages.invalid_id_format" []].
Proof.
  intros Hadmin Hstate Hint Hfree.
  unfold admin_text_handler at 1.
  rewrite Hadmin, Z.eqb_refl. simpl. rewrite <- Hadmin, Hstate, Hint.
  eexists. split; [done|].
  set (b1 := emit _ _).
  assert (data_of b1 (uid user)
          = {| state := Some awaiting_ban_reason;
               reply_ticket_id := reply_ticket_id (data_of b (uid user));
               ban_user_id := Some target |}) as Hd1.
  { unfold b1. apply data_of_with_data_eq. }
  split; [done|]. split; [by rewrite Hd1|]. split; [done|].
  split; [|split].
  - intros ->. unfold admin_text_handler.
    rewrite Hadmin, Z.eqb_refl. simpl. rewrite <- Hadmin, Hd1. done.
  - intros Hnz. unfold admin_text_handler.
    rewrite Hadmin, Z.eqb_refl. simpl. rewrite <- Hadmin, Hd1. simpl.
    assert ((target =? 0) = false) as -> by lia. simpl.
    rewrite Hfree. simpl. eexists. split; [done|].
    split; [done|]. split; [|done].
    apply (data_of_put_state _ (uid user) None).
  - intros bad Hbad. unfold admin_text_handler.
    rewrite Hadmin, Z.eqb_refl. simpl. rewrite <- Hadmin, Hstate, Hbad.
    eexists. done.
Qed.

Lemma is_banned_store_ne target other reason l :
  other <> target ->
  existsb (fun entry => fst entry =? other) (store_reason target reason l)
  = existsb (fun entry => fst entry =? other) l.
Proof.
  intros Hne. induction l as [|[u r] l IH]; simpl.
  - destruct (Z.eqb_spec target other); [congruence|done].
  - destruct (Z.eqb_spec u target) as [->|Hne']; simpl; [done|].
    by rewrite IH.
Qed.

(** X28: a ban that is lifted leaves the registry as it was.  The
    administrator, not banned, bans a user other than [0] and than the
    administrator who was not in the registry, with a reason that is
    not empty; then presses the unban button and enters the same
    identifier.  After the ban the user counts as banned; after the
    unban the registry is the one from before the ban, the answer names
    the reason that had been stored, and the conversation has ended. *)
Theorem ban_then_unban_restores_the_registry cfg env1 env2 env3 env4 user
  query_message_id id_text reason b target :
  uid user = ADMIN_ID cfg ->
  is_banned (ban_manager b) (uid user) = false ->
  state (data_of b (uid user)) = Some awaiting_ban_user_id ->
  int_of_text env1 id_text = Some target ->
  int_of_text env4 id_text = Some target ->
  target <> 0 ->
  target <> uid user ->
  find_reason target (get_banned_list (ban_manager b)) = None ->
  reason <> ""%string ->
  exists b2 b4,
    process cfg [Text env1 user id_text; Text env2 user reason] b = Some b2
    /\ is_banned (ban_manager b2) target = true
    /\ process cfg
         [Pressed env3 user query_message_id unban_user_button;
          Text env4 user id_text] b2 = Some b4
    /\ banned (ban_manager b4) = banned (ban_manager b)
    /\ is_banned (ban_manager b4) target = false
    /\ ban_user_calls (ban_manager b4)
       = ban_user_calls (ban_manager b) ++ [(target, reason)]
    /\ state (data_of b4 (uid user)) = None
    /\ outbox b4
       = outbox b
         ++ [ReplyText (uid user) "admin.enter_ban_reason" [];
             ReplyText (uid user) "admin.user_banned"
               [("user_id"%string, VInt target);
                ("reason"%string, VStr reason)];
             ShowAdminScreen "admin.enter_unban_id" "settings";
             ReplyText (uid user) "admin.user_unbanned_reason"
               [("user_id"%string, VInt target);
                ("reason"%string, VStr reason)]].
Proof.
  intros Hadmin Hnb Hstate Hint1 Hint4 Hnz Hself Hfree Hreason.
  assert (truthy (Some reason) = true) as Htruthy.
  { simpl. apply negb_true_iff. by apply String.eqb_neq. }
  (* the identifier *)
  set (b1 := emit (ReplyText (uid user) "admin.enter_ban_reason" [])
               (with_data (uid user)
                  {| state := Some awaiting_ban_reason;
                     reply_ticket_id := reply_ticket_id (data_of b (uid user));
                     ban_user_id := Some target |} b)).
  assert (text_message_handler cfg env1 user id_text b = Some b1) as H1.
  { unfold text_message_handler. rewrite Hnb, Hstate.
    rewrite Hadmin, Z.eqb_refl. unfold admin_text_handler.
    rewrite Hadmin, Z.eqb_refl. simpl. rewrite <- Hadmin, Hstate, Hint1.
    done. }
  assert (data_of b1 (uid user)
          = {| state := Some awaiting_ban_reason;
               reply_ticket_id := reply_ticket_id (data_of b (uid user));
               ban_user_id := Some target |}) as Hd1
    by apply data_of_with_data_eq.
  (* the reason *)
  set (b2 := emit (ReplyText (uid user) "admin.user_banned"
                     [("user_id"%string, VInt target);
                      ("reason"%string, VStr reason)])
               (put_state (uid user) None
                  (with_bans (ban_user (ban_manager b) target reason) b1))).
  assert (text_message_handler cfg env2 user reason b1 = Some b2) as H2.
  { unfold text_message_handler.
    assert (is_banned (ban_manager b1) (uid user) = false) as -> by done.
    rewrite Hd1. cbn [state]. rewrite Hadmin, Z.eqb_refl.
    unfold admin_text_handler.
    rewrite Hadmin, Z.eqb_refl. simpl. rewrite <- Hadmin, Hd1. simpl.
    assert ((target =? 0) = false) as -> by lia. simpl.
    by rewrite Hfree. }
  assert (ban_manager b2 = ban_user (ban_manager b) target reason) as Hm2
    by done.
  assert (is_banned (ban_manager b2) (uid user) = false) as Hnb2.
  { rewrite Hm2. unfold is_banned, ban_user. simpl.
    rewrite is_banned_store_ne by done. exact Hnb. }
  (* the button and the identifier again *)
  set (b3 := callback_handler cfg env3 user query_message_id unban_user_button
               b2).
  assert (state (data_of b3 (uid user)) = Some awaiting_unban_user_id) as Hs3.
  { unfold b3. simpl. apply (data_of_put_state _ (uid user)). }
  assert (ban_manager b3 = ban_manager b2) as Hm3 by done.
  set (b4 := emit (ReplyText (uid user) "admin.user_unbanned_reason"
                     [("user_id"%string, VInt target);
                      ("reason"%string, VStr reason)])
               (put_state (uid user) None
                  (with_bans (unban_user (ban_manager b3) target) b3))).
  assert (find_reason target (get_banned_list (ban_manager b3)) = Some reason)
    as Hfound.
  { rewrite Hm3, Hm2. unfold get_banned_list, ban_user. simpl.
    apply find_reason_store. }
  assert (text_message_handler cfg env4 user id_text b3 = Some b4) as H4.
  { unfold text_message_handler. rewrite Hm3, Hnb2, Hs3.
    rewrite Hadmin, Z.eqb_refl. unfold admin_text_handler.
    rewrite Hadmin, Z.eqb_refl. simpl. rewrite <- Hadmin, Hs3, Hint4.
    rewrite find_reason_store, Htruthy. done. }
  exists b2, b4. split.
  { cbn [process dispatch]. rewrite H1. by rewrite H2. }
  split.
  { apply is_banned_find_reason. rewrite <- Hm3.
    unfold get_banned_list in Hfound. by rewrite Hfound. }
  split.
  { cbn [process dispatch]. fold b3. by rewrite H4. }
  assert (banned (ban_manager b4) = banned (ban_manager b)) as Hback.
  { unfold b4. simpl. unfold get_banned_list in Hfree.
    by apply unban_after_store. }
  split; [done|]. split.
  { destruct (is_banned (ban_manager b4) target) eqn:E; [|done].
    apply is_banned_find_reason in E. rewrite Hback in E.
    unfold get_banned_list in Hfree. done. }
  split; [done|]. split.
  { unfold b4. apply (data_of_put_state _ (uid user) None). }
  unfold b4, b3, b2, b1. simpl. by rewrite <- !app_assoc.
Qed.

(** X29: a banned user gets nothing done by writing.  Every text and
    every question command of users who are banned is answered with
    [messages.banned], whatever state their conversation is in; the
    tickets, the registry of bans, the conversation states and the
    registry of cards stay as they are. *)
Theorem banned_users_are_only_told_so cfg us b :
  Forall (fun u =>
            match u with
            | Text _ user _ | AskQuestion _ user =>
                is_banned (ban_manager b) (uid user) = true
            | Pressed _ _ _ _ => False
            end) us ->
  exists b',
    process cfg us b = Some b'
    /\ ticket_service b' = ticket_service b
    /\ ban_manager b' = ban_manager b
    /\ user_data b' = user_data b
    /\ TICKET_CARD_MESSAGES b' = TICKET_CARD_MESSAGES b
    /\ escaped b' = escaped b
    /\ outbox b'
       = outbox b
         ++ map (fun u =>
                   match u with
                   | Text _ user _ | AskQuestion _ user
                   | Pressed _ user _ _ =>
                       ReplyText (uid user) "messages.banned" []
                   end) us.
Proof.
  revert b. induction us as [|u us IH]; intros b Hall.
  - exists b. simpl. by rewrite app_nil_r.
  - apply Forall_cons in Hall as [Hu Hall].
    assert (exists user,
              dispatch cfg u b
              = Some (emit (ReplyText (uid user) "messages.banned" []) b)
              /\ match u with
                 | Text _ user' _ | AskQuestion _ user'
                 | Pressed _ user' _ _ =>
                     ReplyText (uid user') "messages.banned" []
                 end = ReplyText (uid user) "messages.banned" [])
      as (user & Hd & Hr).
    { destruct u as [env user|env user body|]; [| |done]; exists user; simpl.
      - unfold ask_question_handler. by rewrite Hu.
      - unfold text_message_handler. by rewrite Hu. }
    destruct (IH (emit (ReplyText (uid user) "messages.banned" []) b))
      as (b' & Hp & Ht & Hb & Hud & Hc & He & Ho); [done|].
    exists b'. simpl. rewrite Hd, Hp, Hr. repeat split; try done.
    rewrite Ho. simpl. by rewrite <- app_assoc.
Qed.

Lemma card_render_keeps_the_outbox env ticket_id action message_id b c :
  In c (outbox b) ->
  In c (outbox (send_or_update_ticket_card env ticket_id action message_id b)).
Proof.
  intros Hin. unfold send_or_update_ticket_card.
  destruct (get_ticket (ticket_service b) ticket_id); [|done].
  destruct (truthy_id message_id).
  - destruct (edit_message_text env _ _); simpl;
      try destruct (send_message env _); simpl;
      rewrite ?in_app_iff; tauto.
  - destruct (send_message env _); simpl; rewrite ?in_app_iff; tauto.
Qed.

Lemma get_ticket_update_first ticket_id f l :
  (forall t, id (f t) = id t) ->
  List.find (fun t => Nat.eqb (id t) ticket_id) (update_first ticket_id f l)
  = f <$> List.find (fun t => Nat.eqb (id t) ticket_id) l.
Proof.
  intros Hid. induction l as [|t l IH]; simpl; [done|].
  destruct (Nat.eqb (id t) ticket_id) eqn:E; simpl.
  - by rewrite Hid, E.
  - by rewrite E, IH.
Qed.

(** X30: a reply needs a ticket that was taken.  On a new ticket the
    reply button changes nothing.  Once the ticket is taken the button
    puts the administrator into [awaiting_reply] for that ticket, and
    the text sent next is appended to the ticket as a message of the
    support, which makes the support the last actor, is forwarded to
    the author of the ticket, and ends the conversation. *)
Theorem reply_needs_a_taken_ticket cfg env1 env2 user query_message_id
  ticket_id body b t :
  get_ticket (ticket_service b) ticket_id = Some t ->
  status t = StatusNew ->
  handle_reply_ticket cfg user ticket_id b = b
  /\ let b1 := handle_take_ticket env1 query_message_id ticket_id b in
     let b2 := handle_reply_ticket cfg user ticket_id b1 in
     let b3 := handle_admin_reply env2 user body b2 in
     state (data_of b2 (uid user)) = Some awaiting_reply
     /\ reply_ticket_id (data_of b2 (uid user)) = Some ticket_id
     /\ get_ticket (ticket_service b3) ticket_id
        = Some {| id := id t; user_id := user_id t; username := username t;
                  status := StatusWorking;
                  messages :=
                    messages t
                    ++ [{| sender := SenderSupport; text := body;
                           timestamp := now env2 |}];
                  last_actor := SenderSupport; rating := rating t |}
     /\ state (data_of b3 (uid user)) = None
     /\ reply_ticket_id (data_of b3 (uid user)) = None
     /\ In (ForwardReply (user_id t) body) (outbox b3).
Proof.
  intros Hget Hnew. split.
  { unfold handle_reply_ticket. by rewrite Hget, Hnew. }
  intros b1 b2 b3.
  assert (ticket_service b1
          = update_ticket ticket_id (set_status StatusWorking)
              (ticket_service b)) as Hs1.
  { unfold b1, handle_take_ticket, take_ticket. rewrite Hget, Hnew.
    match goal with
    | |- context [send_or_update_ticket_card ?e ?i ?a ?m ?x] =>
        by destruct (send_or_update_ticket_card_frame e i a m x) as (-> & _)
    end. }
  assert (get_ticket (ticket_service b1) ticket_id
          = Some (set_status StatusWorking t)) as Hget1.
  { rewrite Hs1. unfold get_ticket, update_ticket. cbn [tickets].
    rewrite get_ticket_update_first by done.
    unfold get_ticket in Hget. by rewrite Hget. }
  assert (b2 = emit (SendText (ADMIN_ID cfg) "messages.enter_reply" [])
                 (with_data (uid user)
                    {| state := Some awaiting_reply;
                       reply_ticket_id := Some ticket_id;
                       ban_user_id := ban_user_id (data_of b1 (uid user)) |}
                    b1)) as Hb2.
  { unfold b2, handle_reply_ticket. by rewrite Hget1. }
  assert (data_of b2 (uid user)
          = {| state := Some awaiting_reply;
               reply_ticket_id := Some ticket_id;
               ban_user_id := ban_user_id (data_of b1 (uid user)) |}) as Hd2.
  { rewrite Hb2. apply data_of_with_data_eq. }
  split; [by rewrite Hd2|]. split; [by rewrite Hd2|].
  assert (get_ticket (ticket_service b2) ticket_id
          = Some (set_status StatusWorking t)) as Hget2
    by (by rewrite Hb2).
  set (m := {| sender := SenderSupport; text := body; timestamp := now env2 |}).
  set (b2' := emit (ForwardReply (user_id t) body)
                (emit (ReplyText (uid user) "messages.answer_sent" [])
                   (with_data (uid user)
                      {| state := None; reply_ticket_id := None;
                         ban_user_id :=
                           ban_user_id (data_of b2 (uid user)) |}
                      (with_tickets
                         (update_ticket ticket_id (append_message m)
                            (ticket_service b2)) b2)))).
  assert (b3 = send_or_update_ticket_card env2 ticket_id ActionWorking
                 (TICKET_CARD_MESSAGES b2' !! ticket_id) b2') as Hb3.
  { unfold b3, handle_admin_reply, add_message. rewrite Hd2.
    cbn [reply_ticket_id]. by rewrite Hget2. }
  destruct (send_or_update_ticket_card_frame env2 ticket_id ActionWorking
              (TICKET_CARD_MESSAGES b2' !! ticket_id) b2')
    as (Ht3 & _ & Hu3 & _).
  rewrite <- Hb3 in Ht3, Hu3.
  split.
  { rewrite Ht3.
    assert (ticket_service b2'
            = update_ticket ticket_id (append_message m) (ticket_service b2))
      as -> by done.
    unfold get_ticket, update_ticket. cbn [tickets].
    rewrite get_ticket_update_first by done.
    unfold get_ticket in Hget2. by rewrite Hget2. }
  assert (data_of b3 (uid user)
          = {| state := None; reply_ticket_id := None;
               ban_user_id := ban_user_id (data_of b2 (uid user)) |}) as Hd3.
  { unfold data_of. rewrite Hu3. unfold b2'. simpl.
    by rewrite lookup_insert_eq. }
  split; [by rewrite Hd3|]. split; [by rewrite Hd3|].
  rewrite Hb3. apply card_render_keeps_the_outbox.
  unfold b2'. simpl. rewrite in_app_iff. right. by left.
Qed.

End HandlerCoverage.

Section HandlerCoverageExamples.

Import Py Config Tickets Bans Handlers LocaleExamples HandlerExamples
  HandlerCoverageExamples.

Lemma ban_takes_two_messages_witness :
  exists b1,
    admin_text_handler settings env_int admin "42" admin_bans = Some b1
    /\ ban_manager b1 = ban_manager admin_bans
    /\ state (data_of b1 (uid admin)) = Some awaiting_ban_reason
    /\ outbox b1
       = outbox admin_bans
         ++ [ReplyText (uid admin) "admin.enter_ban_reason" []]
    /\ (42 = 0 -> admin_text_handler settings env_ok admin "spam" b1 = Some b1)
    /\ (42 <> 0 ->
        exists b2,
          admin_text_handler settings env_ok admin "spam" b1 = Some b2
          /\ ban_manager b2 = ban_user (ban_manager admin_bans) 42 "spam"
          /\ state (data_of b2 (uid admin)) = None
          /\ outbox b2
             = outbox b1
               ++ [ReplyText (uid admin) "admin.user_banned"
                     [("user_id"%string, VInt 42);
                      ("reason"%string, VStr "spam")]])
    /\ forall bad_text,
        int_of_text env_int bad_text = None ->
        exists b0,
          admin_text_handler settings env_int admin bad_text admin_bans
          = Some b0
          /\ user_data b0 = user_data admin_bans
          /\ ban_manager b0 = ban_manager admin_bans
          /\ outbox b0
             = outbox admin_bans
               ++ [ReplyText (uid admin) "messages.invalid_id_format" []].
Proof.
  apply (ban_takes_two_messages settings env_int env_ok admin "42" "spam"
           admin_bans 42).
  - reflexivity.
  - reflexivity.
  - reflexivity.
  - reflexivity.
Defined.

Lemma ban_then_unban_restores_the_registry_witness :
  exists b2 b4,
    process settings [Text env_int admin "42"; Text env_ok admin "spam"]
      admin_bans = Some b2
    /\ is_banned (ban_manager b2) 42 = true
    /\ process settings
         [Pressed env_ok admin 12 unban_user_button; Text env_int admin "42"]
         b2 = Some b4
    /\ banned (ban_manager b4) = banned (ban_manager admin_bans)
    /\ is_banned (ban_manager b4) 42 = false
    /\ ban_user_calls (ban_manager b4)
       = ban_user_calls (ban_manager admin_bans) ++ [(42, "spam"%string)]
    /\ state (data_of b4 (uid admin)) = None
    /\ outbox b4
       = outbox admin_bans
         ++ [ReplyText (uid admin) "admin.enter_ban_reason" [];
             ReplyText (uid admin) "admin.user_banned"
               [("user_id"%string, VInt 42); ("reason"%string, VStr "spam")];
             ShowAdminScreen "admin.enter_unban_id" "settings";
             ReplyText (uid admin) "admin.user_unbanned_reason"
               [("user_id"%string, VInt 42); ("reason"%string, VStr "spam")]].
Proof.
  apply (ban_then_unban_restores_the_registry settings env_int env_ok env_ok
           env_int admin 12 "42" "spam" admin_bans 42).
  - reflexivity.
  - reflexivity.
  - reflexivity.
  - reflexivity.
  - reflexivity.
  - discriminate.
  - discriminate.
  - reflexivity.
  - discriminate.
Defined.

Lemma banned_users_are_only_told_so_witness :
  exists b',
    process settings [Text env_ok alice question; AskQuestion env_ok alice]
      banned_alice = Some b'
    /\ ticket_service b' = ticket_service banned_alice
    /\ ban_manager b' = ban_manager banned_alice
    /\ user_data b' = user_data banned_alice
    /\ TICKET_CARD_MESSAGES b' = TICKET_CARD_MESSAGES banned_alice
    /\ escaped b' = escaped banned_alice
    /\ outbox b'
       = outbox banned_alice
         ++ map (fun u =>
                   match u with
                   | Text _ user _ | AskQuestion _ user
                   | Pressed _ user _ _ =>
                       ReplyText (uid user) "messages.banned" []
                   end)
             [Text env_ok alice question; AskQuestion env_ok alice].
Proof.
  apply (banned_users_are_only_told_so settings
           [Text env_ok alice question; AskQuestion env_ok alice]
           banned_alice).
  repeat constructor.
Defined.

Lemma reply_needs_a_taken_ticket_witness :
  handle_reply_ticket settings admin 0 one_ticket = one_ticket
  /\ let b1 := handle_take_ticket env_ok 500 0 one_ticket in
     let b2 := handle_reply_ticket settings admin 0 b1 in
     let b3 := handle_admin_reply env_int admin "Is it plugged in?" b2 in
     state (data_of b2 (uid admin)) = Some awaiting_reply
     /\ reply_ticket_id (data_of b2 (uid admin)) = Some 0%nat
     /\ get_ticket (ticket_service b3) 0
        = Some {| id := id open_ticket; user_id := user_id open_ticket;
                  username := username open_ticket;
                  status := StatusWorking;
                  messages :=
                    messages open_ticket
                    ++ [{| sender := SenderSupport;
                           text := "Is it plugged in?";
                           timestamp := now env_int |}];
                  last_actor := SenderSupport;
                  rating := rating open_ticket |}
     /\ state (data_of b3 (uid admin)) = None
     /\ reply_ticket_id (data_of b3 (uid admin)) = None
     /\ In (ForwardReply (user_id open_ticket) "Is it plugged in?")
          (outbox b3).
Proof.
  apply (reply_needs_a_taken_ticket settings env_ok env_int admin 500 0
           "Is it plugged in?" one_ticket open_ticket).
  - reflexivity.
  - reflexivity.
Defined.

End HandlerCoverageExamples.
